(** * ai-medicine: the fetch-and-persist scripts and the citation analysis

    A shallow embedding of the four scripts of the repository:

    - [pyalex-test.py]   (module [OpenAlex]): cursor-paginated download of
      OpenAlex works into one JSON file;
    - [get-pubmed.py]    (module [PubMed]): batched PMC search with a progress
      file;
    - [main.py]          (module [Pmids]): the PMID list appended to a text
      file;
    - [analyze_normalized_citations.py] (module [Analysis]): the per-work
      score and the top-10 listing.

    The scripts only talk to the world through HTTP requests, files, the
    console and [sleep].  The remote service is a state machine
    [serve : Srv -> request -> response * Srv]; the file system is a finite
    map from paths to contents; console output is a list of events; every
    request that is sent is logged.  Python values coming out of
    [json.load] / [response.json()] are values of type [json], and the
    dynamically typed operations on them ([.get], [in], subscripting,
    iteration, truth value) are partial functions into [result]. *)

From Stdlib Require Import ZArith List String Ascii Lia QArith Floats.
From stdpp Require Import base option list gmap strings.

Set Warnings "-register-all".

Local Open Scope string_scope.
Local Open Scope list_scope.
Local Open Scope Z_scope.

(* ===================================================================== *)
(** * Python values and the builtins the scripts use                      *)
(* ===================================================================== *)

Module Py.

(** Exceptions that the modelled statements can raise. *)
Inductive exn :=
| TypeError
| AttributeError
| KeyError (k : string)
| ValueError
| JSONDecodeError
| FileNotFoundError
| StatisticsError
| OverflowError
| ZeroDivisionError
| HTTPError (status : Z).

Inductive result (A : Type) :=
| Ok (a : A)
| Raise (e : exn).
Arguments Ok {A} a.
Arguments Raise {A} e.

Definition bind {A B} (r : result A) (k : A -> result B) : result B :=
  match r with
  | Ok a => k a
  | Raise e => Raise e
  end.

Notation "'do' x <- r ; k" := (bind r (fun x => k))
  (at level 10, x name, r at level 100, k at level 200).

Fixpoint map_result {A B} (f : A -> result B) (l : list A) : result (list B) :=
  match l with
  | [] => Ok []
  | a :: l' => do b <- f a; do bs <- map_result f l'; Ok (b :: bs)
  end.

(** What [json.load] yields: [None], [bool], [int], [str], [list], [dict].
    A [dict] keeps its keys in insertion order.  JSON numbers with a
    fraction do not occur in the data the scripts handle and are left out. *)
Inductive json :=
| JNull
| JBool (b : bool)
| JInt (n : Z)
| JStr (s : string)
| JArr (l : list json)
| JObj (kvs : list (string * json)).

(** [bool(x)]. *)
Definition truthy (j : json) : bool :=
  match j with
  | JNull => false
  | JBool b => b
  | JInt n => negb (n =? 0)
  | JStr s => negb (String.eqb s "")
  | JArr l => match l with [] => false | _ => true end
  | JObj kvs => match kvs with [] => false | _ => true end
  end.

(** Lookup in an insertion-ordered dict. *)
Fixpoint dict_get (kvs : list (string * json)) (k : string) : option json :=
  match kvs with
  | [] => None
  | (k', v) :: rest => if String.eqb k' k then Some v else dict_get rest k
  end.

(** [d[k] = v]: an existing key keeps its position, a new key goes last. *)
Fixpoint dict_set (kvs : list (string * json)) (k : string) (v : json)
  : list (string * json) :=
  match kvs with
  | [] => [(k, v)]
  | (k', v') :: rest =>
      if String.eqb k' k then (k', v) :: rest
      else (k', v') :: dict_set rest k v
  end.

Definition dict_keys (kvs : list (string * json)) : list string := map fst kvs.
Definition dict_values (kvs : list (string * json)) : list json := map snd kvs.

(** [x.get(k, dflt)]: only a dict has [.get]. *)
Definition py_get (x : json) (k : string) (dflt : json) : result json :=
  match x with
  | JObj kvs => Ok (match dict_get kvs k with Some v => v | None => dflt end)
  | _ => Raise AttributeError
  end.

(** [x[k]] with a string subscript. *)
Definition py_getitem (x : json) (k : string) : result json :=
  match x with
  | JObj kvs =>
      match dict_get kvs k with
      | Some v => Ok v
      | None => Raise (KeyError k)
      end
  | _ => Raise TypeError
  end.

Fixpoint substringb (k s : string) : bool :=
  String.prefix k s ||
  match s with
  | EmptyString => false
  | String _ s' => substringb k s'
  end.

Definition is_str (k : string) (j : json) : bool :=
  match j with
  | JStr s => String.eqb s k
  | _ => false
  end.

(** [k in x] for a string [k]. *)
Definition py_contains (k : string) (x : json) : result bool :=
  match x with
  | JObj kvs => Ok (existsb (String.eqb k) (dict_keys kvs))
  | JArr l => Ok (existsb (is_str k) l)
  | JStr s => Ok (substringb k s)
  | _ => Raise TypeError
  end.

(** A [str] is held as its UTF-8 bytes: a code point starts at every byte
    that is not a continuation byte (10xxxxxx). *)
Definition is_continuation (c : ascii) : bool :=
  let n := nat_of_ascii c in ((128 <=? n) && (n <? 192))%nat.

(** [len(s)] for a [str]: the number of its code points. *)
Fixpoint str_len (s : string) : nat :=
  match s with
  | EmptyString => O
  | String c s' => if is_continuation c then str_len s' else S (str_len s')
  end.

(** [s[:n]]: the first [n] code points of [s]. *)
Fixpoint str_take (n : nat) (s : string) : string :=
  match s with
  | EmptyString => EmptyString
  | String c s' =>
      if is_continuation c then String c (str_take n s')
      else match n with
           | O => EmptyString
           | S n' => String c (str_take n' s')
           end
  end.

(** The code points of [s], each with its bytes. *)
Fixpoint code_points (s : string) : list string :=
  match s with
  | EmptyString => []
  | String c s' =>
      match s' with
      | EmptyString => [String c EmptyString]
      | String c' _ =>
          if is_continuation c' then
            match code_points s' with
            | p :: ps => String c p :: ps
            | [] => [String c EmptyString]
            end
          else String c EmptyString :: code_points s'
      end
  end.

(** What iterating over a [str] visits: its code points. *)
Definition chars (s : string) : list json := map JStr (code_points s).

(** [for v in x]: the values a [for] loop visits. *)
Definition py_iter (x : json) : result (list json) :=
  match x with
  | JArr l => Ok l
  | JObj kvs => Ok (map JStr (dict_keys kvs))
  | JStr s => Ok (chars s)
  | _ => Raise TypeError
  end.

(** [len(x)]. *)
Definition py_len (x : json) : result nat :=
  match x with
  | JArr l => Ok (length l)
  | JObj kvs => Ok (length kvs)
  | JStr s => Ok (str_len s)
  | _ => Raise TypeError
  end.

(** [x.extend(ys)] and [x.append(y)]: list methods. *)
Definition py_extend (x : json) (ys : list json) : result json :=
  match x with
  | JArr l => Ok (JArr (l ++ ys))
  | _ => Raise AttributeError
  end.

Definition py_append (x : json) (y : json) : result json :=
  py_extend x [y].

(** The contents of a file as [json.load] sees them. *)
Inductive file :=
| Corrupt
| Doc (j : json).

(** An HTTP response: the status code and, when the body is JSON, the value
    [response.json()] returns. *)
Record response := { status_code : Z; body : option json }.

Definition response_json (r : response) : result json :=
  match body r with
  | Some j => Ok j
  | None => Raise JSONDecodeError
  end.

(** How a process ends, or that it is still inside its loop. *)
Inductive outcome :=
| Exited               (* ran to the end of the script: exit status 0 *)
| Crashed (e : exn)    (* uncaught exception: traceback, exit status 1 *)
| Running.             (* still iterating when observed *)

Definition signals_failure (o : outcome) : bool :=
  match o with
  | Crashed _ => true
  | _ => false
  end.

End Py.

Import Py.

(* ===================================================================== *)
(** * pyalex-test.py                                                      *)
(* ===================================================================== *)

Module OpenAlex.

Definition output_file : string := "openalex_medicine_ai_works.json".

(** Lines printed by the script. *)
Inductive event :=
| Starting (already : nat)
| PrintError (code : Z)
| Saved (new total : nat)
| NoMorePages
| Finished.

(** One entry of the [authors] list of a record. *)
Definition make_author (author : json) : result json :=
  do a1 <- py_get author "author" (JObj []);
  do name <- py_get a1 "display_name" JNull;
  do a2 <- py_get author "author" (JObj []);
  do id <- py_get a2 "id" JNull;
  do a3 <- py_get author "author" (JObj []);
  do orcid <- py_get a3 "orcid" JNull;
  Ok (JObj [("name", name); ("id", id); ("orcid", orcid)]).

(** The [record] dict built for one [work]. *)
Definition make_record (work : json) : result json :=
  do title <- py_get work "title" JNull;
  do year <- py_get work "publication_year" JNull;
  do cited <- py_get work "cited_by_count" JNull;
  do authorships <- py_get work "authorships" (JArr []);
  do each <- py_iter authorships;
  do authors <- map_result make_author each;
  Ok (JObj [("title", title); ("publication_year", year);
            ("cited_by_count", cited); ("authors", JArr authors)]).

Section Script.

Variable Srv : Type.
(** The remote service answers [GET BASE_URL] for a value of
    [params["cursor"]]; filter, page size and mailto never change. *)
Variable serve : Srv -> json -> response * Srv.

Record state := {
  srv : Srv;
  disk : gmap string file;
  stdout : list event;
  sleeps : nat;
  requests : list json;
  cursor : json;          (* params["cursor"] *)
  all_works : json
}.

Inductive flow :=
| Continue
| Break
| Uncaught (e : exn).

(** Everything between [response.json()] and [all_works.extend]. *)
Definition parse_page (resp : response) (works : json)
  : result (json * list json * json) :=
  do data <- response_json resp;
  do results <- py_get data "results" (JArr []);
  do each <- py_iter results;
  do new_records <- map_result make_record each;
  do works' <- py_extend works new_records;
  Ok (data, new_records, works').

Definition get_next_cursor (data : json) : result json :=
  do meta <- py_get data "meta" (JObj []);
  py_get meta "next_cursor" JNull.

(** One pass through the body of [while True]. *)
Definition iteration (st : state) : flow * state :=
  let '(resp, srv') := serve (srv st) (cursor st) in
  let sent := requests st ++ [cursor st] in
  if negb (status_code resp =? 200) then
    (Break,
     {| srv := srv'; disk := disk st;
        stdout := stdout st ++ [PrintError (status_code resp)];
        sleeps := sleeps st; requests := sent;
        cursor := cursor st; all_works := all_works st |})
  else
    match parse_page resp (all_works st) with
    | Raise e =>
        (Uncaught e,
         {| srv := srv'; disk := disk st; stdout := stdout st;
            sleeps := sleeps st; requests := sent;
            cursor := cursor st; all_works := all_works st |})
    | Ok (data, new_records, works') =>
        let disk' := <[output_file := Doc works']> (disk st) in
        let total := match works' with JArr l => length l | _ => O end in
        let out' := stdout st ++ [Saved (length new_records) total] in
        match get_next_cursor data with
        | Raise e =>
            (Uncaught e,
             {| srv := srv'; disk := disk'; stdout := out';
                sleeps := sleeps st; requests := sent;
                cursor := cursor st; all_works := works' |})
        | Ok next_cursor =>
            if negb (truthy next_cursor) then
              (Break,
               {| srv := srv'; disk := disk';
                  stdout := out' ++ [NoMorePages];
                  sleeps := sleeps st; requests := sent;
                  cursor := cursor st; all_works := works' |})
            else
              (Continue,
               {| srv := srv'; disk := disk'; stdout := out';
                  sleeps := S (sleeps st); requests := sent;
                  cursor := next_cursor; all_works := works' |})
        end
    end.

(** [while True], observed after at most [fuel] iterations. *)
Fixpoint main_loop (fuel : nat) (st : state) : flow * state :=
  match fuel with
  | O => (Continue, st)
  | S fuel' =>
      match iteration st with
      | (Continue, st') => main_loop fuel' st'
      | r => r
      end
  end.

(** Lines 13-28: the initial [params] and the resume load. *)
Definition startup (s0 : Srv) (d0 : gmap string file) : result state :=
  do works <- match d0 !! output_file with
           | None => Ok (JArr [])
           | Some Corrupt => Raise JSONDecodeError
           | Some (Doc j) => Ok j
           end;
  do n <- py_len works;
  Ok {| srv := s0; disk := d0; stdout := [Starting n]; sleeps := O;
        requests := []; cursor := JStr "*"; all_works := works |}.

Definition print (e : event) (st : state) : state :=
  {| srv := srv st; disk := disk st; stdout := stdout st ++ [e];
     sleeps := sleeps st; requests := requests st;
     cursor := cursor st; all_works := all_works st |}.

(** The whole script: the outcome and the final state of the world.  A
    start-up that raises has touched nothing, which [None] records. *)
Definition main (fuel : nat) (s0 : Srv) (d0 : gmap string file)
  : outcome * option state :=
  match startup s0 d0 with
  | Raise e => (Crashed e, None)
  | Ok st =>
      match main_loop fuel st with
      | (Continue, st') => (Running, Some st')
      | (Break, st') => (Exited, Some (print Finished st'))
      | (Uncaught e, st') => (Crashed e, Some st')
      end
  end.

(** The same process state over other file contents. *)
Definition set_disk (d : gmap string file) (st : state) : state :=
  {| srv := srv st; disk := d; stdout := stdout st;
     sleeps := sleeps st; requests := requests st;
     cursor := cursor st; all_works := all_works st |}.

(** A remote that, asked from state [s] with cursor [c], hands out the
    pages [pages] one after the other, each naming the cursor of the next,
    and names no further page after the last. *)
Inductive serves_pages : Srv -> json -> list (list json) -> Prop :=
| serves_last s c s' data works next :
    serve s c = ({| status_code := 200; body := Some data |}, s') ->
    py_get data "results" (JArr []) = Ok (JArr works) ->
    get_next_cursor data = Ok next ->
    truthy next = false ->
    serves_pages s c [works]
| serves_more s c s' data works next pages :
    serve s c = ({| status_code := 200; body := Some data |}, s') ->
    py_get data "results" (JArr []) = Ok (JArr works) ->
    get_next_cursor data = Ok next ->
    truthy next = true ->
    serves_pages s' next pages ->
    serves_pages s c (works :: pages).

End Script.

Arguments srv {Srv} _.
Arguments disk {Srv} _.
Arguments stdout {Srv} _.
Arguments sleeps {Srv} _.
Arguments requests {Srv} _.
Arguments cursor {Srv} _.
Arguments all_works {Srv} _.
Arguments set_disk {Srv} _ _.

End OpenAlex.

(* ===================================================================== *)
(** * get-pubmed.py: [PMCSearcher] and [search_ml_medicine_articles]      *)
(* ===================================================================== *)

Module PubMed.

Definition progress_file : string := "search_progress.json".
Definition ml_terms : list string := ["Artificial Intelligence"].

(** The two E-utilities the search uses.  [email], [tool], [api_key],
    [retmode], [db] and [usehistory] are the same in every request;
    [esummary] is always asked with [retmax=100] and [retstart=0]. *)
Inductive request :=
| ESearch (term : string) (retmax retstart : Z)
| ESummary (id : string).

(** Messages sent to the logger. *)
Inductive event :=
| Resuming (combos : nat)
| StartingNew
| Skipping (term : string)
| Searching (query : string)
| Found (total : Z) (term : string)
| FetchingBatch (first last total : Z)
| BatchError (start : Z) (e : exn)
| WarnWebEnv (term : string)
| WarnCount (term : string)
| FoundUnique (n : nat)
| ResultsSaved (path : string).

(** [range(0, stop, step)]. *)
Definition py_range (stop step : Z) : result (list Z) :=
  if step =? 0 then Raise ValueError
  else
    let count :=
      if 0 <? step then (stop + step - 1) / step
      else (- stop - step - 1) / (- step) in
    Ok (map (fun i => Z.of_nat i * step) (seq 0 (Z.to_nat count))).

Definition as_str (j : json) : result string :=
  match j with
  | JStr s => Ok s
  | _ => Raise TypeError
  end.

(** [sep.join(x)]. *)
Definition py_join (sep : string) (x : json) : result string :=
  do each <- py_iter x;
  do strs <- map_result as_str each;
  Ok (String.concat sep strs).

(** [x[k] = v]. *)
Definition py_setitem (x : json) (k : string) (v : json) : result json :=
  match x with
  | JObj kvs => Ok (JObj (dict_set kvs k v))
  | _ => Raise TypeError
  end.

(** [x.items()] and [list(x.values())]. *)
Definition py_items (x : json) : result (list (string * json)) :=
  match x with
  | JObj kvs => Ok kvs
  | _ => Raise AttributeError
  end.

Definition py_values (x : json) : result (list json) :=
  match x with
  | JObj kvs => Ok (dict_values kvs)
  | _ => Raise AttributeError
  end.

(** Lines 273-277: the loop that files the articles of one batch. *)
Fixpoint add_articles (items : list (string * json)) (articles : json)
  : result json :=
  match items with
  | [] => Ok articles
  | (article_id, article_data) :: rest =>
      if String.eqb article_id "uids" then add_articles rest articles
      else
        do articles' <- py_setitem articles article_id article_data;
        add_articles rest articles'
  end.

(** [a in x and b in x[a]], evaluated left to right. *)
Definition has_path (a b : string) (x : json) : result bool :=
  do c <- py_contains a x;
  if c then (do inner <- py_getitem x a; py_contains b inner) else Ok false.

Section Script.

Variable Srv : Type.
Variable serve : Srv -> request -> response * Srv.
(** [int(s)] for a string [s]; [None] is [ValueError]. *)
Variable int_of_str : string -> option Z.

Variable batch_size : Z.
Variable output_file : string.

Record state := {
  srv : Srv;
  disk : gmap string file;
  log : list event;
  sleeps : nat;
  requests : list request;
  searched_combos : json;
  all_articles : json
}.

(** Statements that read and change the world and may raise. *)
Definition M (A : Type) : Type := state -> result A * state.

Definition ret {A} (a : A) : M A := fun st => (Ok a, st).
Definition lift {A} (r : result A) : M A := fun st => (r, st).
Definition seqM {A B} (m : M A) (k : A -> M B) : M B :=
  fun st =>
    match m st with
    | (Ok a, st') => k a st'
    | (Raise e, st') => (Raise e, st')
    end.
Definition try_except (body : M unit) (handler : exn -> M unit) : M unit :=
  fun st =>
    match body st with
    | (Ok u, st') => (Ok u, st')
    | (Raise e, st') => handler e st'
    end.

Notation "'run' x <- m ; k" := (seqM m (fun x => k))
  (at level 10, x name, m at level 100, k at level 200).
Notation "'exec' m ; k" := (seqM m (fun _ => k))
  (at level 10, m at level 100, k at level 200).

Definition get_combos : M json := fun st => (Ok (searched_combos st), st).
Definition get_articles : M json := fun st => (Ok (all_articles st), st).

Definition set_combos (c : json) : M unit := fun st =>
  (Ok tt, {| srv := srv st; disk := disk st; log := log st;
             sleeps := sleeps st; requests := requests st;
             searched_combos := c; all_articles := all_articles st |}).

Definition set_articles (a : json) : M unit := fun st =>
  (Ok tt, {| srv := srv st; disk := disk st; log := log st;
             sleeps := sleeps st; requests := requests st;
             searched_combos := searched_combos st; all_articles := a |}).

Definition logger (e : event) : M unit := fun st =>
  (Ok tt, {| srv := srv st; disk := disk st; log := log st ++ [e];
             sleeps := sleeps st; requests := requests st;
             searched_combos := searched_combos st;
             all_articles := all_articles st |}).

Definition sleep : M unit := fun st =>
  (Ok tt, {| srv := srv st; disk := disk st; log := log st;
             sleeps := S (sleeps st); requests := requests st;
             searched_combos := searched_combos st;
             all_articles := all_articles st |}).

(** [with open(path, "w") as f: json.dump(j, f)]. *)
Definition write_json (path : string) (j : json) : M unit := fun st =>
  (Ok tt, {| srv := srv st; disk := <[path := Doc j]> (disk st);
             log := log st; sleeps := sleeps st; requests := requests st;
             searched_combos := searched_combos st;
             all_articles := all_articles st |}).

(** [requests.get] followed by the status test the four [PMCSearcher]
    methods share: the parsed body for 200, [raise_for_status()] otherwise,
    which raises for 4xx and 5xx and else lets the method return [None]. *)
Definition http_get (req : request) : M json := fun st =>
  let '(resp, srv') := serve (srv st) req in
  let st' := {| srv := srv'; disk := disk st; log := log st;
                sleeps := sleeps st; requests := requests st ++ [req];
                searched_combos := searched_combos st;
                all_articles := all_articles st |} in
  let code := status_code resp in
  if code =? 200 then (response_json resp, st')
  else if (400 <=? code) && (code <? 600) then (Raise (HTTPError code), st')
  else (Ok JNull, st').

(** [PMCSearcher.search(query, retmax=..., retstart=...)]. *)
Definition search (query : string) (retmax retstart : Z) : M json :=
  http_get (ESearch query retmax retstart).

(** [PMCSearcher.fetch_article_details(id_list)]; [webenv] and [query_key]
    keep their default [None]. *)
Definition fetch_article_details (id_list : json) : M json :=
  if truthy id_list then
    run ids <- lift (py_join "," id_list);
    http_get (ESummary ids)
  else
    ret (JObj [("error", JStr "No IDs or WebEnv+QueryKey provided")]).

(** Writes [{"searched_combos": ..., "articles": ...}] to the progress
    file. *)
Definition save_progress : M unit :=
  run combos <- get_combos;
  run articles <- get_articles;
  write_json progress_file
    (JObj [("searched_combos", combos); ("articles", articles)]).

Definition append_combo (combo_key : string) : M unit :=
  run combos <- get_combos;
  run combos' <- lift (py_append combos (JStr combo_key));
  set_combos combos'.

(** Lines 261-277: the articles of one batch are looked up and filed. *)
Definition file_batch (search_batch : json) : M unit :=
  run has_ids <- lift (has_path "esearchresult" "idlist" search_batch);
  if has_ids then
    run inner <- lift (py_getitem search_batch "esearchresult");
    run id_list <- lift (py_getitem inner "idlist");
    if truthy id_list then
      run details <- fetch_article_details id_list;
      run has_result <- lift (py_contains "result" details);
      if has_result then
        run res <- lift (py_getitem details "result");
        run items <- lift (py_items res);
        run articles <- get_articles;
        run articles' <- lift (add_articles items articles);
        set_articles articles'
      else ret tt
    else ret tt
  else ret tt.

(** Lines 256-291: the body of [try]. *)
Definition batch_body (query combo_key : string) (retmax start : Z)
  : M unit :=
  run search_batch <- search query retmax start;
  exec file_batch search_batch;
  exec append_combo combo_key;
  exec save_progress;
  sleep.

(** Lines 250-303: one pass of [for start in range(...)]. *)
Definition batch (query combo_key : string) (total_results start : Z)
  : M unit :=
  let retmax := Z.min batch_size (total_results - start) in
  exec logger (FetchingBatch (start + 1) (start + retmax) total_results);
  try_except (batch_body query combo_key retmax start)
    (fun e => exec logger (BatchError start e); save_progress).

Fixpoint batch_loop (query combo_key : string) (total_results : Z)
  (starts : list Z) : M unit :=
  match starts with
  | [] => ret tt
  | start :: rest =>
      exec batch query combo_key total_results start;
      batch_loop query combo_key total_results rest
  end.

(** [int(x)]. *)
Definition py_int (x : json) : result Z :=
  match x with
  | JInt n => Ok n
  | JBool b => Ok (if b then 1 else 0)
  | JStr s =>
      match int_of_str s with
      | Some n => Ok n
      | None => Raise ValueError
      end
  | _ => Raise TypeError
  end.

(** Lines 230-307: what happens for a term that is not skipped, up to the
    end of the batch loop.  [take_batches = None] is the code as it is;
    [Some k] stops after [k] passes of the batch loop, which is where a
    process killed at that moment leaves the world. *)
Definition search_term (ml_term : string) (take_batches : option nat)
  : M unit :=
  let combo_key := ml_term in
  let query := ml_term in
  exec logger (Searching query);
  run initial_results <- search query 0 0;
  run has_count <- lift (has_path "esearchresult" "count" initial_results);
  if has_count then
    run inner <- lift (py_getitem initial_results "esearchresult");
    run count <- lift (py_getitem inner "count");
    run total_results <- lift (py_int count);
    exec logger (Found total_results ml_term);
    run inner1 <- lift (py_getitem initial_results "esearchresult");
    run webenv <- lift (py_get inner1 "webenv" JNull);
    run inner2 <- lift (py_getitem initial_results "esearchresult");
    run query_key <- lift (py_get inner2 "querykey" JNull);
    if truthy webenv && truthy query_key then
      run starts <- lift (py_range total_results batch_size);
      batch_loop query combo_key total_results
        (match take_batches with
         | None => starts
         | Some k => firstn k starts
         end)
    else logger (WarnWebEnv ml_term)
  else logger (WarnCount ml_term).

(** Lines 223-314: one pass of [for ml_term in ml_terms]. *)
Definition process_term (ml_term : string) : M unit :=
  let combo_key := ml_term in
  run combos <- get_combos;
  run done <- lift (py_contains combo_key combos);
  if done then logger (Skipping ml_term)
  else
    exec search_term ml_term None;
    exec append_combo combo_key;
    save_progress.

Fixpoint term_loop (terms : list string) : M unit :=
  match terms with
  | [] => ret tt
  | ml_term :: rest => exec process_term ml_term; term_loop rest
  end.

(** Lines 203-215: the progress file is read inside [try]; a missing or
    unreadable file starts a new search, any other exception escapes. *)
Definition read_progress : M unit := fun st =>
  match disk st !! progress_file with
  | Some (Doc progress_data) =>
      (run combos <- lift (py_get progress_data "searched_combos" (JArr []));
       exec set_combos combos;
       run articles <- lift (py_get progress_data "articles" (JObj []));
       exec set_articles articles;
       run n <- lift (py_len combos);
       logger (Resuming n)) st
  | _ =>
      (exec set_combos (JArr []); logger StartingNew) st
  end.

(** Lines 200-215. *)
Definition load_progress : M unit :=
  exec set_articles (JObj []);
  read_progress.

(** Lines 316-325. *)
Definition save_results : M json :=
  run articles <- get_articles;
  run article_list <- lift (py_values articles);
  exec logger (FoundUnique (length article_list));
  exec write_json output_file (JArr article_list);
  exec logger (ResultsSaved output_file);
  ret articles.

Definition search_ml_medicine_articles : M json :=
  exec load_progress;
  exec term_loop ml_terms;
  save_results.

(** The process when it starts: nothing logged, nothing requested, and
    [all_articles = {}]. *)
Definition boot (s0 : Srv) (d0 : gmap string file) : state :=
  {| srv := s0; disk := d0; log := []; sleeps := O; requests := [];
     searched_combos := JArr []; all_articles := JObj [] |}.

(** The state of the world when the process is killed right after the
    [k]-th batch of the first term: the statements of
    [search_ml_medicine_articles] up to that point. *)
Definition killed_after (k : nat) : M unit :=
  exec load_progress;
  match ml_terms with
  | [] => ret tt
  | ml_term :: _ =>
      run combos <- get_combos;
      run done <- lift (py_contains ml_term combos);
      if done then logger (Skipping ml_term)
      else search_term ml_term (Some k)
  end.

(** ** Observations used to state what the search does *)

(** What a checkpoint holds for a state of the process. *)
Definition checkpoint (st : state) : json :=
  JObj [("searched_combos", searched_combos st);
        ("articles", all_articles st)].

(** What requests, log messages and the filing of a batch leave as it
    was. *)
Definition frame (st st' : state) : Prop :=
  searched_combos st' = searched_combos st /\ disk st' = disk st /\
  sleeps st' = sleeps st.

Definition framed {A} (m : M A) : Prop := forall st, frame st (snd (m st)).

(** No identifier occurs twice in [all_articles]. *)
Definition ids_unique (st : state) : Prop :=
  forall kvs, all_articles st = JObj kvs -> NoDup (dict_keys kvs).

Definition keeps_ids_unique {A} (m : M A) : Prop :=
  forall st, ids_unique st -> ids_unique (snd (m st)).

(** The articles object of the progress file, if there is one, has
    distinct keys, as every object built by [json.load] has. *)
Definition progress_ok (d : gmap string file) : Prop :=
  forall progress_data kvs,
    d !! progress_file = Some (Doc progress_data) ->
    py_get progress_data "articles" (JObj []) = Ok (JObj kvs) ->
    NoDup (dict_keys kvs).

(** The progress file holds the checkpoint of the current state. *)
Definition synced (st : state) : Prop :=
  disk st !! progress_file = Some (Doc (checkpoint st)).

(** From [st] to [st'] some batches went through: each slept once and
    appended the key of the term to [searched_combos]. *)
Definition progressed (combo_key : string) (st st' : state) : Prop :=
  exists n : nat,
    sleeps st' = (sleeps st + n)%nat /\
    (forall cs, searched_combos st = JArr cs ->
                searched_combos st' = JArr (cs ++ replicate n (JStr combo_key))) /\
    (n = O -> searched_combos st' = searched_combos st) /\
    (n <> O -> exists cs, searched_combos st = JArr cs).

(** A statement under which batches may go through, and which leaves the
    progress file in step with the state whenever one did. *)
Definition advances (combo_key : string) {A} (m : M A) : Prop :=
  forall st,
    progressed combo_key st (snd (m st)) /\
    ((sleeps st < sleeps (snd (m st)))%nat -> synced (snd (m st))).

(** How often the key of a term occurs in [searched_combos]. *)
Definition count_key (combo_key : string) (combos : json) : nat :=
  match combos with
  | JArr l => length (List.filter (is_str combo_key) l)
  | _ => O
  end.

End Script.

Arguments srv {Srv} _.
Arguments disk {Srv} _.
Arguments log {Srv} _.
Arguments sleeps {Srv} _.
Arguments requests {Srv} _.
Arguments searched_combos {Srv} _.
Arguments all_articles {Srv} _.
Arguments ret {Srv A} _ _.
Arguments lift {Srv A} _ _.
Arguments seqM {Srv A B} _ _ _.
Arguments try_except {Srv} _ _ _.
Arguments get_combos {Srv} _.
Arguments get_articles {Srv} _.
Arguments set_combos {Srv} _ _.
Arguments set_articles {Srv} _ _.
Arguments logger {Srv} _ _.
Arguments sleep {Srv} _.
Arguments write_json {Srv} _ _ _.
Arguments save_progress {Srv} _.
Arguments append_combo {Srv} _ _.
Arguments checkpoint {Srv} _.
Arguments frame {Srv} _ _.
Arguments synced {Srv} _.
Arguments advances {Srv} _ {A} _.
Arguments progressed {Srv} _ _ _.
Arguments framed {Srv A} _.
Arguments ids_unique {Srv} _.
Arguments keeps_ids_unique {Srv A} _.
Arguments boot {Srv} _ _.

End PubMed.

(* ===================================================================== *)
(** * main.py                                                             *)
(* ===================================================================== *)

Module Pmids.

Definition pmidsmeta : string := "pmidsmeta.txt".

Section Script.

Variable Srv : Type.
(** [fetch.pmids_for_query(query_string, retstart=..., retmax=500,
    pmc_only=True)]: the value it returns or the exception it raises. *)
Variable serve : Srv -> Z -> result json * Srv.
(** [str(pmid)]. *)
Variable py_str : json -> string.

(** A text file is the list of its lines. *)
Record state := {
  srv : Srv;
  disk : gmap string (list string);
  successes : nat;            (* how often "Success" was printed *)
  sleeps : nat;
  requests : list Z;
  start_count : Z;
  articles : list json
}.

Inductive flow :=
| Continue
| Break
| Uncaught (e : exn).

(** Lines 20-23: the lines written through [f] until the loops end or
    raise. *)
Fixpoint write_batches (batches : list json) (lines : list string)
  : result unit * list string :=
  match batches with
  | [] => (Ok tt, lines)
  | pmid_batch :: rest =>
      match py_iter pmid_batch with
      | Raise e => (Raise e, lines)
      | Ok pmids => write_batches rest (lines ++ map py_str pmids)
      end
  end.

Definition iteration (st : state) : flow * state :=
  let '(r, srv') := serve (srv st) (start_count st) in
  let sent := requests st ++ [start_count st] in
  match r with
  | Raise e =>
      (Uncaught e,
       {| srv := srv'; disk := disk st; successes := successes st;
          sleeps := sleeps st; requests := sent;
          start_count := start_count st; articles := articles st |})
  | Ok articles_batch =>
      let succ' := if truthy articles_batch then S (successes st)
                   else successes st in
      let articles' := articles st ++ [articles_batch] in
      (* open(..., "a") keeps what the file holds and creates it if absent *)
      let old := match disk st !! pmidsmeta with
                 | Some lines => lines
                 | None => []
                 end in
      let '(w, lines') := write_batches articles' old in
      let disk' := <[pmidsmeta := lines']> (disk st) in
      match w with
      | Raise e =>
          (Uncaught e,
           {| srv := srv'; disk := disk'; successes := succ';
              sleeps := sleeps st; requests := sent;
              start_count := start_count st; articles := articles' |})
      | Ok _ =>
          match articles_batch with
          | JNull =>
              (Break,
               {| srv := srv'; disk := disk'; successes := succ';
                  sleeps := sleeps st; requests := sent;
                  start_count := start_count st; articles := articles' |})
          | _ =>
              (Continue,
               {| srv := srv'; disk := disk'; successes := succ';
                  sleeps := S (sleeps st); requests := sent;
                  start_count := start_count st + 500;
                  articles := articles' |})
          end
      end
  end.

Fixpoint main_loop (fuel : nat) (st : state) : flow * state :=
  match fuel with
  | O => (Continue, st)
  | S fuel' =>
      match iteration st with
      | (Continue, st') => main_loop fuel' st'
      | r => r
      end
  end.

Definition boot (s0 : Srv) (d0 : gmap string (list string)) : state :=
  {| srv := s0; disk := d0; successes := O; sleeps := O; requests := [];
     start_count := 30294; articles := [] |}.

Definition main (fuel : nat) (s0 : Srv) (d0 : gmap string (list string))
  : outcome * state :=
  match main_loop fuel (boot s0 d0) with
  | (Continue, st) => (Running, st)
  | (Break, st) => (Exited, st)
  | (Uncaught e, st) => (Crashed e, st)
  end.

End Script.

Arguments srv {Srv} _.
Arguments disk {Srv} _.
Arguments successes {Srv} _.
Arguments sleeps {Srv} _.
Arguments requests {Srv} _.
Arguments start_count {Srv} _.
Arguments articles {Srv} _.
Arguments boot {Srv} _ _.

End Pmids.

(* ===================================================================== *)
(** * analyze_normalized_citations.py                                     *)
(* ===================================================================== *)

Module Analysis.

(** The works file holds what pyalex-test.py wrote: every record has the
    four keys, and OpenAlex gives a string or null for a title or a name,
    an integer or null for a year or a count. *)
Record author := {
  name : option string;
  id : option string;
  orcid : option string
}.

Record work := {
  title : option string;
  publication_year : option Z;
  cited_by_count : option Z;
  authors : list author
}.

Definition opt_str (j : json) : option (option string) :=
  match j with
  | JNull => Some None
  | JStr s => Some (Some s)
  | _ => None
  end.

Definition opt_int (j : json) : option (option Z) :=
  match j with
  | JNull => Some None
  | JInt n => Some (Some n)
  | _ => None
  end.

Definition author_of_json (j : json) : option author :=
  match j with
  | JObj kvs =>
      n ← dict_get kvs "name" ≫= opt_str;
      i ← dict_get kvs "id" ≫= opt_str;
      o ← dict_get kvs "orcid" ≫= opt_str;
      Some {| name := n; id := i; orcid := o |}
  | _ => None
  end.

Definition work_of_json (j : json) : option work :=
  match j with
  | JObj kvs =>
      t ← dict_get kvs "title" ≫= opt_str;
      y ← dict_get kvs "publication_year" ≫= opt_int;
      c ← dict_get kvs "cited_by_count" ≫= opt_int;
      al ← dict_get kvs "authors";
      match al with
      | JArr l =>
          a ← mapM author_of_json l;
          Some {| title := t; publication_year := y;
                  cited_by_count := c; authors := a |}
      | _ => None
      end
  | _ => None
  end.

(** Lines 8-9 for a file of that shape. *)
Definition load_works (d : gmap string file) : option (list work) :=
  match d !! OpenAlex.output_file with
  | Some (Doc (JArr l)) => mapM work_of_json l
  | _ => None
  end.

(** [citations_by_year[year].append(citations)] on the [defaultdict]. *)
Fixpoint append_at (year : Z) (citations : option Z)
  (d : list (Z * list (option Z))) : list (Z * list (option Z)) :=
  match d with
  | [] => [(year, [citations])]
  | (y, cites) :: rest =>
      if y =? year then (y, cites ++ [citations]) :: rest
      else (y, cites) :: append_at year citations rest
  end.

(** [if year:] for an integer or [None]. *)
Definition year_truthy (year : option Z) : option Z :=
  match year with
  | Some y => if y =? 0 then None else Some y
  | None => None
  end.

(** Lines 12-17. *)
Definition citations_by_year (works : list work)
  : list (Z * list (option Z)) :=
  fold_left
    (fun d w =>
       match year_truthy (publication_year w) with
       | Some y => append_at y (cited_by_count w) d
       | None => d
       end)
    works [].

(** [citations_by_year[year]] for a year that is a key. *)
Fixpoint by_year_get (d : list (Z * list (option Z))) (year : Z)
  : option (list (option Z)) :=
  match d with
  | [] => None
  | (y, cites) :: rest => if y =? year then Some cites else by_year_get rest year
  end.

Fixpoint sum_cites (cites : list (option Z)) : result Z :=
  match cites with
  | [] => Ok 0
  | None :: _ => Raise TypeError
  | Some c :: rest => do s <- sum_cites rest; Ok (c + s)
  end.

(** [statistics.mean] of integers: the exact quotient (Python rounds it to
    a float when it is not an integer, which keeps its sign). *)
Definition mean (cites : list (option Z)) : result Q :=
  match cites with
  | [] => Raise StatisticsError
  | _ =>
      do s <- sum_cites cites;
      Ok (Qmake s (Pos.of_nat (length cites)))
  end.

(** An entry of [citation_stats].  The median is computed after the mean,
    cannot raise once the mean exists, and is never read. *)
Record stats := { average : Q; count : nat }.

Definition year_stats (entry : Z * list (option Z)) : result (Z * stats) :=
  let '(year, cites) := entry in
  do avg <- mean cites;
  Ok (year, {| average := avg; count := length cites |}).

(** Lines 20-27. *)
Definition citation_stats (works : list work) : result (list (Z * stats)) :=
  map_result year_stats (citations_by_year works).

Fixpoint stats_get (d : list (Z * stats)) (year : Z) : option stats :=
  match d with
  | [] => None
  | (y, s) :: rest => if y =? year then Some s else stats_get rest year
  end.

Definition current_year : Z := 2025.

(** A binary64 value that was rounded from an exact one: Python raises
    [OverflowError] where the rounding leaves the finite range. *)
Definition finite (sf : spec_float) : result float :=
  match sf with
  | S754_infinity _ => Raise OverflowError
  | _ => Ok (SF2Prim sf)
  end.

(** The integer [z] as a float operand, as in [x - z] for a float [x]: the
    nearest binary64 value, ties to even, for an integer of any size.  It
    is the rounding by which [PrimFloat.of_uint63] is specified, without
    the bound of 63 bits. *)
Definition float_of_Z (z : Z) : result float :=
  finite (binary_normalize prec emax z 0 false).

(** [a / b] for two integers of any size: the exact quotient rounded once
    to the nearest binary64 value, ties to even.  It is the division by
    which [PrimFloat.div] is specified, run on the integers themselves
    instead of on their rounded values. *)
Definition true_div (a b : Z) : result float :=
  if b =? 0 then Raise ZeroDivisionError
  else if a =? 0 then Ok (if b <? 0 then neg_zero else zero)
  else
    let '(m, e, l) := SFdiv_core_binary prec emax (Z.abs a) 0 (Z.abs b) 0 in
    finite (binary_round_aux prec emax (xorb (a <? 0) (b <? 0)) m e l).

(** [citations / current_year - int(year) + 1] as Python parses it: the
    quotient of the two integers, then [float - int] and [float + int],
    each of which converts its integer operand. *)
Definition score_expr (citations year : Z) : result float :=
  do quotient <- true_div citations current_year;
  do y <- float_of_Z year;
  let difference := PrimFloat.sub quotient y in
  do one <- float_of_Z 1;
  Ok (PrimFloat.add difference one).

(** Citations per year of age, which the expression is not. *)
Definition per_year_of_age (citations year : Z) : result float :=
  true_div citations (current_year - year + 1).

(** The condition of line 34. *)
Definition has_positive_average (cs : list (Z * stats)) (year : option Z)
  : bool :=
  match year with
  | None => false
  | Some y =>
      match stats_get cs y with
      | Some s => negb (Qle_bool (average s) (0 # 1))
      | None => false
      end
  end.

(** Lines 31-37: the value stored under ["normalized_citation_score"]. *)
Definition normalized_citation_score (cs : list (Z * stats)) (w : work)
  : result (option float) :=
  if has_positive_average cs (publication_year w) then
    match cited_by_count w, publication_year w with
    | Some citations, Some year =>
        do score <- score_expr citations year; Ok (Some score)
    | _, _ => Raise TypeError
    end
  else Ok None.

(** Lines 30-37: every work paired with its new field. *)
Definition add_scores (cs : list (Z * stats)) (works : list work)
  : result (list (work * option float)) :=
  map_result (fun w => do s <- normalized_citation_score cs w; Ok (w, s)) works.

(** [sorted(..., key=score, reverse=True)]: stable, largest first. *)
Fixpoint insert_desc (x : work * float) (l : list (work * float))
  : list (work * float) :=
  match l with
  | [] => [x]
  | y :: rest =>
      if PrimFloat.ltb (snd x) (snd y) then y :: insert_desc x rest
      else x :: y :: rest
  end.

Definition sort_desc (l : list (work * float)) : list (work * float) :=
  fold_right insert_desc [] l.

(** Lines 40-44. *)
Definition ranked (scored : list (work * option float))
  : list (work * float) :=
  sort_desc
    (omap (fun ws => match snd ws with
                     | Some s => Some (fst ws, s)
                     | None => None
                     end) scored).

Inductive shown_author :=
| Unknown
| FirstAuthor (n : option string).

(** What lines 49-55 print for one work. *)
Record entry := {
  rank : nat;
  title80 : string;
  year : option Z;
  citations : option Z;
  score : float;
  first_author : shown_author
}.

(** [work['title'][:80]] and the rest of one pass of the printing loop. *)
Definition print_entry (i : nat) (ws : work * float) : result entry :=
  match title (fst ws) with
  | None => Raise TypeError
  | Some t =>
      Ok {| rank := i;
            title80 := str_take 80 t;
            year := publication_year (fst ws);
            citations := cited_by_count (fst ws);
            score := snd ws;
            first_author := match authors (fst ws) with
                            | [] => Unknown
                            | a :: _ => FirstAuthor (name a)
                            end |}
  end.

(** Lines 48-55: the entries printed, and the exception that stopped the
    loop if one did. *)
Fixpoint print_from (i : nat) (l : list (work * float))
  : list entry * option exn :=
  match l with
  | [] => ([], None)
  | ws :: rest =>
      match print_entry i ws with
      | Raise e => ([], Some e)
      | Ok en =>
          let '(printed, stop) := print_from (S i) rest in
          (en :: printed, stop)
      end
  end.

Definition print_top10 (r : list (work * float)) : list entry * option exn :=
  print_from 1 (firstn 10 r).

(** Lines 11-55. *)
Definition analyze (works : list work) : result (list entry) :=
  do cs <- citation_stats works;
  do scored <- add_scores cs works;
  match print_top10 (ranked scored) with
  | (printed, None) => Ok printed
  | (_, Some e) => Raise e
  end.

End Analysis.

(* ===================================================================== *)
(** * get-pubmed.py: [fetch_full_text] and [download_full_texts]          *)
(* ===================================================================== *)

Module Download.

Definition download_progress_file : string := "download_progress.json".

(** The answer of [efetch]: the status code and [response.text];
    [response.content] is the same text as bytes. *)
Record reply := { status : Z; text : string }.

(** What a path holds: a JSON document, or the bytes that were written.
    The file system is a map from paths to contents.  Directories are no
    entries of the map: what [os.makedirs] does is a function of the
    environment (below), and once it has succeeded [open(..., "wb")] for a
    file of that directory is taken to succeed. *)
Inductive content :=
| Doc (j : json)
| Bytes (s : string).

(** ** The set [downloaded_ids]

    A Python set of JSON values is the list of its members in the order
    in which they were first added. *)

(** Lists and dicts are not hashable. *)
Definition hashable (j : json) : bool :=
  match j with
  | JArr _ | JObj _ => false
  | _ => true
  end.

(** [a == b] for hashable values: [True == 1] and [False == 0]. *)
Definition py_eq (a b : json) : bool :=
  match a, b with
  | JNull, JNull => true
  | JBool x, JBool y => Bool.eqb x y
  | JBool x, JInt n => n =? (if x then 1 else 0)
  | JInt n, JBool x => n =? (if x then 1 else 0)
  | JInt m, JInt n => m =? n
  | JStr s, JStr t => String.eqb s t
  | _, _ => false
  end.

(** [x in members]. *)
Definition set_mem (x : json) (members : list json) : bool :=
  existsb (py_eq x) members.

(** [members.add(x)]. *)
Definition set_add (x : json) (members : list json) : list json :=
  if set_mem x members then members else members ++ [x].

(** [set(l)], from the members found so far. *)
Fixpoint py_set (l : list json) (members : list json)
  : result (list json) :=
  match l with
  | [] => Ok members
  | x :: rest =>
      if hashable x then py_set rest (set_add x members)
      else Raise TypeError
  end.

(** What [except Exception] catches in the download loop. *)
Inductive failure :=
| Builtin (e : exn)
| HtmlInsteadOfXml.

Inductive event :=
| Resuming (n : nat)
| NoProgress
| SkipDownloaded (article_id : string)
| Downloading (k total : nat) (title : json) (article_id : string)
| SavedTo (path : string)
| DownloadError (article_id : string) (f : failure).

(** [os.path.join(output_dir, name)] for a [name] that does not start with
    a slash. *)
Definition ends_with_slash (s : string) : bool :=
  match String.get (String.length s - 1) s with
  | Some c => Ascii.eqb c "/"
  | None => false
  end.

Definition path_join (output_dir name : string) : string :=
  if String.eqb output_dir "" || ends_with_slash output_dir
  then output_dir ++ name
  else output_dir ++ "/" ++ name.

(** [f"PMC{article_id}.xml"] under [output_dir]. *)
Definition xml_path (output_dir article_id : string) : string :=
  path_join output_dir ("PMC" ++ article_id ++ ".xml").

Section Script.

Variable Srv : Type.
(** [requests.get(self.fetch_url, ...)] for a PMC id, with [retmode=xml]. *)
Variable serve : Srv -> string -> reply * Srv.
(** [list(downloaded_ids)]: the order in which Python iterates over the
    set. *)
Variable order : list json -> list json.
(** [json.load] on bytes; [None] is [JSONDecodeError]. *)
Variable loads : string -> option json.
(** [os.makedirs(output_dir, exist_ok=True)] on a file system: the file
    system it leaves, or the [OSError] it raises ([FileNotFoundError] for
    the empty path, for one). *)
Variable makedirs :
  string -> gmap string content -> result (gmap string content).

(** [log] is what the logger emitted, which goes to the console and to
    the log file; [disk] holds the other files. *)
Record state := {
  srv : Srv;
  disk : gmap string content;
  log : list event;
  sleeps : nat;
  requests : list string;
  downloaded_ids : list json;
  completed : nat
}.

Definition logger (e : event) (st : state) : state :=
  {| srv := srv st; disk := disk st; log := log st ++ [e];
     sleeps := sleeps st; requests := requests st;
     downloaded_ids := downloaded_ids st; completed := completed st |}.

Definition write (path : string) (c : content) (st : state) : state :=
  {| srv := srv st; disk := <[path := c]> (disk st); log := log st;
     sleeps := sleeps st; requests := requests st;
     downloaded_ids := downloaded_ids st; completed := completed st |}.

Definition count_completed (st : state) : state :=
  {| srv := srv st; disk := disk st; log := log st;
     sleeps := sleeps st; requests := requests st;
     downloaded_ids := downloaded_ids st; completed := S (completed st) |}.

(** [PMCSearcher.fetch_full_text(pmc_id)] with [output_format="xml"]: the
    content, [None] when [raise_for_status()] lets a status that is neither
    200 nor an error pass, or an exception. *)
Definition fetch_full_text (pmc_id : string) (st : state)
  : (option string + failure) * state :=
  let '(rep, srv') := serve (srv st) pmc_id in
  let st' := {| srv := srv'; disk := disk st; log := log st;
                sleeps := sleeps st; requests := requests st ++ [pmc_id];
                downloaded_ids := downloaded_ids st;
                completed := completed st |} in
  if status rep =? 200 then
    if substringb "<!DOCTYPE html" (str_take 100 (text rep))
    then (inr HtmlInsteadOfXml, st')
    else (inl (Some (text rep)), st')
  else if (400 <=? status rep) && (status rep <? 600)
  then (inr (Builtin (HTTPError (status rep))), st')
  else (inl None, st').

(** Lines 380-399: [try] and [except] for one article. *)
Definition attempt (output_dir article_id : string) (st : state) : state :=
  match fetch_full_text article_id st with
  | (inr f, st1) => logger (DownloadError article_id f) st1
  | (inl full_text, st1) =>
      let filename := xml_path output_dir article_id in
      (* open(filename, "wb") truncates or creates the file *)
      match full_text with
      | None =>
          logger (DownloadError article_id (Builtin TypeError))
            (write filename (Bytes "") st1)
      | Some bytes =>
          let st2 := logger (SavedTo filename)
                       (write filename (Bytes bytes) st1) in
          let ids := set_add (JStr article_id) (downloaded_ids st2) in
          {| srv := srv st2;
             disk := <[download_progress_file := Doc (JArr (order ids))]>
                       (disk st2);
             log := log st2; sleeps := S (sleeps st2);
             requests := requests st2;
             downloaded_ids := ids; completed := completed st2 |}
      end
  end.

(** Lines 365-401: the loop over [articles.items()]. *)
Fixpoint download_loop (output_dir : string) (total_articles : nat)
  (items : list (string * json)) (st : state) : result unit * state :=
  match items with
  | [] => (Ok tt, st)
  | (article_id, article) :: rest =>
      if String.eqb article_id "uids" then
        download_loop output_dir total_articles rest st
      else if set_mem (JStr article_id) (downloaded_ids st) then
        download_loop output_dir total_articles rest
          (count_completed (logger (SkipDownloaded article_id) st))
      else
        match py_get article "title" (JStr "Untitled") with
        | Raise e => (Raise e, st)
        | Ok title =>
            let st1 := logger (Downloading (S (completed st)) total_articles
                                 title article_id) st in
            download_loop output_dir total_articles rest
              (count_completed (attempt output_dir article_id st1))
        end
  end.

(** [json.load(f)] for what the path holds. *)
Definition read_json (c : content) : option json :=
  match c with
  | Doc j => Some j
  | Bytes s => loads s
  end.

(** Lines 349-359: the ids already downloaded, when resuming.  A missing
    file and a file that is not JSON are caught; what [set] raises is
    not. *)
Definition load_downloaded (resume : bool) (st : state)
  : result unit * state :=
  if resume then
    match disk st !! download_progress_file ≫= read_json with
    | Some j =>
        match (do l <- py_iter j; py_set l []) with
        | Ok ids =>
            (Ok tt,
             logger (Resuming (length ids))
               {| srv := srv st; disk := disk st; log := log st;
                  sleeps := sleeps st; requests := requests st;
                  downloaded_ids := ids;
                  completed := completed st |})
        | Raise e => (Raise e, st)
        end
    | None => (Ok tt, logger NoProgress st)
    end
  else (Ok tt, st).

(** The process when it enters the function. *)
Definition boot (s0 : Srv) (d0 : gmap string content) : state :=
  {| srv := s0; disk := d0; log := []; sleeps := O; requests := [];
     downloaded_ids := []; completed := O |}.

(** [download_full_texts(articles, ..., output_dir, resume)]: line 344
    makes the directory before anything else. *)
Definition download_full_texts (articles : json) (output_dir : string)
  (resume : bool) (s0 : Srv) (d0 : gmap string content)
  : result unit * state :=
  match makedirs output_dir d0 with
  | Raise e => (Raise e, boot s0 d0)
  | Ok d1 =>
      match load_downloaded resume (boot s0 d1) with
      | (Raise e, st) => (Raise e, st)
      | (Ok _, st) =>
          match py_len articles with
          | Raise e => (Raise e, st)
          | Ok total_articles =>
              match PubMed.py_items articles with
              | Raise e => (Raise e, st)
              | Ok items => download_loop output_dir total_articles items st
              end
          end
      end
  end.

End Script.

Arguments srv {Srv} _.
Arguments disk {Srv} _.
Arguments log {Srv} _.
Arguments sleeps {Srv} _.
Arguments requests {Srv} _.
Arguments downloaded_ids {Srv} _.
Arguments completed {Srv} _.
Arguments boot {Srv} _ _.

End Download.

(* ===================================================================== *)
(** * Further observations on the PMC search                              *)
(* ===================================================================== *)

Module Observe.

Import PubMed.

(** The file to which the logging handlers of lines 10-14 append every
    line, besides the console.  Its lines are the [log] of a state; [disk]
    holds the other files. *)
Definition log_file : string := "pmc_search.log".

Definition is_search (r : request) : bool :=
  match r with
  | ESearch _ _ _ => true
  | ESummary _ => false
  end.

(** The [esearch] requests among the requests sent. *)
Definition searches (rs : list request) : list request :=
  List.filter is_search rs.

Section Statements.

Variable Srv : Type.

(** A statement that sends no [esearch] request. *)
Definition no_search {A} (m : M Srv A) : Prop :=
  forall st, exists sent,
    requests (snd (m st)) = requests st ++ sent /\ searches sent = [].

(** A statement that keeps an invariant of the state, however it ends. *)
Definition maintains (P : state Srv -> Prop) {A} (m : M Srv A) : Prop :=
  forall st, P st -> P (snd (m st)).

(** The identifier [k] is a key of the article dict [a]. *)
Definition on_file (k : string) (a : json) : Prop :=
  exists kvs, a = JObj kvs /\ In k (dict_keys kvs).

(** The progress file on disk holds an article dict with the key [k]. *)
Definition saved (k : string) (d : gmap string file) : Prop :=
  exists pd a,
    d !! progress_file = Some (Doc pd) /\
    py_get pd "articles" (JObj []) = Ok a /\ on_file k a.

(** The state a search is in once it found no usable progress file. *)
Definition fresh (s0 : Srv) (d0 : gmap string file) : state Srv :=
  {| srv := s0; disk := d0; log := [StartingNew]; sleeps := O;
     requests := []; searched_combos := JArr []; all_articles := JObj [] |}.

(** What the progress file holds once a term is marked with no article. *)
Definition marked (ml_term : string) : file :=
  Doc (JObj [("searched_combos", JArr [JStr ml_term]);
             ("articles", JObj [])]).

(** The count reply [data] announces [total] results and carries the two
    history keys, as lines 236-247 test it. *)
Definition announces (int_of_str : string -> option Z)
  (data : json) (total : Z) : Prop :=
  has_path "esearchresult" "count" data = Ok true /\
  exists inner count webenv query_key,
    py_getitem data "esearchresult" = Ok inner /\
    py_getitem inner "count" = Ok count /\
    py_int int_of_str count = Ok total /\
    py_get inner "webenv" JNull = Ok webenv /\
    py_get inner "querykey" JNull = Ok query_key /\
    truthy webenv && truthy query_key = true.

End Statements.

Arguments no_search {Srv A} _.
Arguments maintains {Srv} _ {A} _.
Arguments fresh {Srv} _ _.

End Observe.

(** Observations on the download of the full texts. *)
Module ObserveDownload.

Import Download.

(** [k != "uids"]. *)
Definition not_uids (article_id : string) : bool :=
  negb (String.eqb article_id "uids").

(** The full text of [article_id] is on disk under [output_dir]. *)
Definition has_xml (output_dir article_id : string)
  (d : gmap string content) : Prop :=
  exists s, d !! xml_path output_dir article_id = Some (Bytes s).

(** A reply that [fetch_full_text] takes for HTML. *)
Definition looks_html (rep : reply) : bool :=
  substringb "<!DOCTYPE html" (str_take 100 (text rep)).

Section Accounting.

Variable Srv : Type.
Variable order : list json -> list json.

(** From [st] to [st']: full texts stay on disk, every id that became a
    member has its full text on disk, and the progress file lists the
    members as soon as there is a new one. *)
Definition accounted (output_dir : string) (st st' : state Srv) : Prop :=
  (forall k, has_xml output_dir k (disk st) ->
             has_xml output_dir k (disk st')) /\
  (forall k, set_mem (JStr k) (downloaded_ids st') = true ->
             set_mem (JStr k) (downloaded_ids st) = true \/
             has_xml output_dir k (disk st')) /\
  ((downloaded_ids st' = downloaded_ids st /\
    disk st' !! download_progress_file = disk st !! download_progress_file)
   \/ disk st' !! download_progress_file
      = Some (Doc (JArr (order (downloaded_ids st'))))).

End Accounting.

Arguments accounted {Srv} _ _ _ _.

End ObserveDownload.

(** Observations on the citation statistics. *)
Module ObserveAnalysis.

Import Analysis.

(** The work is grouped under the year [y]. *)
Definition of_year (y : Z) (w : work) : bool :=
  match year_truthy (publication_year w) with
  | Some y' => y' =? y
  | None => false
  end.

(** The citation counts of the works grouped under [y], in file order. *)
Definition cites_of (y : Z) (works : list work) : list (option Z) :=
  map cited_by_count (List.filter (of_year y) works).

End ObserveAnalysis.

(* ===================================================================== *)
(** * Simulated remote services and sample data                           *)
(* ===================================================================== *)

Module Sim.

Definition ok (j : json) : response := {| status_code := 200; body := Some j |}.
Definition failed (code : Z) : response := {| status_code := code; body := None |}.

(** An OpenAlex page: the works and the cursor of the next page. *)
Definition page (works : list json) (next : json) : json :=
  JObj [("meta", JObj [("next_cursor", next)]); ("results", JArr works)].

Fixpoint assoc {A} (table : list (string * A)) (k : string) : option A :=
  match table with
  | [] => None
  | (k', a) :: rest => if String.eqb k' k then Some a else assoc rest k
  end.

(** A remote without memory: the cursor alone selects the response. *)
Definition by_cursor (table : list (string * response))
  : unit -> json -> response * unit :=
  fun _ c =>
    (match c with
     | JStr s => match assoc table s with
                 | Some r => r
                 | None => failed 400
                 end
     | _ => failed 400
     end, tt).

(** A remote that plays a fixed list of responses, whatever is asked. *)
Definition scripted {Req} : list response -> Req -> response * list response :=
  fun s _ =>
    match s with
    | r :: rest => (r, rest)
    | [] => (failed 404, [])
    end.

Definition a_work (t : json) (y c : Z) (who : string) : json :=
  JObj [("id", JStr ("https://openalex.org/W" ++ who));
        ("title", t);
        ("publication_year", JInt y);
        ("cited_by_count", JInt c);
        ("authorships",
         JArr [JObj [("author",
                      JObj [("id", JStr ("https://openalex.org/A" ++ who));
                            ("display_name", JStr who);
                            ("orcid", JNull)])]])].

Definition w1 := a_work (JStr "Deep learning in radiology") 2019 120 "Ng".
Definition w2 := a_work (JStr "Sepsis prediction") 2020 40 "Ito".
Definition w3 := a_work (JStr "Retinal screening") 2018 300 "Roy".
Definition w4 := a_work (JStr "Triage models") 2021 7 "Kim".
Definition w5 := a_work (JStr "ECG classification") 2017 95 "Paz".
Definition w6 := a_work (JStr "Clinical notes") 2022 3 "Lee".

(** What [make_record] keeps of a work. *)
Definition a_record (t : json) (y c : Z) (who : string) : json :=
  JObj [("title", t); ("publication_year", JInt y);
        ("cited_by_count", JInt c);
        ("authors",
         JArr [JObj [("name", JStr who);
                     ("id", JStr ("https://openalex.org/A" ++ who));
                     ("orcid", JNull)]])].

Definition r1 := a_record (JStr "Deep learning in radiology") 2019 120 "Ng".
Definition r2 := a_record (JStr "Sepsis prediction") 2020 40 "Ito".
Definition r3 := a_record (JStr "Retinal screening") 2018 300 "Roy".
Definition r4 := a_record (JStr "Triage models") 2021 7 "Kim".
Definition r5 := a_record (JStr "ECG classification") 2017 95 "Paz".
Definition r6 := a_record (JStr "Clinical notes") 2022 3 "Lee".

(** Three pages of two works. *)
Definition three_pages : unit -> json -> response * unit :=
  by_cursor [("*", ok (page [w1; w2] (JStr "c1")));
             ("c1", ok (page [w3; w4] (JStr "c2")));
             ("c2", ok (page [w5; w6] JNull))].

(** The same remote when the second request meets a server error. *)
Definition page2_fails : unit -> json -> response * unit :=
  by_cursor [("*", ok (page [w1; w2] (JStr "c1")));
             ("c1", failed 500);
             ("c2", ok (page [w5; w6] JNull))].

(** Two pages of one work. *)
Definition two_pages : unit -> json -> response * unit :=
  by_cursor [("*", ok (page [w1] (JStr "c1")));
             ("c1", ok (page [w2] JNull))].

(** A remote whose pages are empty but always name a next page. *)
Definition empty_pages : unit -> json -> response * unit :=
  fun _ _ => (ok (page [] (JStr "again")), tt).

(** A remote that answers 200 with an empty JSON object. *)
Definition no_fields : unit -> json -> response * unit :=
  fun _ _ => (ok (JObj []), tt).

(** ** NCBI E-utilities *)

(** [int(s)] for a string of decimal digits. *)
Definition digit (c : ascii) : option Z :=
  let n := Z.of_nat (nat_of_ascii c) in
  if (48 <=? n) && (n <=? 57) then Some (n - 48) else None.

Fixpoint digits (acc : Z) (s : string) : option Z :=
  match s with
  | EmptyString => Some acc
  | String c s' =>
      match digit c with
      | Some d => digits (10 * acc + d) s'
      | None => None
      end
  end.

Definition int_of_digits (s : string) : option Z :=
  match s with
  | EmptyString => None
  | _ => digits 0 s
  end.

(** The answer of [esearch] to the counting request. *)
Definition count_reply (count : string) : response :=
  ok (JObj [("header", JObj [("type", JStr "esearch")]);
            ("esearchresult",
             JObj [("count", JStr count); ("retmax", JStr "0");
                   ("idlist", JArr []);
                   ("webenv", JStr "MCID_65a1"); ("querykey", JStr "1")])]).

(** The answer of [esearch] for one batch. *)
Definition ids_reply (ids : list string) : response :=
  ok (JObj [("header", JObj [("type", JStr "esearch")]);
            ("esearchresult", JObj [("idlist", JArr (map JStr ids))])]).

(** The answer of [esummary]: the documents by identifier, after the list
    of identifiers under ["uids"]. *)
Definition summary_reply (items : list (string * json)) : response :=
  ok (JObj [("header", JObj [("type", JStr "esummary")]);
            ("result",
             JObj (("uids", JArr (map JStr (dict_keys items))) :: items))]).

(** What the remote sends for the batches [pages], in order. *)
Fixpoint replies (pages : list (list (string * json))) : list response :=
  match pages with
  | [] => []
  | p :: rest => ids_reply (dict_keys p) :: summary_reply p :: replies rest
  end.

Definition doc (title : string) : json :=
  JObj [("title", JStr title); ("source", JStr "J Med AI")].

Definition six_articles : list (list (string * json)) :=
  [[("9001", doc "Imaging"); ("9002", doc "Triage")];
   [("9003", doc "Sepsis"); ("9004", doc "Genomics")];
   [("9005", doc "Pathology"); ("9006", doc "Notes")]].

(** The remote of a search that finds six articles. *)
Definition six_found : list response :=
  count_reply "6" :: replies six_articles.

(** ** metapub *)

(** [str(pmid)] for the identifiers metapub returns, which are strings. *)
Definition str_of (j : json) : string :=
  match j with
  | JStr s => s
  | JNull => "None"
  | _ => "?"
  end.

(** A fetcher that plays a fixed list of results and then raises. *)
Definition pmid_script : list (result json) -> Z -> result json * list (result json) :=
  fun s _ =>
    match s with
    | r :: rest => (r, rest)
    | [] => (Raise (HTTPError 429), [])
    end.

Definition two_batches : list (result json) :=
  [Ok (JArr [JStr "101"; JStr "102"]); Ok (JArr [JStr "103"])].

(** ** A work without a title *)

Definition untitled : json :=
  JObj [("id", JStr "https://openalex.org/W7");
        ("publication_year", JInt 2020);
        ("cited_by_count", JInt 50);
        ("authorships", JArr [])].

Definition one_untitled : unit -> json -> response * unit :=
  by_cursor [("*", ok (page [untitled; w2] JNull))].

(** ** Works as the analysis loads them *)

Definition sample_works : list Analysis.work :=
  [ {| Analysis.title := Some "Deep learning in radiology";
       Analysis.publication_year := Some 2020;
       Analysis.cited_by_count := Some 100;
       Analysis.authors := [] |};
    {| Analysis.title := Some "Undated report";
       Analysis.publication_year := None;
       Analysis.cited_by_count := Some 5;
       Analysis.authors := [] |};
    {| Analysis.title := Some "Uncited note";
       Analysis.publication_year := Some 2021;
       Analysis.cited_by_count := Some 0;
       Analysis.authors := [] |} ].

Definition sample_stats : list (Z * Analysis.stats) :=
  [ (2020, {| Analysis.average := 100 # 1; Analysis.count := 1 |});
    (2021, {| Analysis.average := 0 # 1; Analysis.count := 1 |}) ].

End Sim.

(* ===================================================================== *)
(** * Further sample runs                                                 *)
(* ===================================================================== *)

Module Cases.

(** ** OpenAlex *)

(** A work one of whose authorships has [null] for its author. *)
Definition orphan : json :=
  JObj [("title", JStr "Orphan"); ("publication_year", JInt 2020);
        ("cited_by_count", JInt 1);
        ("authorships", JArr [JObj [("author", JNull)]])].

(** A second page that holds a sound work and the orphan. *)
Definition orphan_on_page2 : unit -> json -> response * unit :=
  Sim.by_cursor [("*", Sim.ok (Sim.page [Sim.w1] (JStr "c1")));
                 ("c1", Sim.ok (Sim.page [Sim.w2; orphan] JNull))].

(** A work that differs from its like in the identifier alone. *)
Definition editorial (wid : string) : json :=
  JObj [("id", JStr ("https://openalex.org/W" ++ wid));
        ("title", JStr "Editorial");
        ("publication_year", JInt 2020);
        ("cited_by_count", JInt 0);
        ("authorships", JArr [])].

(** What [make_record] keeps of it. *)
Definition editorial_record : json :=
  JObj [("title", JStr "Editorial"); ("publication_year", JInt 2020);
        ("cited_by_count", JInt 0); ("authors", JArr [])].

(** Six works with six identifiers, in three pages of two. *)
Definition six_ids : list json :=
  [Sim.w1; editorial "2"; Sim.w3; Sim.w4; editorial "5"; Sim.w6].

Definition two_editorials : unit -> json -> response * unit :=
  Sim.by_cursor
    [("*", Sim.ok (Sim.page [Sim.w1; editorial "2"] (JStr "c1")));
     ("c1", Sim.ok (Sim.page [Sim.w3; Sim.w4] (JStr "c2")));
     ("c2", Sim.ok (Sim.page [editorial "5"; Sim.w6] JNull))].

(** A file left by an earlier run. *)
Definition one_on_file : gmap string file :=
  <[OpenAlex.output_file := Doc (JArr [Sim.r3])]> ∅.

(** Where [Sim.page2_fails] leaves a run that started without a file. *)
Definition after_failure : OpenAlex.state unit :=
  {| OpenAlex.srv := tt;
     OpenAlex.disk :=
       <[OpenAlex.output_file := Doc (JArr [Sim.r1; Sim.r2])]> ∅;
     OpenAlex.stdout :=
       [OpenAlex.Starting 0; OpenAlex.Saved 2 2;
        OpenAlex.PrintError 500; OpenAlex.Finished];
     OpenAlex.sleeps := 1%nat;
     OpenAlex.requests := [JStr "*"; JStr "c1"];
     OpenAlex.cursor := JStr "c1";
     OpenAlex.all_works := JArr [Sim.r1; Sim.r2] |}.

(** Where it leaves a run that started on [one_on_file]. *)
Definition resumed_after_failure : OpenAlex.state unit :=
  {| OpenAlex.srv := tt;
     OpenAlex.disk :=
       <[OpenAlex.output_file := Doc (JArr [Sim.r3; Sim.r1; Sim.r2])]>
         one_on_file;
     OpenAlex.stdout :=
       [OpenAlex.Starting 1; OpenAlex.Saved 2 3;
        OpenAlex.PrintError 500; OpenAlex.Finished];
     OpenAlex.sleeps := 1%nat;
     OpenAlex.requests := [JStr "*"; JStr "c1"];
     OpenAlex.cursor := JStr "c1";
     OpenAlex.all_works := JArr [Sim.r3; Sim.r1; Sim.r2] |}.

(** A run against [orphan_on_page2] after its first page. *)
Definition before_orphan : OpenAlex.state unit :=
  {| OpenAlex.srv := tt;
     OpenAlex.disk := <[OpenAlex.output_file := Doc (JArr [Sim.r1])]> ∅;
     OpenAlex.stdout := [OpenAlex.Starting 0; OpenAlex.Saved 1 1];
     OpenAlex.sleeps := 1%nat;
     OpenAlex.requests := [JStr "*"];
     OpenAlex.cursor := JStr "c1";
     OpenAlex.all_works := JArr [Sim.r1] |}.

(** ** NCBI E-utilities *)

(** A progress file that holds one article and no searched term. *)
Definition one_saved : gmap string file :=
  <[PubMed.progress_file :=
      Doc (JObj [("searched_combos", JArr []);
                 ("articles", JObj [("7", Sim.doc "Earlier")])])]> ∅.

(** ** Full texts *)

(** A remote that plays a fixed list of replies, whatever is asked. *)
Definition texts
  : list Download.reply -> string -> Download.reply * list Download.reply :=
  fun s _ =>
    match s with
    | r :: rest => (r, rest)
    | [] => ({| Download.status := 404; Download.text := "" |}, [])
    end.

Definition xml (s : string) : Download.reply :=
  {| Download.status := 200; Download.text := s |}.

(** Python's order, for sets of at most one member. *)
Definition in_order (members : list json) : list json := members.

(** Bytes that are not JSON. *)
Definition no_json (s : string) : option json := None.

(** A file system on which every directory can be made, the empty path
    apart. *)
Definition mkdir (output_dir : string) (d : gmap string Download.content)
  : result (gmap string Download.content) :=
  if String.eqb output_dir "" then Raise FileNotFoundError else Ok d.

Definition three_articles : list (string * json) :=
  [("11", Sim.doc "Imaging"); ("uids", JArr [JStr "11"; JStr "12"]);
   ("12", Sim.doc "Triage")].

(** The first article is served, the second is refused. *)
Definition one_served : list Download.reply :=
  [xml "<article>Imaging</article>";
   {| Download.status := 503; Download.text := "" |}].

Definition both_listed : gmap string Download.content :=
  <[Download.download_progress_file :=
      Download.Doc (JArr (map JStr ["12"; "11"]))]> ∅.

(** ** metapub *)

(** A fetcher that always finds the same two identifiers. *)
Definition always_two : unit -> Z -> result json * unit :=
  fun _ _ => (Ok (JArr [JStr "101"; JStr "102"]), tt).

(** A fetcher that has run out of results. *)
Definition run_dry : unit -> Z -> result json * unit :=
  fun _ _ => (Ok (JArr []), tt).

End Cases.

(* ===================================================================== *)
(** * Facts about the Python builtins                                     *)
(* ===================================================================== *)

Lemma map_result_app {A B} (f : A -> result B) (l1 l2 : list A) bs1 bs2 :
  map_result f l1 = Ok bs1 ->
  map_result f l2 = Ok bs2 ->
  map_result f (l1 ++ l2) = Ok (bs1 ++ bs2).
Proof.
  revert bs1. induction l1 as [|a l1 IH]; simpl; intros bs1 H1 H2.
  - inversion H1; subst. exact H2.
  - destruct (f a) as [b|e]; simpl in *; [|discriminate].
    destruct (map_result f l1) as [bs|e]; simpl in *; [|discriminate].
    inversion H1; subst. rewrite (IH bs eq_refl H2). reflexivity.
Qed.

Lemma map_result_length {A B} (f : A -> result B) (l : list A) bs :
  map_result f l = Ok bs -> length bs = length l.
Proof.
  revert bs. induction l as [|a l IH]; simpl; intros bs H.
  - inversion H; reflexivity.
  - destruct (f a) as [b|e]; simpl in *; [|discriminate].
    destruct (map_result f l) as [bs'|e]; simpl in *; [|discriminate].
    inversion H; subst. simpl. f_equal. apply IH. reflexivity.
Qed.

Lemma map_result_app_inv {A B} (f : A -> result B) (l1 l2 : list A) bs :
  map_result f (l1 ++ l2) = Ok bs ->
  exists bs1 bs2,
    map_result f l1 = Ok bs1 /\ map_result f l2 = Ok bs2 /\ bs = bs1 ++ bs2.
Proof.
  revert bs. induction l1 as [|a l1 IH]; simpl; intros bs H.
  - exists [], bs. auto.
  - destruct (f a) as [b|e]; simpl in *; [|discriminate].
    destruct (map_result f (l1 ++ l2)) as [bs'|e] eqn:E; simpl in *;
      [|discriminate].
    destruct (IH bs' eq_refl) as (bs1 & bs2 & H1 & H2 & ->).
    inversion H; subst. exists (b :: bs1), bs2. rewrite H1. auto.
Qed.

(* ===================================================================== *)
(** * pyalex-test.py: the loop                                            *)
(* ===================================================================== *)

Section OpenAlexFacts.

Import OpenAlex.

Context {Srv : Type} (serve : Srv -> json -> response * Srv).

Local Abbreviation iteration := (OpenAlex.iteration Srv serve).
Local Abbreviation main_loop := (OpenAlex.main_loop Srv serve).
Local Abbreviation main := (OpenAlex.main Srv serve).
Local Abbreviation state := (OpenAlex.state Srv).

(** Running [n + m] iterations is running [n] and, if the loop is still
    going, [m] more. *)
Lemma main_loop_app (n m : nat) (st : state) :
  main_loop (n + m) st =
  match main_loop n st with
  | (Continue, st') => main_loop m st'
  | r => r
  end.
Proof.
  revert st. induction n as [|n IH]; intros st; simpl.
  - reflexivity.
  - destruct (iteration st) as [[| |e] st']; try reflexivity. apply IH.
Qed.

(** A loop that has stopped stays stopped, however long it is watched. *)
Lemma main_loop_stopped (n m : nat) (st st' : state) (f : flow) :
  main_loop n st = (f, st') -> f <> Continue ->
  main_loop (n + m) st = (f, st').
Proof.
  intros H Hf. rewrite main_loop_app, H. destruct f; congruence.
Qed.

(** The response is not 200: one request, one printed line, [break]. *)
Lemma iteration_not_200 (st : state) resp s' :
  serve (srv st) (cursor st) = (resp, s') ->
  status_code resp <> 200 ->
  iteration st =
  (Break,
   {| srv := s'; disk := disk st;
      stdout := stdout st ++ [PrintError (status_code resp)];
      sleeps := sleeps st; requests := requests st ++ [cursor st];
      cursor := cursor st; all_works := all_works st |}).
Proof.
  intros Hs Hc. unfold OpenAlex.iteration. rewrite Hs.
  destruct (Z.eqb_spec (status_code resp) 200) as [E|E]; [contradiction|].
  reflexivity.
Qed.

(** A page that parses: the records are appended, the file is rewritten,
    and the next cursor decides between [break] and another round. *)
Lemma iteration_page (st : state) resp s' data works recs l next :
  serve (srv st) (cursor st) = (resp, s') ->
  status_code resp = 200 ->
  body resp = Some data ->
  py_get data "results" (JArr []) = Ok (JArr works) ->
  map_result make_record works = Ok recs ->
  all_works st = JArr l ->
  get_next_cursor data = Ok next ->
  iteration st =
  if truthy next then
    (Continue,
     {| srv := s';
        disk := <[output_file := Doc (JArr (l ++ recs))]> (disk st);
        stdout := stdout st ++ [Saved (length recs) (length (l ++ recs))];
        sleeps := S (sleeps st); requests := requests st ++ [cursor st];
        cursor := next; all_works := JArr (l ++ recs) |})
  else
    (Break,
     {| srv := s';
        disk := <[output_file := Doc (JArr (l ++ recs))]> (disk st);
        stdout := (stdout st ++ [Saved (length recs) (length (l ++ recs))])
                  ++ [NoMorePages];
        sleeps := sleeps st; requests := requests st ++ [cursor st];
        cursor := cursor st; all_works := JArr (l ++ recs) |}).
Proof.
  intros Hs Hc Hb Hr Hm Hw Hn. unfold OpenAlex.iteration. rewrite Hs, Hc.
  simpl. unfold parse_page, response_json. rewrite Hb. simpl.
  rewrite Hr. simpl. rewrite Hm. simpl. rewrite Hw. simpl.
  rewrite Hn. destruct (truthy next); reflexivity.
Qed.

(** What a single pass leaves behind, whatever the response. *)
Lemma iteration_cases (st : state) :
  let '(resp, s') := serve (srv st) (cursor st) in
  let sent := requests st ++ [cursor st] in
  match fst (iteration st) with
  | Break =>
      status_code resp <> 200 /\
      snd (iteration st) =
        {| srv := s'; disk := disk st;
           stdout := stdout st ++ [PrintError (status_code resp)];
           sleeps := sleeps st; requests := sent;
           cursor := cursor st; all_works := all_works st |}
      \/
      exists data recs works' next,
        status_code resp = 200 /\
        parse_page resp (all_works st) = Ok (data, recs, works') /\
        get_next_cursor data = Ok next /\ truthy next = false /\
        all_works (snd (iteration st)) = works' /\
        disk (snd (iteration st)) = <[output_file := Doc works']> (disk st)
  | Continue =>
      exists data recs works' next,
        status_code resp = 200 /\
        parse_page resp (all_works st) = Ok (data, recs, works') /\
        get_next_cursor data = Ok next /\ truthy next = true /\
        all_works (snd (iteration st)) = works' /\
        cursor (snd (iteration st)) = next /\
        disk (snd (iteration st)) = <[output_file := Doc works']> (disk st)
  | Uncaught e =>
      status_code resp = 200 /\
      (parse_page resp (all_works st) = Raise e /\
       disk (snd (iteration st)) = disk st /\
       all_works (snd (iteration st)) = all_works st
       \/
       exists data recs works',
         parse_page resp (all_works st) = Ok (data, recs, works') /\
         get_next_cursor data = Raise e /\
         all_works (snd (iteration st)) = works' /\
         disk (snd (iteration st)) = <[output_file := Doc works']> (disk st))
  end.
Proof.
  unfold OpenAlex.iteration.
  destruct (serve (srv st) (cursor st)) as [resp s'].
  destruct (Z.eqb_spec (status_code resp) 200) as [E|E]; simpl.
  - destruct (parse_page resp (all_works st)) as [[[data recs] works']|e];
      simpl.
    + destruct (get_next_cursor data) as [next|e] eqn:En; simpl.
      * destruct (truthy next) eqn:Et; simpl.
        -- exists data, recs, works', next. auto 10.
        -- right. exists data, recs, works', next. auto 10.
      * split; [exact E|]. right. exists data, recs, works'. auto.
    + auto.
  - left. auto.
Qed.


(** C1 (amended).  pyalex-test.py: when, after [n] pages, the response
    status is not 200, the loop stops there.  One request was sent for that
    page and none follows however long the run is watched; the file and the
    accumulated works are those left by the [n] earlier pages; the script
    prints the status, then "Finished.", and ends normally (exit status 0)
    instead of signalling failure. *)
Theorem C1_openalex_stops_without_signal
  (n fuel : nat) (s0 : Srv) (d0 : gmap string file) (st : state) resp s' :
  main n s0 d0 = (Running, Some st) ->
  serve (srv st) (cursor st) = (resp, s') ->
  status_code resp <> 200 ->
  main (n + S fuel) s0 d0 =
  (Exited,
   Some {| srv := s'; disk := disk st;
           stdout := (stdout st ++ [PrintError (status_code resp)])
                     ++ [Finished];
           sleeps := sleeps st; requests := requests st ++ [cursor st];
           cursor := cursor st; all_works := all_works st |}).
Proof.
  unfold OpenAlex.main. intros Hn Hs Hc.
  destruct (startup Srv s0 d0) as [st0|e]; [|discriminate].
  rewrite main_loop_app.
  destruct (main_loop n st0) as [[| |e] stn] eqn:En; try discriminate.
  inversion Hn; subst stn. simpl.
  rewrite (iteration_not_200 st resp s' Hs Hc). reflexivity.
Qed.

(** C4 (amended).  pyalex-test.py leaves its loop through [break] exactly
    when the response status is not 200, or the page was processed and
    names no next cursor; whether the page had results plays no part.  When
    that holds for a request (the first one in particular), that request is
    the last: the loop is over after this one iteration however long the
    run is watched. *)
Theorem C4_openalex_loop_ends (st : state) resp s' :
  serve (srv st) (cursor st) = (resp, s') ->
  let stops :=
    status_code resp <> 200 \/
    exists data recs works' next,
      parse_page resp (all_works st) = Ok (data, recs, works') /\
      get_next_cursor data = Ok next /\ truthy next = false in
  (fst (iteration st) = Break <-> stops) /\
  (stops ->
   forall fuel,
     fst (main_loop (S fuel) st) = Break /\
     requests (snd (main_loop (S fuel) st)) = requests st ++ [cursor st]).
Proof.
  intros Hs stops.
  assert (Hiff : fst (iteration st) = Break <-> stops).
  { pose proof (iteration_cases st) as Hc. rewrite Hs in Hc. simpl in Hc.
    split.
    - intros Hb. rewrite Hb in Hc.
      destruct Hc as [[Hne _]|(data & recs & works' & next & _ & Hp & Hn & Ht & _)].
      + left. exact Hne.
      + right. exists data, recs, works', next. auto.
    - intros [Hne|(data & recs & works' & next & Hp & Hn & Ht)].
      + rewrite (iteration_not_200 st resp s' Hs Hne). reflexivity.
      + destruct (fst (iteration st)) as [| |e] eqn:Ef.
        * destruct Hc as (d & r & w & nx & _ & Hp' & Hn' & Ht' & _).
          rewrite Hp in Hp'. inversion Hp'; subst.
          rewrite Hn in Hn'. inversion Hn'; subst. congruence.
        * reflexivity.
        * destruct Hc as [_ [[Hp' _]|(d & r & w & Hp' & Hn' & _)]].
          -- congruence.
          -- rewrite Hp in Hp'. inversion Hp'; subst. congruence. }
  split; [exact Hiff|].
  intros Hst fuel. apply Hiff in Hst. simpl.
  destruct (iteration st) as [f st1] eqn:Ei. simpl in Hst. subst f.
  simpl. split; [reflexivity|].
  unfold OpenAlex.iteration in Ei. rewrite Hs in Ei.
  destruct (negb (status_code resp =? 200)).
  - inversion Ei; reflexivity.
  - destruct (parse_page resp (all_works st)) as [[[data recs] works']|e];
      [|discriminate].
    destruct (get_next_cursor data) as [next|e]; [|discriminate].
    destruct (negb (truthy next)); inversion Ei; reflexivity.
Qed.

(** A 200 response whose body is an object without ["results"]: the page
    counts as empty.  Nothing is raised, no record is added, the file is
    rewritten with the works as they were, and the cursor moves on if the
    body names one. *)
Lemma openalex_missing_results (st : state) resp s' kvs l next :
  serve (srv st) (cursor st) = (resp, s') ->
  status_code resp = 200 ->
  body resp = Some (JObj kvs) ->
  dict_get kvs "results" = None ->
  get_next_cursor (JObj kvs) = Ok next ->
  all_works st = JArr l ->
  iteration st =
  if truthy next then
    (Continue,
     {| srv := s'; disk := <[output_file := Doc (JArr l)]> (disk st);
        stdout := stdout st ++ [Saved 0 (length l)];
        sleeps := S (sleeps st); requests := requests st ++ [cursor st];
        cursor := next; all_works := JArr l |})
  else
    (Break,
     {| srv := s'; disk := <[output_file := Doc (JArr l)]> (disk st);
        stdout := (stdout st ++ [Saved 0 (length l)]) ++ [NoMorePages];
        sleeps := sleeps st; requests := requests st ++ [cursor st];
        cursor := cursor st; all_works := JArr l |}).
Proof.
  intros Hs Hc Hb Hr Hn Hw.
  rewrite (iteration_page st resp s' (JObj kvs) [] [] l next Hs Hc Hb);
    try assumption; try reflexivity.
  - rewrite app_nil_r. reflexivity.
  - simpl. rewrite Hr. reflexivity.
Qed.

(** Without ["meta"] there is no next cursor. *)
Lemma get_next_cursor_no_meta kvs :
  dict_get kvs "meta" = None -> get_next_cursor (JObj kvs) = Ok JNull.
Proof. intros H. unfold get_next_cursor. simpl. rewrite H. reflexivity. Qed.

(** Every pass either leaves file system and works alone, or replaces the
    contents of [output_file], and of no other path, by the works
    accumulated so far. *)
Lemma openalex_checkpoint (st : state) :
  (disk (snd (iteration st)) = disk st /\
   all_works (snd (iteration st)) = all_works st) \/
  disk (snd (iteration st)) =
    <[output_file := Doc (all_works (snd (iteration st)))]> (disk st).
Proof.
  pose proof (iteration_cases st) as Hc.
  destruct (serve (srv st) (cursor st)) as [resp s']. simpl in Hc.
  destruct (fst (iteration st)) as [| |e].
  - destruct Hc as (d & r & w & n & _ & _ & _ & _ & Hw & _ & Hd).
    right. rewrite Hw. exact Hd.
  - destruct Hc as [[_ ->]|(d & r & w & n & _ & _ & _ & _ & Hw & Hd)].
    + left. auto.
    + right. rewrite Hw. exact Hd.
  - destruct Hc as [_ [(_ & Hd & Hw)|(d & r & w & _ & _ & Hw & Hd)]].
    + left. auto.
    + right. rewrite Hw. exact Hd.
Qed.

(** What a pass writes does not depend on what the files held before. *)
Lemma openalex_checkpoint_independent (st : state) (d : gmap string file) :
  fst (iteration (set_disk d st)) = fst (iteration st) /\
  all_works (snd (iteration (set_disk d st))) =
    all_works (snd (iteration st)) /\
  (disk (snd (iteration st)) <> disk st ->
   disk (snd (iteration (set_disk d st))) !! output_file =
     disk (snd (iteration st)) !! output_file).
Proof.
  unfold OpenAlex.iteration, set_disk. simpl.
  destruct (serve (srv st) (cursor st)) as [resp s'].
  destruct (negb (status_code resp =? 200)); simpl.
  - split; [reflexivity|]. split; [reflexivity|]. congruence.
  - destruct (parse_page resp (all_works st)) as [[[data recs] works']|e];
      simpl.
    + destruct (get_next_cursor data) as [next|e]; simpl.
      * destruct (negb (truthy next)); simpl;
          rewrite !lookup_insert_eq; auto.
      * rewrite !lookup_insert_eq; auto.
    + split; [reflexivity|]. split; [reflexivity|]. congruence.
Qed.

(** An uninterrupted run over a remote that serves [pages]: the loop ends
    once the last page is in, the works are the records of all pages in
    the order met, and the file holds exactly them. *)
Lemma openalex_all_pages (s : Srv) (c : json) (pages : list (list json)) :
  serves_pages Srv serve s c pages ->
  forall (st : state) l recs fuel,
    srv st = s -> cursor st = c -> all_works st = JArr l ->
    map_result make_record (concat pages) = Ok recs ->
    exists st',
      main_loop (length pages + fuel) st = (Break, st') /\
      all_works st' = JArr (l ++ recs) /\
      disk st' = <[output_file := Doc (JArr (l ++ recs))]> (disk st) /\
      length (requests st') = (length (requests st) + length pages)%nat /\
      sleeps st' = (sleeps st + (length pages - 1))%nat.
Proof.
  induction 1 as [s c s' data works next Hs Hr Hn Ht
                 |s c s' data works next pages Hs Hr Hn Ht Hp IH];
    intros st l recs fuel <- <- Hw Hm.
  - simpl in Hm. rewrite app_nil_r in Hm. simpl.
    rewrite (iteration_page st _ s' data works recs l next Hs eq_refl eq_refl
               Hr Hm Hw Hn), Ht.
    eexists. split; [reflexivity|]. simpl.
    rewrite length_app. simpl. repeat split; lia.
  - simpl in Hm.
    destruct (map_result_app_inv _ _ _ _ Hm) as (r1 & r2 & H1 & H2 & ->).
    simpl.
    rewrite (iteration_page st _ s' data works r1 l next Hs eq_refl eq_refl
               Hr H1 Hw Hn), Ht.
    match goal with
    | |- context [main_loop _ ?x] => set (st1 := x)
    end.
    destruct (IH st1 (l ++ r1) r2 fuel eq_refl eq_refl eq_refl H2)
      as (st' & Hl & Ha & Hd & Hq & Hz).
    exists st'. split; [exact Hl|]. subst st1. simpl in *.
    rewrite Ha, Hd, Hq, Hz, <- app_assoc, insert_insert_eq, length_app.
    simpl. repeat split; try lia.
    inversion Hp; simpl; lia.
Qed.

(** Start-up always begins with the cursor ["*"], whatever is on disk. *)
Lemma startup_cursor (s0 : Srv) (d0 : gmap string file) (st : state) :
  startup Srv s0 d0 = Ok st ->
  cursor st = JStr "*" /\ requests st = [] /\ srv st = s0 /\ disk st = d0 /\
  sleeps st = O /\
  all_works st = match d0 !! output_file with
                 | Some (Doc j) => j
                 | _ => JArr []
                 end.
Proof.
  unfold startup. destruct (d0 !! output_file) as [[|j]|]; simpl;
    try discriminate.
  - destruct (py_len j); simpl; [|discriminate].
    intros H; inversion H; subst; simpl; auto 10.
  - intros H; inversion H; subst; simpl; auto 10.
Qed.

(** The whole script over a remote that serves [pages], started on a disk
    whose output file is absent ([l = []]) or holds the list [l]. *)
Lemma openalex_run (s0 : Srv) (d0 : gmap string file) pages l recs fuel :
  (d0 !! output_file = None /\ l = []) \/
  d0 !! output_file = Some (Doc (JArr l)) ->
  serves_pages Srv serve s0 (JStr "*") pages ->
  map_result make_record (concat pages) = Ok recs ->
  exists st,
    main (length pages + fuel) s0 d0 = (Exited, Some st) /\
    all_works st = JArr (l ++ recs) /\
    disk st = <[output_file := Doc (JArr (l ++ recs))]> d0 /\
    length (requests st) = length pages.
Proof.
  intros Hd Hp Hm. unfold OpenAlex.main.
  assert (Hst : exists st0, startup Srv s0 d0 = Ok st0 /\
                            all_works st0 = JArr l).
  { unfold startup. destruct Hd as [[Hd ->]|Hd]; rewrite Hd; simpl;
      eexists; split; reflexivity. }
  destruct Hst as (st0 & Hst & Hw). rewrite Hst.
  destruct (startup_cursor s0 d0 st0 Hst) as (Hc & Hq & Hsrv & Hdk & _).
  destruct (openalex_all_pages s0 (JStr "*") pages Hp st0 l recs fuel
              Hsrv Hc Hw Hm) as (st' & Hl & Ha & Hd' & Hr & _).
  rewrite Hl. eexists. split; [reflexivity|]. simpl.
  rewrite Ha, Hd', Hdk, Hr, Hq. auto.
Qed.

End OpenAlexFacts.

Lemma C1_openalex_stops_without_signal_witness :
  OpenAlex.main unit Sim.page2_fails (1 + 1) tt ∅ =
  (Exited,
   Some {| OpenAlex.srv := tt;
           OpenAlex.disk :=
             <[OpenAlex.output_file := Doc (JArr [Sim.r1; Sim.r2])]> ∅;
           OpenAlex.stdout :=
             [OpenAlex.Starting 0; OpenAlex.Saved 2 2;
              OpenAlex.PrintError 500; OpenAlex.Finished];
           OpenAlex.sleeps := 1%nat;
           OpenAlex.requests := [JStr "*"; JStr "c1"];
           OpenAlex.cursor := JStr "c1";
           OpenAlex.all_works := JArr [Sim.r1; Sim.r2] |}).
Proof.
  exact (C1_openalex_stops_without_signal Sim.page2_fails 1 0 tt ∅
           {| OpenAlex.srv := tt;
              OpenAlex.disk :=
                <[OpenAlex.output_file := Doc (JArr [Sim.r1; Sim.r2])]> ∅;
              OpenAlex.stdout := [OpenAlex.Starting 0; OpenAlex.Saved 2 2];
              OpenAlex.sleeps := 1%nat;
              OpenAlex.requests := [JStr "*"];
              OpenAlex.cursor := JStr "c1";
              OpenAlex.all_works := JArr [Sim.r1; Sim.r2] |}
           (Sim.failed 500) tt eq_refl eq_refl ltac:(discriminate)).
Defined.

(** C1 as stated fails on pyalex-test.py: with a server error on page 2 of
    3 the page-1 records are on disk, but the process ends normally. *)
Lemma C1_counterexample :
  signals_failure (fst (OpenAlex.main unit Sim.page2_fails 3 tt ∅)) = false.
Proof. reflexivity. Qed.

Lemma C4_openalex_loop_ends_witness :
  fst (OpenAlex.main_loop unit Sim.two_pages 1
         {| OpenAlex.srv := tt; OpenAlex.disk := ∅; OpenAlex.stdout := [];
            OpenAlex.sleeps := 0%nat; OpenAlex.requests := [];
            OpenAlex.cursor := JStr "c1";
            OpenAlex.all_works := JArr [Sim.r1] |}) = OpenAlex.Break.
Proof.
  refine (proj1 (proj2 (C4_openalex_loop_ends Sim.two_pages
           {| OpenAlex.srv := tt; OpenAlex.disk := ∅; OpenAlex.stdout := [];
              OpenAlex.sleeps := 0%nat; OpenAlex.requests := [];
              OpenAlex.cursor := JStr "c1";
              OpenAlex.all_works := JArr [Sim.r1] |}
           (Sim.ok (Sim.page [Sim.w2] JNull)) tt eq_refl) _ 0%nat)).
  right.
  exists (Sim.page [Sim.w2] JNull), [Sim.r2], (JArr [Sim.r1; Sim.r2]), JNull.
  repeat split; reflexivity.
Defined.

(** C4 as stated fails on pyalex-test.py: a remote whose first (and every)
    page has zero results but names a next cursor keeps the loop going. *)
Lemma C4_counterexample :
  fst (OpenAlex.main unit Sim.empty_pages 1 tt ∅) = Running /\
  fst (OpenAlex.main unit Sim.empty_pages 25 tt ∅) = Running.
Proof. split; reflexivity. Qed.

(** C2 on pyalex-test.py, at a remote with two pages of one work.  The run
    killed after the first page leaves [r1] on disk; the run started again
    asks for the cursor ["*"] once more and ends with [r1; r1; r2], where
    the run that was never interrupted ends with [r1; r2]. *)
Lemma C2_resumed_run_differs :
  exists st1 st2 st,
    OpenAlex.main unit Sim.two_pages 1 tt ∅ = (Running, Some st1) /\
    OpenAlex.disk st1 !! OpenAlex.output_file = Some (Doc (JArr [Sim.r1])) /\
    OpenAlex.main unit Sim.two_pages 2 tt (OpenAlex.disk st1)
      = (Exited, Some st2) /\
    OpenAlex.requests st2 = [JStr "*"; JStr "c1"] /\
    OpenAlex.all_works st2 = JArr [Sim.r1; Sim.r1; Sim.r2] /\
    OpenAlex.main unit Sim.two_pages 2 tt ∅ = (Exited, Some st) /\
    OpenAlex.all_works st = JArr [Sim.r1; Sim.r2] /\
    OpenAlex.all_works st2 <> OpenAlex.all_works st.
Proof.
  do 3 eexists.
  split; [reflexivity|]. split; [reflexivity|].
  split; [vm_compute; reflexivity|]. split; [reflexivity|].
  split; [reflexivity|]. split; [reflexivity|]. split; [reflexivity|].
  discriminate.
Qed.

(* ===================================================================== *)
(** * Insertion-ordered dicts                                             *)
(* ===================================================================== *)

Section DictFacts.

Implicit Types (kvs items : list (string * json)) (k : string) (v : json).

Lemma dict_keys_cons k v kvs : dict_keys ((k, v) :: kvs) = k :: dict_keys kvs.
Proof. reflexivity. Qed.

Lemma dict_keys_app kvs items :
  dict_keys (kvs ++ items) = dict_keys kvs ++ dict_keys items.
Proof. unfold dict_keys. apply map_app. Qed.

Lemma dict_values_app kvs items :
  dict_values (kvs ++ items) = dict_values kvs ++ dict_values items.
Proof. unfold dict_values. apply map_app. Qed.

Lemma dict_get_Some_elem kvs k v : dict_get kvs k = Some v -> k ∈ dict_keys kvs.
Proof.
  induction kvs as [|[k' v'] kvs IH]; simpl; [discriminate|].
  rewrite elem_of_cons.
  destruct (String.eqb_spec k' k); auto.
Qed.

Lemma dict_get_None kvs k : dict_get kvs k = None <-> k ∉ dict_keys kvs.
Proof.
  induction kvs as [|[k' v'] kvs IH]; simpl.
  - split; [intros _; apply not_elem_of_nil|reflexivity].
  - rewrite not_elem_of_cons.
    destruct (String.eqb_spec k' k) as [->|Hne].
    + split; [discriminate|]. intros [H _]; congruence.
    + rewrite IH. split; [auto|tauto].
Qed.

Lemma contains_key kvs k :
  existsb (String.eqb k) (dict_keys kvs) = true <-> k ∈ dict_keys kvs.
Proof.
  rewrite existsb_exists. split.
  - intros (x & Hx & He). apply String.eqb_eq in He. subst.
    apply list_elem_of_In, Hx.
  - intros H. exists k. split; [apply list_elem_of_In, H|apply String.eqb_refl].
Qed.

Lemma contains_key_get kvs k v :
  dict_get kvs k = Some v -> existsb (String.eqb k) (dict_keys kvs) = true.
Proof. intros H. apply contains_key, (dict_get_Some_elem _ _ _ H). Qed.

(** Assigning to a key that is present keeps the keys and their order. *)
Lemma dict_set_keys_present kvs k v :
  k ∈ dict_keys kvs -> dict_keys (dict_set kvs k v) = dict_keys kvs.
Proof.
  induction kvs as [|[k' v'] kvs IH]; simpl.
  - intros H. apply elem_of_nil in H. contradiction.
  - rewrite elem_of_cons.
    destruct (String.eqb_spec k' k) as [->|Hne]; simpl; [reflexivity|].
    intros [H|H]; [congruence|]. rewrite IH; auto.
Qed.

(** Assigning to a new key appends it. *)
Lemma dict_set_fresh kvs k v :
  k ∉ dict_keys kvs -> dict_set kvs k v = kvs ++ [(k, v)].
Proof.
  induction kvs as [|[k' v'] kvs IH]; simpl; [reflexivity|].
  rewrite not_elem_of_cons. intros [H1 H2].
  destruct (String.eqb_spec k' k) as [->|Hne]; [congruence|].
  rewrite IH; auto.
Qed.

Lemma dict_set_NoDup kvs k v :
  NoDup (dict_keys kvs) -> NoDup (dict_keys (dict_set kvs k v)).
Proof.
  intros H. destruct (decide (k ∈ dict_keys kvs)) as [Hin|Hout].
  - rewrite dict_set_keys_present; assumption.
  - rewrite dict_set_fresh, dict_keys_app by assumption.
    apply NoDup_app. split; [exact H|]. split; [|apply NoDup_singleton].
    intros x Hx. simpl. rewrite list_elem_of_singleton. congruence.
Qed.

Lemma dict_get_set_eq kvs k v : dict_get (dict_set kvs k v) k = Some v.
Proof.
  induction kvs as [|[k' v'] kvs IH]; simpl.
  - rewrite String.eqb_refl. reflexivity.
  - destruct (String.eqb_spec k' k) as [->|Hne]; simpl.
    + rewrite String.eqb_refl. reflexivity.
    + destruct (String.eqb_spec k' k); [congruence|exact IH].
Qed.

Lemma dict_get_set_ne kvs k k' v :
  k <> k' -> dict_get (dict_set kvs k v) k' = dict_get kvs k'.
Proof.
  intros Hne. induction kvs as [|[k0 v0] kvs IH]; simpl.
  - destruct (String.eqb_spec k k'); [congruence|reflexivity].
  - destruct (String.eqb_spec k0 k) as [->|Hk]; simpl.
    + destruct (String.eqb_spec k k'); [congruence|reflexivity].
    + destruct (String.eqb_spec k0 k'); [reflexivity|exact IH].
Qed.

(** Assigning the value a key already has changes nothing. *)
Lemma dict_set_same kvs k v : dict_get kvs k = Some v -> dict_set kvs k v = kvs.
Proof.
  induction kvs as [|[k' v'] kvs IH]; simpl; [discriminate|].
  destruct (String.eqb_spec k' k) as [->|Hne].
  - intros H; inversion H; reflexivity.
  - intros H. rewrite IH; auto.
Qed.

(** Assigning to a key that is present replaces its value where it is: the
    dict keeps its size. *)
Lemma dict_set_length_present kvs k v :
  k ∈ dict_keys kvs -> length (dict_set kvs k v) = length kvs.
Proof.
  intros H.
  pose proof (dict_set_keys_present kvs k v H) as E.
  apply (f_equal (@length _)) in E. unfold dict_keys in E.
  rewrite !length_map in E. exact E.
Qed.

End DictFacts.

(* ===================================================================== *)
(** * get-pubmed.py: running statements one by one                        *)
(* ===================================================================== *)

(** Running a sequence whose first statement is known. *)
Lemma seqM_eq {Srv A B} (m : PubMed.M Srv A) (k : A -> PubMed.M Srv B)
  st a st1 :
  m st = (Ok a, st1) -> PubMed.seqM m k st = k a st1.
Proof. intros H. unfold PubMed.seqM. rewrite H. reflexivity. Qed.

Lemma seqM_lift {Srv A B} (r : result A) (k : A -> PubMed.M Srv B) st a :
  r = Ok a -> PubMed.seqM (PubMed.lift r) k st = k a st.
Proof. intros ->. reflexivity. Qed.

Lemma try_except_ok {Srv} (body : PubMed.M Srv unit) handler st u st1 :
  body st = (Ok u, st1) -> PubMed.try_except body handler st = (Ok u, st1).
Proof. intros H. unfold PubMed.try_except. rewrite H. reflexivity. Qed.

Lemma try_except_raise {Srv} (body : PubMed.M Srv unit) handler st e st1 :
  body st = (Raise e, st1) ->
  PubMed.try_except body handler st = handler e st1.
Proof. intros H. unfold PubMed.try_except. rewrite H. reflexivity. Qed.

Ltac step_with tac :=
  (eapply eq_trans; [apply seqM_eq; tac|]); cbv beta.
Ltac step := step_with ltac:(reflexivity).
Ltac step_val v :=
  (eapply eq_trans; [apply (seqM_eq _ _ _ v); reflexivity|]); cbv beta iota.

(* ===================================================================== *)
(** * get-pubmed.py: filing articles by identifier                        *)
(* ===================================================================== *)

Section AddArticles.

Import PubMed.

Implicit Types (kvs items : list (string * json)) (k : string) (v : json).

(** On a dict the filing loop cannot raise and yields a dict. *)
Lemma add_articles_dict items kvs :
  exists kvs', add_articles items (JObj kvs) = Ok (JObj kvs').
Proof.
  revert kvs. induction items as [|[k v] items IH]; intros kvs; simpl.
  - eauto.
  - destruct (String.eqb k "uids"); apply IH.
Qed.

Lemma add_articles_NoDup items kvs kvs' :
  add_articles items (JObj kvs) = Ok (JObj kvs') ->
  NoDup (dict_keys kvs) -> NoDup (dict_keys kvs').
Proof.
  revert kvs. induction items as [|[k v] items IH]; intros kvs; simpl.
  - intros H; inversion H; auto.
  - destruct (String.eqb k "uids"); intros H Hn.
    + eapply IH; eauto.
    + eapply IH; [exact H|]. apply dict_set_NoDup, Hn.
Qed.

(** Identifiers that are on file stay on file. *)
Lemma add_articles_keeps_keys items kvs kvs' k :
  add_articles items (JObj kvs) = Ok (JObj kvs') ->
  k ∈ dict_keys kvs -> k ∈ dict_keys kvs'.
Proof.
  revert kvs. induction items as [|[k0 v0] items IH]; intros kvs; simpl.
  - intros H; inversion H; auto.
  - destruct (String.eqb k0 "uids"); intros H Hk.
    + eapply IH; eauto.
    + eapply IH; [exact H|].
      destruct (decide (k0 ∈ dict_keys kvs)) as [Hin|Hout].
      * rewrite dict_set_keys_present; assumption.
      * rewrite dict_set_fresh, dict_keys_app, elem_of_app by assumption.
        auto.
Qed.

(** Articles whose identifiers are all new are appended in the order of the
    batch; the ["uids"] entry is left out. *)
Lemma add_articles_fresh items kvs :
  NoDup (dict_keys kvs ++ dict_keys items) ->
  add_articles items (JObj kvs) =
  Ok (JObj (kvs ++ List.filter
                     (fun kv => negb (String.eqb (fst kv) "uids")) items)).
Proof.
  revert kvs. induction items as [|[k v] items IH]; intros kvs Hn; simpl.
  - rewrite app_nil_r. reflexivity.
  - rewrite dict_keys_cons in Hn.
    apply NoDup_app in Hn as (Hk & Hd & Hi).
    apply NoDup_cons in Hi as (Hki & Hi).
    assert (Hout : k ∉ dict_keys kvs).
    { intros Hin. apply (Hd k Hin). apply elem_of_cons. auto. }
    destruct (String.eqb k "uids"); simpl.
    + apply IH. apply NoDup_app. split; [exact Hk|]. split; [|exact Hi].
      intros x Hx Hx'. apply (Hd x Hx). apply elem_of_cons. auto.
    + rewrite dict_set_fresh by exact Hout.
      rewrite IH.
      * rewrite <- app_assoc. reflexivity.
      * rewrite dict_keys_app. simpl. rewrite <- app_assoc. simpl.
        apply NoDup_app. split; [exact Hk|]. split.
        -- intros x Hx Hx'. apply (Hd x Hx). exact Hx'.
        -- apply NoDup_cons. auto.
Qed.

Lemma add_articles_other items kvs kvs' k :
  add_articles items (JObj kvs) = Ok (JObj kvs') ->
  k ∉ dict_keys items -> dict_get kvs' k = dict_get kvs k.
Proof.
  revert kvs. induction items as [|[k0 v0] items IH]; intros kvs; simpl.
  - intros H _; inversion H; auto.
  - rewrite not_elem_of_cons. intros H [Hne Hk].
    destruct (String.eqb k0 "uids").
    + eapply IH; eauto.
    + rewrite (IH _ H Hk). apply dict_get_set_ne. congruence.
Qed.

(** After a batch is filed, each of its identifiers maps to the record the
    batch gave for it: a record that was on file is overwritten. *)
Lemma add_articles_overwrites items kvs kvs' k v :
  add_articles items (JObj kvs) = Ok (JObj kvs') ->
  NoDup (dict_keys items) ->
  (k, v) ∈ items -> k <> "uids" -> dict_get kvs' k = Some v.
Proof.
  revert kvs. induction items as [|[k0 v0] items IH]; intros kvs; simpl.
  - intros _ _ H. apply elem_of_nil in H. contradiction.
  - rewrite NoDup_cons, elem_of_cons. intros H [Hk0 Hn] [He|Hin] Hu.
    + inversion He; subst k0 v0.
      destruct (String.eqb_spec k "uids"); [contradiction|].
      rewrite (add_articles_other _ _ _ _ H Hk0). apply dict_get_set_eq.
    + destruct (String.eqb k0 "uids"); eapply IH; eauto.
Qed.

Lemma add_articles_again items kvs :
  (forall k v, (k, v) ∈ items -> k <> "uids" -> dict_get kvs k = Some v) ->
  add_articles items (JObj kvs) = Ok (JObj kvs).
Proof.
  induction items as [|[k v] items IH]; intros H; simpl; [reflexivity|].
  assert (Hrest : forall k' v', (k', v') ∈ items -> k' <> "uids" ->
                                dict_get kvs k' = Some v').
  { intros k' v' Hin. apply H. apply elem_of_cons. auto. }
  destruct (String.eqb_spec k "uids") as [->|Hu]; [auto|].
  rewrite dict_set_same; [auto|].
  apply H; [apply elem_of_cons; auto|exact Hu].
Qed.

(** Filing the same batch a second time changes nothing. *)
Lemma add_articles_idempotent items kvs kvs' :
  NoDup (dict_keys items) ->
  add_articles items (JObj kvs) = Ok (JObj kvs') ->
  add_articles items (JObj kvs') = Ok (JObj kvs').
Proof.
  intros Hn H. apply add_articles_again.
  intros k v Hin Hu. eapply add_articles_overwrites; eauto.
Qed.

(** Only a dict comes out as a dict. *)
Lemma add_articles_from_dict items (a a' : json) kvs' :
  add_articles items a = Ok a' -> a' = JObj kvs' -> exists kvs, a = JObj kvs.
Proof.
  revert a. induction items as [|[k v] items IH]; intros a; simpl.
  - intros H ->. inversion H. eauto.
  - destruct (String.eqb k "uids"); [apply IH|].
    destruct a; simpl; try discriminate. eauto.
Qed.

End AddArticles.

(* ===================================================================== *)
(** * get-pubmed.py: the search                                           *)
(* ===================================================================== *)

Section PubMedFacts.

Import PubMed.

Context {Srv : Type} (serve : Srv -> request -> response * Srv).
Context (int_of_str : string -> option Z).
Context (batch_size : Z) (output_file : string).

Local Abbreviation state := (PubMed.state Srv).
Local Abbreviation http_get := (PubMed.http_get Srv serve).
Local Abbreviation search := (PubMed.search Srv serve).
Local Abbreviation fetch_article_details :=
  (PubMed.fetch_article_details Srv serve).
Local Abbreviation file_batch := (PubMed.file_batch Srv serve).
Local Abbreviation batch_body := (PubMed.batch_body Srv serve).
Local Abbreviation batch := (PubMed.batch Srv serve batch_size).
Local Abbreviation batch_loop := (PubMed.batch_loop Srv serve batch_size).
Local Abbreviation search_term :=
  (PubMed.search_term Srv serve int_of_str batch_size).
Local Abbreviation process_term :=
  (PubMed.process_term Srv serve int_of_str batch_size).
Local Abbreviation term_loop :=
  (PubMed.term_loop Srv serve int_of_str batch_size).
Local Abbreviation load_progress := (PubMed.load_progress Srv).
Local Abbreviation read_progress := (PubMed.read_progress Srv).
Local Abbreviation save_results := (PubMed.save_results Srv output_file).
Local Abbreviation search_ml_medicine_articles :=
  (PubMed.search_ml_medicine_articles Srv serve int_of_str batch_size
     output_file).
Local Abbreviation killed_after :=
  (PubMed.killed_after Srv serve int_of_str batch_size).

(** ** Statements that leave the progress data alone *)

Lemma frame_refl (st : state) : frame st st.
Proof. unfold frame. auto. Qed.

Lemma frame_trans (st1 st2 st3 : state) :
  frame st1 st2 -> frame st2 st3 -> frame st1 st3.
Proof. unfold frame. intros (->&->&->) (->&->&->). auto. Qed.

Lemma framed_ret {A} (a : A) : framed (Srv:=Srv) (ret a).
Proof. intros st. apply frame_refl. Qed.

Lemma framed_lift {A} (r : result A) : framed (Srv:=Srv) (lift r).
Proof. intros st. apply frame_refl. Qed.

Lemma framed_seq {A B} (m : M Srv A) (k : A -> M Srv B) :
  framed m -> (forall a, framed (k a)) -> framed (seqM m k).
Proof.
  intros Hm Hk st. unfold seqM. specialize (Hm st).
  destruct (m st) as [[a|e] st1]; simpl in *; [|exact Hm].
  eapply frame_trans; [exact Hm|apply Hk].
Qed.

Lemma framed_http_get req : framed (http_get req).
Proof.
  intros st. unfold PubMed.http_get.
  destruct (serve (srv st) req) as [resp s'].
  destruct (status_code resp =? 200); [|destruct (_ && _)]; simpl;
    unfold frame; simpl; auto.
Qed.

Lemma framed_logger e : framed (Srv:=Srv) (logger e).
Proof. intros st. unfold frame. simpl. auto. Qed.

Lemma framed_get_articles : framed (Srv:=Srv) get_articles.
Proof. intros st. apply frame_refl. Qed.

Lemma framed_set_articles a : framed (Srv:=Srv) (set_articles a).
Proof. intros st. unfold frame. simpl. auto. Qed.

Ltac framed :=
  repeat match goal with
    | |- framed (seqM _ _) => apply framed_seq; [|intros ?]
    | |- framed (if ?b then _ else _) => destruct b
    | |- framed (ret _) => apply framed_ret
    | |- framed (lift _) => apply framed_lift
    | |- framed (PubMed.http_get _ _ _) => apply framed_http_get
    | |- framed (logger _) => apply framed_logger
    | |- framed get_articles => apply framed_get_articles
    | |- framed (set_articles _) => apply framed_set_articles
    end.

Lemma framed_search q retmax start : framed (search q retmax start).
Proof. apply framed_http_get. Qed.

Lemma framed_file_batch search_batch : framed (file_batch search_batch).
Proof.
  unfold PubMed.file_batch, PubMed.fetch_article_details. framed.
Qed.

(** ** One batch *)

(** A batch never lets an exception out.  It ends by writing the checkpoint
    of the state it has reached; and either it went through, which adds the
    key of the term to [searched_combos] and sleeps once, or it failed,
    which leaves [searched_combos] and the sleep count as they were. *)
Lemma batch_cases (q key : string) (total start : Z) (st : state) :
  exists st',
    batch q key total start st = (Ok tt, st') /\
    disk st' = <[progress_file := Doc (checkpoint st')]> (disk st) /\
    ((exists cs, searched_combos st = JArr cs /\
                 searched_combos st' = JArr (cs ++ [JStr key]) /\
                 sleeps st' = S (sleeps st))
     \/ (searched_combos st' = searched_combos st /\
         sleeps st' = sleeps st)).
Proof.
  unfold PubMed.batch, PubMed.batch_body.
  unfold seqM at 1. simpl. unfold try_except.
  match goal with
  | |- context [seqM (PubMed.search _ _ ?a ?b ?c) _ ?s] =>
      set (st0 := s); set (retmax := b)
  end.
  unfold seqM at 1.
  pose proof (framed_search q retmax start st0) as F1.
  destruct (search q retmax start st0) as [[sb|e] st1]; simpl in F1.
  - unfold seqM at 1.
    pose proof (framed_file_batch sb st1) as F2.
    destruct (file_batch sb st1) as [[[]|e] st2]; simpl in F2.
    + pose proof (frame_trans _ _ _ F1 F2) as (Hc & Hd & Hs).
      clear F1 F2.
      destruct st2 as [s2 d2 l2 z2 r2 c2 a2]. subst st0. simpl in *.
      subst c2 d2 z2.
      unfold seqM, append_combo, get_combos, lift, set_combos,
        save_progress, get_articles, write_json, sleep, py_append,
        py_extend, logger. simpl.
      destruct (searched_combos st) as [| | | |cs|] eqn:Ec; simpl;
        eexists; (split; [reflexivity|]); unfold checkpoint; simpl;
        (split; [reflexivity|]);
        try (right; split; reflexivity).
      left. exists cs. auto.
    + pose proof (frame_trans _ _ _ F1 F2) as (Hc & Hd & Hs).
      unfold seqM, save_progress, get_combos, get_articles, write_json,
        logger. simpl.
      eexists. split; [reflexivity|]. simpl. unfold checkpoint. simpl.
      rewrite Hd. split; [reflexivity|]. right. auto.
  - destruct F1 as (Hc & Hd & Hs).
    unfold seqM, save_progress, get_combos, get_articles, write_json,
      logger. simpl.
    eexists. split; [reflexivity|]. simpl. unfold checkpoint. simpl.
    rewrite Hd. split; [reflexivity|]. right. auto.
Qed.

(** ** Batches that went through *)

Lemma progressed_refl key (st : state) : progressed key st st.
Proof.
  exists O. split; [lia|]. split.
  - intros cs ->. simpl. rewrite app_nil_r. reflexivity.
  - split; [reflexivity|]. intros H; contradiction.
Qed.

Lemma progressed_trans key (st1 st2 st3 : state) :
  progressed key st1 st2 -> progressed key st2 st3 -> progressed key st1 st3.
Proof.
  intros (n1 & Hs1 & Hc1 & Hz1 & Hp1) (n2 & Hs2 & Hc2 & Hz2 & Hp2).
  exists (n1 + n2)%nat. split; [lia|]. split; [|split].
  - intros cs Hcs. rewrite (Hc2 _ (Hc1 _ Hcs)).
    rewrite <- app_assoc, replicate_add. reflexivity.
  - intros Hn. rewrite Hz2, Hz1 by lia. reflexivity.
  - intros Hn. destruct n1 as [|n1].
    + rewrite <- Hz1 by reflexivity. apply Hp2. lia.
    + apply Hp1. lia.
Qed.

Lemma progressed_frame key (st st' : state) :
  frame st st' -> progressed key st st'.
Proof.
  intros (Hc & _ & Hs). exists O. split; [lia|]. split.
  - intros cs Hcs. simpl. rewrite app_nil_r. congruence.
  - split; [auto|]. intros H; contradiction.
Qed.

Lemma batch_progress (q key : string) (total start : Z) (st : state) :
  exists st',
    batch q key total start st = (Ok tt, st') /\
    progressed key st st' /\ synced st'.
Proof.
  destruct (batch_cases q key total start st)
    as (st' & Hb & Hd & [(cs & Hc & Hc' & Hs)|(Hc & Hs)]);
    exists st'; (split; [exact Hb|]); split;
    try (unfold synced; rewrite Hd; apply lookup_insert_eq).
  - exists 1%nat. split; [lia|]. split; [|split].
    + intros cs' Hcs. rewrite Hc in Hcs. inversion Hcs; subst. exact Hc'.
    + discriminate.
    + eauto.
  - exists O. split; [lia|]. split.
    + intros cs Hcs. simpl. rewrite app_nil_r. congruence.
    + split; [auto|]. intros H; contradiction.
Qed.

Lemma batch_loop_progress (q key : string) (total : Z) (starts : list Z)
  (st : state) :
  exists st',
    batch_loop q key total starts st = (Ok tt, st') /\
    progressed key st st' /\
    (starts <> [] -> synced st') /\
    (starts = [] -> st' = st).
Proof.
  revert st. induction starts as [|start rest IH]; intros st; simpl.
  - exists st. split; [reflexivity|]. split; [apply progressed_refl|].
    split; [congruence|reflexivity].
  - unfold seqM.
    destruct (batch_progress q key total start st) as (st1 & -> & Hp1 & Hy1).
    destruct (IH st1) as (st' & -> & Hp & Hy & He).
    exists st'. split; [reflexivity|].
    split; [eapply progressed_trans; eauto|].
    split; [|discriminate]. intros _.
    destruct rest as [|x rest']; [rewrite He by reflexivity; exact Hy1|].
    apply Hy. discriminate.
Qed.

Lemma advances_framed key {A} (m : M Srv A) : framed m -> advances key m.
Proof.
  intros Hm st. specialize (Hm st). split.
  - apply progressed_frame, Hm.
  - destruct Hm as (_ & _ & ->). lia.
Qed.

Lemma advances_seq_framed key {A B} (m : M Srv A) (k : A -> M Srv B) :
  framed m -> (forall a, advances key (k a)) -> advances key (seqM m k).
Proof.
  intros Hm Hk st. unfold seqM. specialize (Hm st).
  destruct (m st) as [[a|e] st1]; simpl in *.
  - destruct (Hk a st1) as [Hp Hy]. split.
    + eapply progressed_trans; [apply progressed_frame, Hm|exact Hp].
    + destruct Hm as (_ & _ & Hs). rewrite <- Hs. exact Hy.
  - split; [apply progressed_frame, Hm|].
    destruct Hm as (_ & _ & ->). lia.
Qed.

Lemma advances_batch_loop (q key : string) (total : Z) (starts : list Z) :
  advances key (batch_loop q key total starts).
Proof.
  intros st.
  destruct (batch_loop_progress q key total starts st)
    as (st' & -> & Hp & Hy & He). simpl.
  split; [exact Hp|]. intros Hlt. apply Hy. intros ->.
  rewrite He in Hlt by reflexivity. lia.
Qed.

(** The search for a term, watched for any number of batches. *)
Lemma advances_search_term (ml_term : string) (take_batches : option nat) :
  advances ml_term (search_term ml_term take_batches).
Proof.
  unfold PubMed.search_term, PubMed.search.
  repeat match goal with
    | |- advances _ (seqM _ _) =>
        apply advances_seq_framed; [framed|intros ?]
    | |- advances _ (if ?b then _ else _) => destruct b
    | |- advances _ (logger _) => apply advances_framed; framed
    | |- advances _ (PubMed.batch_loop _ _ _ _ _ _ _) =>
        apply advances_batch_loop
    end.
Qed.

(** ** Loading the progress file *)

Lemma load_progress_frame (st : state) :
  disk (snd (load_progress st)) = disk st /\
  sleeps (snd (load_progress st)) = sleeps st /\
  requests (snd (load_progress st)) = requests st /\
  srv (snd (load_progress st)) = srv st.
Proof.
  unfold PubMed.load_progress, PubMed.read_progress, seqM. simpl.
  destruct (disk st !! progress_file) as [[|pd]|]; simpl; auto.
  destruct pd; simpl; auto.
  match goal with
  | |- context [py_len ?c] => destruct (py_len c); simpl; auto
  end.
Qed.

(** A progress file of the shape the script writes. *)
Lemma load_progress_checkpoint (st : state) combos articles :
  disk st !! progress_file =
    Some (Doc (JObj [("searched_combos", combos); ("articles", articles)])) ->
  searched_combos (snd (load_progress st)) = combos /\
  all_articles (snd (load_progress st)) = articles /\
  (forall cs, combos = JArr cs ->
     load_progress st =
     (Ok tt,
      {| srv := srv st; disk := disk st;
         log := log st ++ [Resuming (length cs)];
         sleeps := sleeps st; requests := requests st;
         searched_combos := combos; all_articles := articles |})).
Proof.
  intros Hd.
  unfold PubMed.load_progress, PubMed.read_progress, seqM. simpl.
  rewrite Hd. simpl.
  destruct (py_len combos) eqn:El; simpl; (split; [reflexivity|]);
    (split; [reflexivity|]); intros cs ->; simpl in El; inversion El.
  reflexivity.
Qed.

Lemma count_key_replicate key cs n :
  existsb (is_str key) cs = false ->
  count_key key (JArr (cs ++ replicate n (JStr key))) = n.
Proof.
  intros H. simpl. rewrite List.filter_app, length_app.
  assert (H0 : List.filter (is_str key) cs = []).
  { induction cs as [|c cs IH]; simpl in *; [reflexivity|].
    apply orb_false_iff in H as [-> H]. auto. }
  rewrite H0. simpl.
  induction n as [|n IH]; simpl; [reflexivity|].
  rewrite String.eqb_refl. simpl. rewrite IH. reflexivity.
Qed.

Lemma existsb_replicate key (cs : list json) n :
  n <> O -> existsb (is_str key) (cs ++ replicate n (JStr key)) = true.
Proof.
  intros Hn. rewrite existsb_app. destruct n as [|n]; [contradiction|].
  simpl. rewrite String.eqb_refl. simpl. apply orb_true_r.
Qed.

(** A run that finds the key of its only term in the progress file asks
    the remote nothing and keeps the articles it loaded. *)
Lemma resumed_run_skips (s : Srv) (d : gmap string file) cs articles :
  d !! progress_file =
    Some (Doc (JObj [("searched_combos", JArr cs); ("articles", articles)])) ->
  existsb (is_str "Artificial Intelligence") cs = true ->
  let st2 := snd (search_ml_medicine_articles (boot s d)) in
  requests st2 = [] /\ sleeps st2 = O /\
  all_articles st2 = articles /\ searched_combos st2 = JArr cs /\
  In (Skipping "Artificial Intelligence") (log st2).
Proof.
  intros Hd Hk st2.
  assert (E : search_ml_medicine_articles (boot s d) =
              save_results
                {| srv := s; disk := d;
                   log := [Resuming (length cs);
                           Skipping "Artificial Intelligence"];
                   sleeps := O; requests := [];
                   searched_combos := JArr cs; all_articles := articles |}).
  { unfold PubMed.search_ml_medicine_articles.
    unfold seqM at 1.
    destruct (load_progress_checkpoint (boot s d) (JArr cs) articles Hd)
      as (_ & _ & Hl).
    rewrite (Hl cs eq_refl). clear Hl.
    unfold seqM at 1. unfold PubMed.term_loop, ml_terms.
    unfold PubMed.process_term, seqM, get_combos, lift, py_contains. simpl.
    rewrite Hk. reflexivity. }
  subst st2. rewrite E.
  unfold PubMed.save_results, seqM, get_articles, lift, logger, write_json,
    ret. simpl.
  destruct (py_values articles); simpl; auto 10.
Qed.

(** C9.  [search_ml_medicine_articles] appends the key of the term to
    [searched_combos] and writes the progress file in every batch that goes
    through, and once more after the batch loop.  First part: when the
    process is killed after [k] passes of the batch loop of which at least
    one went through, [searched_combos] holds the key once per batch that
    went through (once, then, after a single batch) and the progress file
    holds that list; a run started on that file skips the term: it sends
    no request, and ends with the articles and the list it loaded.  Second
    part: after a run that was not interrupted and in which a batch went
    through, the key is in the list once per such batch and once more,
    hence at least twice; and the progress file holds that list, provided
    the output file is another file. *)
Theorem C9_combo_key_marked_in_every_batch
  (s0 : Srv) (d0 : gmap string file) :
  (forall (k : nat) r (st1 : state),
     killed_after k (boot s0 d0) = (r, st1) ->
     (1 <= sleeps st1)%nat ->
     exists cs,
       searched_combos st1 = JArr cs /\
       count_key "Artificial Intelligence" (JArr cs) = sleeps st1 /\
       disk st1 !! progress_file =
         Some (Doc (JObj [("searched_combos", JArr cs);
                          ("articles", all_articles st1)])) /\
       forall s : Srv,
         let st2 := snd (search_ml_medicine_articles (boot s (disk st1))) in
         requests st2 = [] /\ sleeps st2 = O /\
         all_articles st2 = all_articles st1 /\
         searched_combos st2 = JArr cs /\
         In (Skipping "Artificial Intelligence") (log st2)) /\
  (forall a (st : state),
     search_ml_medicine_articles (boot s0 d0) = (Ok a, st) ->
     (1 <= sleeps st)%nat ->
     count_key "Artificial Intelligence" (searched_combos st)
       = S (sleeps st) /\
     (2 <= count_key "Artificial Intelligence" (searched_combos st))%nat /\
     (output_file <> progress_file ->
      disk st !! progress_file =
        Some (Doc (JObj [("searched_combos", searched_combos st);
                         ("articles", all_articles st)])))).
Proof.
  split.
  - intros k r st1. unfold PubMed.killed_after, ml_terms.
    unfold seqM at 1.
    destruct (load_progress_frame (boot s0 d0)) as (_ & Hs0 & _).
    destruct (load_progress (boot s0 d0)) as [[[]|e] st0]; simpl in Hs0.
    2:{ intros H; inversion H; subst. lia. }
    unfold seqM at 1. unfold get_combos at 1. unfold seqM at 1.
    unfold lift at 1.
    destruct (py_contains "Artificial Intelligence" (searched_combos st0))
      as [[|]|e] eqn:Ec.
    + simpl. intros H; inversion H; subst. simpl. lia.
    + intros Hrun Hsl.
      destruct (advances_search_term "Artificial Intelligence" (Some k) st0)
        as [(n & Hn & Hcs & _ & Hlist) Hsync].
      rewrite Hrun in Hn, Hcs, Hsync. simpl in Hn, Hcs, Hsync.
      assert (Hn0 : n <> O) by lia.
      destruct (Hlist Hn0) as (cs0 & Hcs0).
      rewrite Hcs0 in Ec. simpl in Ec.
      assert (Ec' : existsb (is_str "Artificial Intelligence") cs0 = false)
        by congruence.
      exists (cs0 ++ replicate n (JStr "Artificial Intelligence")).
      split; [apply Hcs, Hcs0|].
      split; [rewrite count_key_replicate by exact Ec'; lia|].
      assert (Hd : disk st1 !! progress_file =
                   Some (Doc (JObj
                     [("searched_combos",
                       JArr (cs0 ++
                             replicate n (JStr "Artificial Intelligence")));
                      ("articles", all_articles st1)]))).
      { rewrite <- (Hcs _ Hcs0). apply Hsync. lia. }
      split; [exact Hd|].
      intros s. apply resumed_run_skips; [exact Hd|].
      apply existsb_replicate, Hn0.
    + intros H; inversion H; subst. lia.
  - intros a st. unfold PubMed.search_ml_medicine_articles.
    unfold seqM at 1.
    destruct (load_progress_frame (boot s0 d0)) as (_ & Hs0 & _).
    destruct (load_progress (boot s0 d0)) as [[[]|e] st0]; simpl in Hs0;
      [|discriminate].
    unfold seqM at 1. unfold PubMed.term_loop, ml_terms.
    unfold seqM at 1. unfold PubMed.process_term.
    unfold seqM at 1. unfold get_combos at 1. unfold seqM at 1.
    unfold lift at 1.
    destruct (py_contains "Artificial Intelligence" (searched_combos st0))
      as [[|]|e] eqn:Ec; [| |discriminate].
    + unfold PubMed.save_results, seqM, get_articles, lift, logger,
        write_json, ret. simpl.
      destruct (py_values (all_articles st0)); simpl; [|discriminate].
      intros H; inversion H; subst. simpl. intros Hsl. exfalso. lia.
    + unfold seqM at 1.
      destruct (advances_search_term "Artificial Intelligence" None st0)
        as [(n & Hn & Hcs & _ & Hlist) _].
      destruct (search_term "Artificial Intelligence" None st0)
        as [[[]|e] st1]; simpl in *; [|discriminate].
      destruct st1 as [s1 d1 l1 z1 r1 c1 a1]. simpl in Hn, Hcs.
      repeat (unfold seqM, append_combo, get_combos, lift, set_combos,
              save_progress, get_articles, write_json, ret, py_append,
              py_extend, PubMed.save_results, logger; simpl).
      destruct c1 as [| | | |cs1|]; simpl; try discriminate.
      destruct (py_values a1); simpl; [|discriminate].
      intros H; inversion H; subst. simpl. intros Hsl.
      assert (Hn0 : n <> O) by lia.
      destruct (Hlist Hn0) as (cs0 & Hcs0).
      pose proof (Hcs _ Hcs0) as E1. inversion E1; subst cs1.
      rewrite Hcs0 in Ec. simpl in Ec.
      assert (Ec' : existsb (is_str "Artificial Intelligence") cs0 = false)
        by congruence.
      pose proof (count_key_replicate "Artificial Intelligence" cs0 n Ec')
        as Hc. simpl in Hc.
      rewrite List.filter_app, length_app, Hc. simpl.
      split; [lia|]. split; [lia|].
      intros Hne. rewrite lookup_insert_ne by exact Hne.
      apply lookup_insert_eq.
Qed.

(** ** Identifiers stay unique *)

Lemma keeps_same {A} (m : M Srv A) :
  (forall st, all_articles (snd (m st)) = all_articles st) ->
  keeps_ids_unique m.
Proof. intros H st Hu kvs Hk. rewrite H in Hk. exact (Hu kvs Hk). Qed.

Lemma keeps_seq {A B} (m : M Srv A) (k : A -> M Srv B) :
  keeps_ids_unique m -> (forall a, keeps_ids_unique (k a)) ->
  keeps_ids_unique (seqM m k).
Proof.
  intros Hm Hk st Hu. unfold seqM. specialize (Hm st Hu).
  destruct (m st) as [[a|e] st1]; simpl in *; [|exact Hm].
  apply Hk, Hm.
Qed.

Lemma keeps_try (body : M Srv unit) handler :
  keeps_ids_unique body -> (forall e, keeps_ids_unique (handler e)) ->
  keeps_ids_unique (try_except body handler).
Proof.
  intros Hb Hh st Hu. unfold try_except. specialize (Hb st Hu).
  destruct (body st) as [[u|e] st1]; simpl in *; [exact Hb|].
  apply Hh, Hb.
Qed.

Lemma keeps_http_get req : keeps_ids_unique (http_get req).
Proof.
  apply keeps_same. intros st. unfold PubMed.http_get.
  destruct (serve (srv st) req) as [resp s'].
  destruct (status_code resp =? 200); [|destruct (_ && _)]; reflexivity.
Qed.

(** Filing a batch is the one statement that changes [all_articles]. *)
Lemma keeps_filing items :
  keeps_ids_unique (Srv:=Srv)
    (seqM get_articles
       (fun articles =>
          seqM (lift (add_articles items articles))
            (fun articles' => set_articles articles'))).
Proof.
  intros st Hu. unfold seqM, get_articles, lift, set_articles. simpl.
  destruct (add_articles items (all_articles st)) as [a'|e] eqn:Eadd;
    simpl; [|exact Hu].
  intros kvs' Hk. simpl in Hk.
  destruct (add_articles_from_dict _ _ _ _ Eadd Hk) as (kvs & Ha).
  rewrite Ha, Hk in Eadd.
  eapply add_articles_NoDup; [exact Eadd|]. apply Hu, Ha.
Qed.

Ltac keeps :=
  repeat match goal with
    | |- keeps_ids_unique (seqM get_articles _) => apply keeps_filing
    | |- keeps_ids_unique (seqM _ _) => apply keeps_seq; [|intros ?]
    | |- keeps_ids_unique (try_except _ _) => apply keeps_try; [|intros ?]
    | |- keeps_ids_unique (if ?b then _ else _) => destruct b
    | |- keeps_ids_unique (PubMed.http_get _ _ _) => apply keeps_http_get
    | |- keeps_ids_unique _ => apply keeps_same; intros ?; reflexivity
    end.

Lemma keeps_file_batch search_batch :
  keeps_ids_unique (file_batch search_batch).
Proof.
  unfold PubMed.file_batch, PubMed.fetch_article_details. keeps.
Qed.

Lemma keeps_append_combo key : keeps_ids_unique (Srv:=Srv) (append_combo key).
Proof.
  apply keeps_same. intros st. unfold append_combo, seqM, get_combos, lift,
    set_combos. simpl.
  destruct (py_append (searched_combos st) (JStr key)); reflexivity.
Qed.

Lemma keeps_save_progress : keeps_ids_unique (Srv:=Srv) save_progress.
Proof. apply keeps_same. intros st. reflexivity. Qed.

Lemma keeps_batch q key total start :
  keeps_ids_unique (batch q key total start).
Proof.
  unfold PubMed.batch, PubMed.batch_body, PubMed.search.
  repeat match goal with
    | |- keeps_ids_unique (file_batch _) => apply keeps_file_batch
    | |- keeps_ids_unique (append_combo _) => apply keeps_append_combo
    | |- keeps_ids_unique save_progress => apply keeps_save_progress
    | |- keeps_ids_unique (seqM _ _) => apply keeps_seq; [|intros ?]
    | |- keeps_ids_unique (try_except _ _) => apply keeps_try; [|intros ?]
    | |- keeps_ids_unique (PubMed.http_get _ _ _) => apply keeps_http_get
    | |- keeps_ids_unique _ => apply keeps_same; intros ?; reflexivity
    end.
Qed.

Lemma keeps_batch_loop q key total starts :
  keeps_ids_unique (batch_loop q key total starts).
Proof.
  induction starts as [|start rest IH]; simpl.
  - apply keeps_same. reflexivity.
  - apply keeps_seq; [apply keeps_batch|intros _; exact IH].
Qed.

Lemma keeps_search_term ml_term take_batches :
  keeps_ids_unique (search_term ml_term take_batches).
Proof.
  unfold PubMed.search_term, PubMed.search.
  repeat match goal with
    | |- keeps_ids_unique (PubMed.batch_loop _ _ _ _ _ _ _) =>
        apply keeps_batch_loop
    | |- keeps_ids_unique (seqM _ _) => apply keeps_seq; [|intros ?]
    | |- keeps_ids_unique (if ?b then _ else _) => destruct b
    | |- keeps_ids_unique (PubMed.http_get _ _ _) => apply keeps_http_get
    | |- keeps_ids_unique _ => apply keeps_same; intros ?; reflexivity
    end.
Qed.

Lemma keeps_process_term ml_term : keeps_ids_unique (process_term ml_term).
Proof.
  unfold PubMed.process_term.
  repeat match goal with
    | |- keeps_ids_unique (PubMed.search_term _ _ _ _ _ _) =>
        apply keeps_search_term
    | |- keeps_ids_unique (append_combo _) => apply keeps_append_combo
    | |- keeps_ids_unique save_progress => apply keeps_save_progress
    | |- keeps_ids_unique (seqM _ _) => apply keeps_seq; [|intros ?]
    | |- keeps_ids_unique (if ?b then _ else _) => destruct b
    | |- keeps_ids_unique _ => apply keeps_same; intros ?; reflexivity
    end.
Qed.

Lemma keeps_term_loop terms : keeps_ids_unique (term_loop terms).
Proof.
  induction terms as [|t rest IH]; simpl.
  - apply keeps_same. reflexivity.
  - apply keeps_seq; [apply keeps_process_term|intros _; exact IH].
Qed.

Lemma keeps_save_results : keeps_ids_unique save_results.
Proof.
  apply keeps_same. intros st.
  unfold PubMed.save_results, seqM, get_articles, lift, logger, write_json,
    ret. simpl.
  destruct (py_values (all_articles st)); reflexivity.
Qed.

(** What is loaded from a well-formed progress file has unique
    identifiers. *)
Lemma load_progress_ids_unique (st : state) :
  progress_ok (disk st) -> ids_unique (snd (load_progress st)).
Proof.
  intros Hok.
  unfold PubMed.load_progress, PubMed.read_progress, seqM, set_articles,
    set_combos, lift, logger. simpl.
  destruct (disk st !! progress_file) as [[|pd]|] eqn:Ed; simpl.
  - intros kvs Hk. simpl in Hk. inversion Hk. constructor.
  - destruct (py_get pd "searched_combos" (JArr [])) as [combos|e]; simpl.
    + destruct (py_get pd "articles" (JObj [])) as [articles|e] eqn:Ea;
        simpl.
      * destruct (py_len combos); simpl; intros kvs Hk; simpl in Hk;
          subst articles; exact (Hok pd kvs Ed Ea).
      * intros kvs Hk. simpl in Hk. inversion Hk. constructor.
    + intros kvs Hk. simpl in Hk. inversion Hk. constructor.
  - intros kvs Hk. simpl in Hk. inversion Hk. constructor.
Qed.

(** Over a whole run no identifier is ever on file twice. *)
Lemma search_ids_unique (s0 : Srv) (d0 : gmap string file) :
  progress_ok d0 ->
  ids_unique (snd (search_ml_medicine_articles (boot s0 d0))).
Proof.
  intros Hok. unfold PubMed.search_ml_medicine_articles.
  pose proof (load_progress_ids_unique (boot s0 d0) Hok) as H0.
  unfold seqM at 1.
  destruct (load_progress (boot s0 d0)) as [[[]|e] st0]; simpl in H0;
    [|exact H0].
  apply (keeps_seq (term_loop ml_terms) (fun _ => save_results));
    [apply keeps_term_loop|intros _; apply keeps_save_results|exact H0].
Qed.

(** A run that returns has written the article list from the dict it
    returns: one record per identifier. *)
Lemma search_returns (s0 : Srv) (d0 : gmap string file) a (st : state) :
  search_ml_medicine_articles (boot s0 d0) = (Ok a, st) ->
  exists kvs,
    a = JObj kvs /\ all_articles st = JObj kvs /\
    disk st !! output_file = Some (Doc (JArr (dict_values kvs))).
Proof.
  unfold PubMed.search_ml_medicine_articles.
  unfold seqM at 1.
  destruct (load_progress (boot s0 d0)) as [[[]|e] st0]; [|discriminate].
  unfold seqM at 1.
  destruct (term_loop ml_terms st0) as [[[]|e] st1]; [|discriminate].
  unfold PubMed.save_results, seqM, get_articles, lift, logger, write_json,
    ret. simpl.
  destruct (all_articles st1) as [| | | | |kvs] eqn:Ea; simpl;
    try discriminate.
  intros H. inversion H; subst. simpl. exists kvs.
  split; [reflexivity|]. split; [reflexivity|]. apply lookup_insert_eq.
Qed.

(** ** A batch answered without the expected fields *)

(** The batch search is answered 200 with a body in which no identifier
    list is found.  Nothing is raised: the batch counts as done, the key of
    the term is appended and the checkpoint written, with the articles as
    they were. *)
Lemma batch_missing_idlist (q key : string) (total start : Z) (st : state)
  search_batch s' cs :
  let retmax := Z.min batch_size (total - start) in
  serve (srv st) (ESearch q retmax start)
    = ({| status_code := 200; body := Some search_batch |}, s') ->
  has_path "esearchresult" "idlist" search_batch = Ok false ->
  searched_combos st = JArr cs ->
  batch q key total start st =
  (Ok tt,
   {| srv := s';
      disk := <[progress_file :=
                  Doc (JObj [("searched_combos", JArr (cs ++ [JStr key]));
                             ("articles", all_articles st)])]> (disk st);
      log := log st ++ [FetchingBatch (start + 1) (start + retmax) total];
      sleeps := S (sleeps st);
      requests := requests st ++ [ESearch q retmax start];
      searched_combos := JArr (cs ++ [JStr key]);
      all_articles := all_articles st |}).
Proof.
  intros retmax Hs Hp Hc.
  destruct st as [s d l z r c a]. simpl in Hs, Hc. subst c.
  unfold PubMed.batch. fold retmax. step.
  apply try_except_ok. unfold PubMed.batch_body, PubMed.search.
  step_with ltac:(unfold PubMed.http_get; cbn [srv]; rewrite Hs;
                  reflexivity).
  step_with ltac:(unfold PubMed.file_batch;
                  rewrite (seqM_lift _ _ _ false) by exact Hp;
                  reflexivity).
  reflexivity.
Qed.

End PubMedFacts.

(* ===================================================================== *)
(** * get-pubmed.py against a scripted remote                             *)
(* ===================================================================== *)

Section PubMedScripted.

Import PubMed.

Context (int_of_str : string -> option Z).
Context (batch_size : Z) (output_file : string).

Local Abbreviation Srv := (list response).
Local Abbreviation serve := (@Sim.scripted request).
Local Abbreviation state := (PubMed.state Srv).

Lemma map_result_as_str (ids : list string) :
  map_result as_str (map JStr ids) = Ok ids.
Proof.
  induction ids as [|i ids IH]; simpl; [reflexivity|].
  rewrite IH. reflexivity.
Qed.

Lemma filter_no_uids (items : list (string * json)) :
  "uids" ∉ dict_keys items ->
  List.filter (fun kv => negb (String.eqb (fst kv) "uids")) items = items.
Proof.
  induction items as [|[k v] items IH]; simpl; [reflexivity|].
  rewrite not_elem_of_cons. intros [Hk Hr].
  destruct (String.eqb_spec k "uids"); [congruence|].
  simpl. rewrite IH; auto.
Qed.

(** The scripted remote answers 200 with the body [j]. *)
Lemma http_get_scripted (req : request) (st : state) j rest :
  srv st = Sim.ok j :: rest ->
  PubMed.http_get Srv serve req st =
  (Ok j,
   {| srv := rest; disk := disk st; log := log st; sleeps := sleeps st;
      requests := requests st ++ [req];
      searched_combos := searched_combos st;
      all_articles := all_articles st |}).
Proof.
  intros H. unfold PubMed.http_get, Sim.scripted. rewrite H. reflexivity.
Qed.

(** The documents of [items] arrive and are filed behind those on file. *)
Lemma file_batch_scripted (st : state) (items kvs : list (string * json))
  (rest : Srv) header :
  srv st = Sim.summary_reply items :: rest ->
  items <> [] ->
  all_articles st = JObj kvs ->
  NoDup (dict_keys kvs ++ dict_keys items) ->
  "uids" ∉ dict_keys items ->
  PubMed.file_batch Srv serve
    (JObj [("header", header);
           ("esearchresult",
            JObj [("idlist", JArr (map JStr (dict_keys items)))])]) st =
  (Ok tt,
   {| srv := rest; disk := disk st; log := log st; sleeps := sleeps st;
      requests := requests st
                  ++ [ESummary (String.concat "," (dict_keys items))];
      searched_combos := searched_combos st;
      all_articles := JObj (kvs ++ items) |}).
Proof.
  intros Hsrv Hne Ha Hn Hu.
  assert (Ht : truthy (JArr (map JStr (dict_keys items))) = true).
  { destruct items; [contradiction|reflexivity]. }
  assert (Hj : py_join "," (JArr (map JStr (dict_keys items))) =
               Ok (String.concat "," (dict_keys items))).
  { unfold py_join. simpl. rewrite map_result_as_str. reflexivity. }
  assert (Hf : add_articles
                 (("uids", JArr (map JStr (dict_keys items))) :: items)
                 (JObj kvs) = Ok (JObj (kvs ++ items))).
  { simpl. rewrite add_articles_fresh by exact Hn.
    rewrite filter_no_uids by exact Hu. reflexivity. }
  unfold PubMed.file_batch.
  rewrite (seqM_lift _ _ _ true) by reflexivity.
  rewrite (seqM_lift _ _ _
             (JObj [("idlist", JArr (map JStr (dict_keys items)))]))
    by reflexivity.
  rewrite (seqM_lift _ _ _ (JArr (map JStr (dict_keys items))))
    by reflexivity.
  rewrite Ht. unfold PubMed.fetch_article_details. rewrite Ht, Hj.
  erewrite seqM_eq;
    [|rewrite (seqM_lift _ _ _ (String.concat "," (dict_keys items)))
        by reflexivity;
      apply http_get_scripted; exact Hsrv].
  rewrite (seqM_lift _ _ _ true) by reflexivity.
  rewrite (seqM_lift _ _ _
             (JObj (("uids", JArr (map JStr (dict_keys items))) :: items)))
    by reflexivity.
  rewrite (seqM_lift _ _ _
             (("uids", JArr (map JStr (dict_keys items))) :: items))
    by reflexivity.
  unfold get_articles at 1.
  erewrite seqM_eq by reflexivity. cbn [all_articles]. rewrite Ha.
  rewrite (seqM_lift _ _ _ (JObj (kvs ++ items))) by exact Hf.
  reflexivity.
Qed.

(** A batch whose two requests are answered with the identifiers and the
    documents of [items]: the documents are filed behind those on file,
    the key of the term is appended and the checkpoint written. *)
Lemma batch_scripted (q key : string) (total start : Z) (st : state)
  (items kvs : list (string * json)) (cs : list json) (rest : Srv) :
  srv st = Sim.ids_reply (dict_keys items) :: Sim.summary_reply items :: rest ->
  items <> [] ->
  all_articles st = JObj kvs ->
  searched_combos st = JArr cs ->
  NoDup (dict_keys kvs ++ dict_keys items) ->
  "uids" ∉ dict_keys items ->
  let retmax := Z.min batch_size (total - start) in
  let combos' := JArr (cs ++ [JStr key]) in
  let articles' := JObj (kvs ++ items) in
  PubMed.batch Srv serve batch_size q key total start st =
  (Ok tt,
   {| srv := rest;
      disk := <[progress_file :=
                  Doc (JObj [("searched_combos", combos');
                             ("articles", articles')])]> (disk st);
      log := log st ++ [FetchingBatch (start + 1) (start + retmax) total];
      sleeps := S (sleeps st);
      requests := (requests st ++ [ESearch q retmax start])
                  ++ [ESummary (String.concat "," (dict_keys items))];
      searched_combos := combos';
      all_articles := articles' |}).
Proof.
  intros Hsrv Hne Ha Hc Hn Hu retmax combos' articles'.
  destruct st as [s d l z r c a]. simpl in Hsrv, Ha, Hc. subst s c a.
  unfold PubMed.batch. fold retmax.
  erewrite seqM_eq by reflexivity.
  apply try_except_ok. unfold PubMed.batch_body, PubMed.search.
  erewrite seqM_eq by (apply http_get_scripted; reflexivity).
  erewrite seqM_eq by
    (apply (file_batch_scripted _ items kvs rest); auto).
  reflexivity.
Qed.

(** The batch loop when the remote has the batches [pages] ready. *)
Lemma batch_loop_scripted (q key : string) (total : Z)
  (pages : list (list (string * json))) :
  forall (starts : list Z) (st : state) kvs cs (rest : Srv),
    length starts = length pages ->
    srv st = Sim.replies pages ++ rest ->
    Forall (fun p => p <> []) pages ->
    all_articles st = JObj kvs ->
    searched_combos st = JArr cs ->
    NoDup (dict_keys kvs ++ dict_keys (concat pages)) ->
    "uids" ∉ dict_keys (concat pages) ->
    exists st',
      PubMed.batch_loop Srv serve batch_size q key total starts st
        = (Ok tt, st') /\
      srv st' = rest /\
      all_articles st' = JObj (kvs ++ concat pages) /\
      searched_combos st' = JArr (cs ++ replicate (length pages) (JStr key)) /\
      sleeps st' = (sleeps st + length pages)%nat /\
      length (requests st') = (length (requests st) + 2 * length pages)%nat /\
      (forall p, p <> progress_file -> disk st' !! p = disk st !! p).
Proof.
  induction pages as [|items pages IH];
    intros starts st kvs cs rest Hlen Hsrv Hne Ha Hc Hn Hu.
  - destruct starts; [|discriminate]. simpl in *.
    exists st. rewrite !app_nil_r. repeat split; auto; lia.
  - destruct starts as [|start starts]; [discriminate|].
    simpl in Hlen, Hsrv, Hn, Hu. rewrite dict_keys_app in Hn, Hu.
    apply Forall_cons in Hne as [Hi Hne].
    apply not_elem_of_app in Hu as [Hu1 Hu2].
    assert (Hn1 : NoDup (dict_keys kvs ++ dict_keys items)).
    { rewrite app_assoc in Hn. apply NoDup_app in Hn. tauto. }
    cbn [PubMed.batch_loop].
    erewrite seqM_eq by
      (apply (batch_scripted q key total start st items kvs cs
                (Sim.replies pages ++ rest)); auto).
    match goal with
    | |- context [PubMed.batch_loop _ _ _ _ _ _ _ ?x] => set (st1 := x)
    end.
    destruct (IH starts st1 (kvs ++ items) (cs ++ [JStr key]) rest)
      as (st' & Hl & Hs' & Ha' & Hc' & Hz' & Hr' & Hd'); auto.
    { rewrite dict_keys_app, <- app_assoc. exact Hn. }
    exists st'. split; [exact Hl|]. subst st1. simpl in *.
    rewrite Ha', Hc', Hz', Hr', <- !app_assoc, !length_app. simpl.
    repeat split; auto; try lia.
    intros p Hp. rewrite Hd' by exact Hp. apply lookup_insert_ne. congruence.
Qed.

(** Without a progress file the search starts from nothing. *)
Lemma load_progress_fresh (st : state) :
  disk st !! progress_file = None ->
  PubMed.load_progress Srv st =
  (Ok tt,
   {| srv := srv st; disk := disk st; log := log st ++ [StartingNew];
      sleeps := sleeps st; requests := requests st;
      searched_combos := JArr []; all_articles := JObj [] |}).
Proof.
  intros H. unfold PubMed.load_progress. step.
  unfold PubMed.read_progress. cbn [disk set_articles snd]. rewrite H.
  reflexivity.
Qed.

(** Up to the batch loop: the counting request is answered with [count]. *)
Lemma search_term_counts (ml_term : string) (take_batches : option nat)
  (st : state) count total starts (rest : Srv) :
  srv st = Sim.count_reply count :: rest ->
  int_of_str count = Some total ->
  PubMed.py_range total batch_size = Ok starts ->
  PubMed.search_term Srv serve int_of_str batch_size ml_term take_batches st =
  PubMed.batch_loop Srv serve batch_size ml_term ml_term total
    (match take_batches with
     | None => starts
     | Some k => firstn k starts
     end)
    {| srv := rest; disk := disk st;
       log := (log st ++ [Searching ml_term]) ++ [Found total ml_term];
       sleeps := sleeps st; requests := requests st ++ [ESearch ml_term 0 0];
       searched_combos := searched_combos st;
       all_articles := all_articles st |}.
Proof.
  intros Hsrv Hint Hrange.
  unfold PubMed.search_term, PubMed.search.
  step.
  step_with ltac:(apply http_get_scripted; exact Hsrv).
  step_val true.
  step. step.
  step_with ltac:(unfold lift, PubMed.py_int; rewrite Hint; reflexivity).
  step. step. step. step. step.
  cbn [truthy String.eqb Ascii.eqb Bool.eqb negb andb].
  step_with ltac:(unfold lift; rewrite Hrange; reflexivity).
  reflexivity.
Qed.

(** The whole search when nothing is on disk and the remote reports
    [total] articles and has them ready in the batches [pages]. *)
Lemma search_scripted (pages : list (list (string * json))) (count : string)
  (total : Z) (starts : list Z) (d0 : gmap string file) :
  d0 !! progress_file = None ->
  int_of_str count = Some total ->
  PubMed.py_range total batch_size = Ok starts ->
  length starts = length pages ->
  Forall (fun p => p <> []) pages ->
  NoDup (dict_keys (concat pages)) ->
  "uids" ∉ dict_keys (concat pages) ->
  exists st,
    PubMed.search_ml_medicine_articles Srv serve int_of_str batch_size
      output_file (boot (Sim.count_reply count :: Sim.replies pages) d0)
      = (Ok (JObj (concat pages)), st) /\
    all_articles st = JObj (concat pages) /\
    searched_combos st =
      JArr (replicate (S (length pages)) (JStr "Artificial Intelligence")) /\
    disk st !! output_file = Some (Doc (JArr (dict_values (concat pages)))) /\
    sleeps st = length pages /\
    length (requests st) = S (2 * length pages).
Proof.
  intros Hd0 Hint Hrange Hlen Hne Hn Hu.
  set (t := "Artificial Intelligence").
  pose proof (load_progress_fresh
                (boot (Sim.count_reply count :: Sim.replies pages) d0) Hd0)
    as E0.
  cbn [boot srv disk log sleeps requests app] in E0.
  match type of E0 with _ = (_, ?s) => set (st0 := s) in * end.
  pose proof (search_term_counts t None st0 count total starts
                (Sim.replies pages) eq_refl Hint Hrange) as E1.
  cbn [st0 srv disk log sleeps requests searched_combos all_articles app]
    in E1.
  match type of E1 with _ = PubMed.batch_loop _ _ _ _ _ _ _ ?s =>
    set (st1 := s) in * end.
  destruct (batch_loop_scripted t t total pages starts st1 [] [] [])
    as (st2 & E2 & Hs2 & Ha2 & Hc2 & Hz2 & Hr2 & Hd2); auto.
  { simpl. rewrite app_nil_r. reflexivity. }
  destruct st2 as [s2 d2 l2 z2 r2 c2 a2]. simpl in Hs2, Ha2, Hc2, Hz2, Hr2.
  subst s2 a2 c2 z2.
  eexists. split.
  - unfold PubMed.search_ml_medicine_articles.
    step_with ltac:(exact E0).
    unfold ml_terms. cbn [PubMed.term_loop].
    step_with ltac:(
      step_with ltac:(
        unfold PubMed.process_term; step; step_val false;
        step_with ltac:(fold t; rewrite E1; exact E2);
        step; reflexivity);
      reflexivity).
    unfold PubMed.save_results. step. step. step. step. step.
    reflexivity.
  - cbn [all_articles searched_combos disk sleeps requests].
    split; [reflexivity|]. split.
    { rewrite replicate_S_end. reflexivity. }
    split; [apply lookup_insert_eq|]. split; [reflexivity|exact Hr2].
Qed.

End PubMedScripted.

(* ===================================================================== *)
(** * main.py                                                             *)
(* ===================================================================== *)

Section PmidsFacts.

Import Pmids.

Context {Srv : Type} (serve : Srv -> Z -> result json * Srv).
Context (py_str : json -> string).

Local Abbreviation state := (Pmids.state Srv).
Local Abbreviation iteration := (Pmids.iteration Srv serve py_str).
Local Abbreviation main_loop := (Pmids.main_loop Srv serve py_str).
Local Abbreviation main := (Pmids.main Srv serve py_str).

(** Writing stops with an exception at a batch that is [None]. *)
Lemma write_batches_None (batches : list json) (lines : list string) :
  exists e, fst (write_batches py_str (batches ++ [JNull]) lines) = Raise e.
Proof.
  revert lines. induction batches as [|b batches IH]; intros lines; simpl.
  - eauto.
  - destruct (py_iter b) as [pmids|e]; simpl; eauto.
Qed.

(** The [break] of line 29 is never reached: a batch that is [None] makes
    the write loop raise first. *)
Lemma iteration_never_breaks (st : state) : fst (iteration st) <> Break.
Proof.
  unfold Pmids.iteration.
  destruct (serve (srv st) (start_count st)) as [[b|e] s']; simpl;
    [|discriminate].
  destruct (write_batches py_str (articles st ++ [b]) _) as [w lines] eqn:Ew.
  destruct w as [u|e]; simpl; [|discriminate].
  destruct b; simpl; try discriminate.
  destruct (write_batches_None (articles st)
              (match disk st !! pmidsmeta with
               | Some lines0 => lines0
               | None => []
               end)) as (e & He).
  rewrite Ew in He. discriminate.
Qed.

Lemma main_loop_never_breaks (fuel : nat) (st : state) :
  fst (main_loop fuel st) <> Break.
Proof.
  revert st. induction fuel as [|fuel IH]; intros st; simpl; [discriminate|].
  pose proof (iteration_never_breaks st) as Hi.
  destruct (iteration st) as [[| |e] st']; simpl in *;
    [apply IH|contradiction|discriminate].
Qed.

(** main.py never ends normally: it is still running or it has crashed. *)
Lemma main_never_exits (fuel : nat) (s0 : Srv) d0 :
  fst (main fuel s0 d0) <> Exited.
Proof.
  unfold Pmids.main. pose proof (main_loop_never_breaks fuel (boot s0 d0)) as H.
  destruct (main_loop fuel (boot s0 d0)) as [[| |e] st]; simpl in *;
    [discriminate|contradiction|discriminate].
Qed.

End PmidsFacts.

(* ===================================================================== *)
(** * analyze_normalized_citations.py                                     *)
(* ===================================================================== *)

Section AnalysisFacts.

Import Analysis.

Implicit Types (d : list (Z * list (option Z))) (w : work) (y : Z).

Lemma append_at_get_eq y c d :
  by_year_get (append_at y c d) y =
  Some (match by_year_get d y with
        | Some cites => cites ++ [c]
        | None => [c]
        end).
Proof.
  induction d as [|[y' cites] d IH]; simpl.
  - rewrite Z.eqb_refl. reflexivity.
  - destruct (Z.eqb_spec y' y) as [->|Hne]; simpl.
    + rewrite Z.eqb_refl. reflexivity.
    + destruct (Z.eqb_spec y' y); [contradiction|exact IH].
Qed.

Lemma append_at_get_ne y y' c d :
  y <> y' -> by_year_get (append_at y c d) y' = by_year_get d y'.
Proof.
  intros Hne. induction d as [|[y0 cites] d IH]; simpl.
  - destruct (Z.eqb_spec y y'); [contradiction|reflexivity].
  - destruct (Z.eqb_spec y0 y) as [->|H0]; simpl.
    + destruct (Z.eqb_spec y y'); [contradiction|reflexivity].
    + destruct (Z.eqb_spec y0 y'); [reflexivity|exact IH].
Qed.

Lemma year_truthy_Some year y : year_truthy year = Some y -> year = Some y /\ y <> 0.
Proof.
  destruct year as [y0|]; simpl; [|discriminate].
  destruct (Z.eqb_spec y0 0); [discriminate|].
  intros H; inversion H; subst. auto.
Qed.

Lemma citations_by_year_snoc works w :
  citations_by_year (works ++ [w]) =
  match year_truthy (publication_year w) with
  | Some y => append_at y (cited_by_count w) (citations_by_year works)
  | None => citations_by_year works
  end.
Proof. unfold citations_by_year. rewrite fold_left_app. reflexivity. Qed.

(** The year [0] and the missing year are never keys. *)
Lemma citations_by_year_zero works : by_year_get (citations_by_year works) 0 = None.
Proof.
  induction works as [|w works IH] using rev_ind; [reflexivity|].
  rewrite citations_by_year_snoc.
  destruct (year_truthy (publication_year w)) as [y|] eqn:Ey; [|exact IH].
  apply year_truthy_Some in Ey as [_ Hy].
  rewrite append_at_get_ne by exact Hy. exact IH.
Qed.

(** Every work with a year has its count in the list of that year. *)
Lemma citations_by_year_In works w y :
  In w works -> year_truthy (publication_year w) = Some y ->
  exists cites,
    by_year_get (citations_by_year works) y = Some cites /\
    In (cited_by_count w) cites.
Proof.
  induction works as [|w' works IH] using rev_ind; [contradiction|].
  intros Hin Hy. rewrite citations_by_year_snoc.
  apply in_app_or in Hin as [Hin|[->|[]]].
  - destruct (IH Hin Hy) as (cites & Hg & Hc).
    destruct (year_truthy (publication_year w')) as [y'|]; [|eauto].
    destruct (Z.eq_dec y' y) as [->|Hne].
    + rewrite append_at_get_eq, Hg. eexists. split; [reflexivity|].
      apply in_or_app. auto.
    + rewrite append_at_get_ne by exact Hne. eauto.
  - rewrite Hy, append_at_get_eq. eexists. split; [reflexivity|].
    destruct (by_year_get (citations_by_year works) y);
      [apply in_or_app|]; simpl; auto.
Qed.

Lemma sum_cites_Ok cites s : sum_cites cites = Ok s -> ~ In None cites.
Proof.
  revert s. induction cites as [|[c|] cites IH]; simpl; intros s H.
  - tauto.
  - destruct (sum_cites cites) as [s'|e]; simpl in H; [|discriminate].
    intros [Hc|Hc]; [discriminate|]. exact (IH s' eq_refl Hc).
  - discriminate.
Qed.

Lemma mean_Ok cites q : mean cites = Ok q -> ~ In None cites.
Proof.
  unfold mean. destruct cites as [|c cites]; [discriminate|].
  destruct (sum_cites (c :: cites)) as [s|e] eqn:Es; [|discriminate].
  intros _. exact (sum_cites_Ok _ _ Es).
Qed.

(** The keys of [citation_stats] are those of [citations_by_year], and the
    mean of each list was computed. *)
Lemma stats_get_by_year d cs y s :
  map_result year_stats d = Ok cs ->
  stats_get cs y = Some s ->
  exists cites, by_year_get d y = Some cites /\ mean cites = Ok (average s).
Proof.
  revert cs. induction d as [|[y' cites] d IH]; simpl; intros cs H.
  - inversion H; subst. discriminate.
  - destruct (mean cites) as [avg|e] eqn:Em; simpl in H; [|discriminate].
    destruct (map_result year_stats d) as [cs'|e]; simpl in H; [|discriminate].
    inversion H; subst cs. simpl.
    destruct (Z.eqb_spec y' y) as [->|Hne].
    + intros Hs; inversion Hs; subst. simpl. eauto.
    + apply IH. reflexivity.
Qed.

Lemma has_positive_average_true cs year :
  has_positive_average cs year = true <->
  exists y s, year = Some y /\ stats_get cs y = Some s /\ (0 < average s)%Q.
Proof.
  unfold has_positive_average. split.
  - destruct year as [y|]; [|discriminate].
    destruct (stats_get cs y) as [s|] eqn:Es; [|discriminate].
    intros H. exists y, s. split; [reflexivity|]. split; [exact Es|].
    apply Qnot_le_lt. intros Hle. apply Qle_bool_iff in Hle.
    rewrite Hle in H. discriminate.
  - intros (y & s & -> & -> & Hlt).
    destruct (Qle_bool (average s) (0 # 1)) eqn:E; [|reflexivity].
    apply Qle_bool_iff in E. exfalso. exact (Qlt_not_le _ _ Hlt E).
Qed.

(** Once [citation_stats] exists, a work whose year is a key has an
    integer count: line 35 raises no [TypeError]. *)
Lemma score_counted works cs w y s :
  citation_stats works = Ok cs -> In w works ->
  publication_year w = Some y -> stats_get cs y = Some s ->
  exists c, cited_by_count w = Some c.
Proof.
  intros Hcs Hin Hy Hs.
  destruct (stats_get_by_year _ _ _ _ Hcs Hs) as (cites & Hg & Hm).
  assert (Hy0 : y <> 0).
  { intros ->. rewrite citations_by_year_zero in Hg. discriminate. }
  assert (Ht : year_truthy (publication_year w) = Some y).
  { rewrite Hy. simpl. destruct (Z.eqb_spec y 0); [contradiction|reflexivity]. }
  destruct (citations_by_year_In works w y Hin Ht) as (cites' & Hg' & Hc).
  rewrite Hg in Hg'. inversion Hg'; subst cites'.
  destruct (cited_by_count w) as [c|]; [eauto|].
  exfalso. exact (mean_Ok _ _ Hm Hc).
Qed.

(** The field of a work: the value of the expression when the year has a
    positive mean, [None] otherwise. *)
Lemma score_cases works cs w :
  citation_stats works = Ok cs -> In w works ->
  (exists y c,
     publication_year w = Some y /\ cited_by_count w = Some c /\
     has_positive_average cs (publication_year w) = true /\
     normalized_citation_score cs w =
       (do score <- score_expr c y; Ok (Some score))) \/
  (has_positive_average cs (publication_year w) = false /\
   normalized_citation_score cs w = Ok None).
Proof.
  intros Hcs Hin. unfold normalized_citation_score.
  destruct (has_positive_average cs (publication_year w)) eqn:Hp; [|auto].
  left. apply has_positive_average_true in Hp as (y & s & Hy & Hs & _).
  destruct (score_counted works cs w y s Hcs Hin Hy Hs) as [c Hc].
  exists y, c. rewrite Hy, Hc. auto.
Qed.

(** Every work gets the field unless the expression overflows for one of
    them. *)
Lemma add_scores_total works cs :
  citation_stats works = Ok cs ->
  (forall w y c, In w works ->
     publication_year w = Some y -> cited_by_count w = Some c ->
     exists score, score_expr c y = Ok score) ->
  exists scored, add_scores cs works = Ok scored.
Proof.
  intros Hcs Hfin. unfold add_scores.
  assert (H : forall ws, (forall w, In w ws -> In w works) ->
            exists scored,
              map_result (fun w => do s <- normalized_citation_score cs w;
                                   Ok (w, s)) ws = Ok scored).
  { induction ws as [|w ws IH]; intros Hsub; simpl; [eauto|].
    assert (Hw : In w works) by (apply Hsub; left; reflexivity).
    assert (Hs : exists s, normalized_citation_score cs w = Ok s).
    { destruct (score_cases works cs w Hcs Hw)
        as [(y & c & Hy & Hc & _ & ->)|[_ ->]]; [|eauto].
      destruct (Hfin w y c Hw Hy Hc) as [score ->]. simpl. eauto. }
    destruct Hs as [s ->]. simpl.
    destruct IH as (scored & ->); [intros; apply Hsub; right; auto|].
    simpl. eauto. }
  apply H. auto.
Qed.

Lemma add_scores_In cs works scored w s :
  add_scores cs works = Ok scored -> In (w, s) scored ->
  In w works /\ normalized_citation_score cs w = Ok s.
Proof.
  unfold add_scores. revert scored.
  induction works as [|w' works IH]; simpl; intros scored H Hin.
  - inversion H; subst. contradiction.
  - destruct (normalized_citation_score cs w') as [s'|e] eqn:Es; simpl in H;
      [|discriminate].
    destruct (map_result _ works) as [scored'|e]; simpl in H; [|discriminate].
    inversion H; subst scored. destruct Hin as [Hin|Hin].
    + inversion Hin; subst. auto.
    + destruct (IH scored' eq_refl Hin). auto.
Qed.

Lemma add_scores_fst cs works scored :
  add_scores cs works = Ok scored -> map fst scored = works.
Proof.
  unfold add_scores. revert scored.
  induction works as [|w works IH]; simpl; intros scored H.
  - inversion H; reflexivity.
  - destruct (normalized_citation_score cs w) as [s|e]; simpl in H;
      [|discriminate].
    destruct (map_result _ works) as [scored'|e]; simpl in H; [|discriminate].
    inversion H; subst. simpl. f_equal. apply IH. reflexivity.
Qed.

(** C8.  Once [citation_stats] has been computed, the field of every
    loaded work is decided as follows.  For a work whose year [y] is a key
    of [citation_stats] with a mean above 0, it is the value of
    [cited_by_count / 2025 - y + 1] in floating point, evaluated left to
    right as Python parses it: the quotient of the two integers, minus
    [y], plus 1 (an integer too large for a float raises [OverflowError]
    at the step that needs it as one); for every other work it is
    [None].  When no work overflows, the loop gives every work its field,
    in the order of the file.  The expression is not the count divided by
    the age [2025 - y + 1]: for 100 citations in 2020 it gives about
    -2018.95, the age-normalised count about 16.67 (the two binary64
    values are written in hexadecimal below), and for 2^63 citations in
    2020 it gives 4554751623136142.0. *)
Theorem C8_score_as_written (works : list work) (cs : list (Z * stats)) :
  citation_stats works = Ok cs ->
  (forall w, In w works ->
     (forall y st,
        publication_year w = Some y -> stats_get cs y = Some st ->
        (0 < average st)%Q ->
        exists c,
          cited_by_count w = Some c /\
          normalized_citation_score cs w =
            (do quotient <- true_div c 2025;
             do year <- float_of_Z y;
             do one <- float_of_Z 1;
             Ok (Some (PrimFloat.add (PrimFloat.sub quotient year) one)))) /\
     ((forall y st,
         publication_year w = Some y -> stats_get cs y = Some st ->
         ~ (0 < average st)%Q) ->
      normalized_citation_score cs w = Ok None)) /\
  ((forall w y c, In w works ->
      publication_year w = Some y -> cited_by_count w = Some c ->
      exists score, score_expr c y = Ok score) ->
   exists scored,
     add_scores cs works = Ok scored /\
     map fst scored = works /\
     forall w s, In (w, s) scored -> normalized_citation_score cs w = Ok s) /\
  score_expr 100 2020 = Ok (-0x1.f8bcd6e9e0652p+10)%float /\
  per_year_of_age 100 2020 = Ok (0x1.0aaaaaaaaaaabp+4)%float /\
  score_expr (2 ^ 63) 2020 = Ok (0x1.02e85c089838ep+52)%float.
Proof.
  intros Hcs. split; [|split; [|repeat split; vm_compute; reflexivity]].
  - intros w Hin. split.
    + intros y st Hy Hs Hlt.
      destruct (score_counted works cs w y st Hcs Hin Hy Hs) as [c Hc].
      exists c. split; [exact Hc|].
      assert (Hp : has_positive_average cs (publication_year w) = true).
      { apply has_positive_average_true. eauto. }
      unfold normalized_citation_score, score_expr, current_year.
      rewrite Hp, Hy, Hc.
      destruct (true_div c 2025) as [q|e]; [|reflexivity]. simpl.
      destruct (float_of_Z y) as [fy|e]; [|reflexivity]. simpl.
      destruct (float_of_Z 1) as [one|e]; reflexivity.
    + intros Hno. unfold normalized_citation_score.
      destruct (has_positive_average cs (publication_year w)) eqn:Hp;
        [|reflexivity].
      apply has_positive_average_true in Hp as (y & st & Hy & Hs & Hlt).
      exfalso. exact (Hno y st Hy Hs Hlt).
  - intros Hfin.
    destruct (add_scores_total works cs Hcs Hfin) as (scored & Hsc).
    exists scored. split; [exact Hsc|].
    split; [eapply add_scores_fst; eauto|].
    intros w s Hin. exact (proj2 (add_scores_In _ _ _ _ _ Hsc Hin)).
Qed.

(** A work without ["title"] is recorded with a null title. *)
Lemma make_record_untitled kvs r :
  dict_get kvs "title" = None ->
  OpenAlex.make_record (JObj kvs) = Ok r ->
  py_getitem r "title" = Ok JNull.
Proof.
  intros Ht. unfold OpenAlex.make_record. simpl. rewrite Ht.
  destruct (py_iter _) as [each|e]; simpl; [|discriminate].
  destruct (map_result OpenAlex.make_author each) as [authors|e]; simpl;
    [|discriminate].
  intros H; inversion H; subst. reflexivity.
Qed.

(** C10.  pyalex-test.py records a work that has no title with a null
    title; and there is such a run whose file makes the analysis raise:
    the work is ranked, and printing the top of the list subscripts its
    title. *)
Theorem C10_untitled_work_stops_listing :
  (forall kvs r,
     dict_get kvs "title" = None ->
     OpenAlex.make_record (JObj kvs) = Ok r ->
     py_getitem r "title" = Ok JNull) /\
  exists st works,
    OpenAlex.main unit Sim.one_untitled 1 tt ∅ = (Exited, Some st) /\
    load_works (OpenAlex.disk st) = Some works /\
    map title works = [None; Some "Sepsis prediction"] /\
    analyze works = Raise TypeError.
Proof.
  split; [exact make_record_untitled|].
  eexists. eexists. split; [reflexivity|].
  split; [vm_compute; reflexivity|].
  split; [reflexivity|]. vm_compute. reflexivity.
Qed.

End AnalysisFacts.

(* ===================================================================== *)
(** * The claims that span several scripts                                *)
(* ===================================================================== *)

(** C3 (amended).  In get-pubmed.py identifiers are unique within
    [all_articles]: over a whole run started on a well-formed progress file
    no identifier is on file twice, and a run that returns has written one
    record per identifier.  Filing a batch keeps the identifiers that were
    on file, makes each identifier of the batch map to the record of the
    batch (a record on file is overwritten in place), and filing the same
    batch again changes nothing. *)
Theorem C3_pubmed_identifiers_unique
  {Srv : Type} (serve : Srv -> PubMed.request -> response * Srv)
  (int_of_str : string -> option Z) (batch_size : Z) (output_file : string)
  (s0 : Srv) (d0 : gmap string file) :
  PubMed.progress_ok d0 ->
  let run := PubMed.search_ml_medicine_articles Srv serve int_of_str
               batch_size output_file (PubMed.boot s0 d0) in
  PubMed.ids_unique (snd run) /\
  (forall a, fst run = Ok a ->
     exists kvs,
       a = JObj kvs /\ NoDup (dict_keys kvs) /\
       PubMed.disk (snd run) !! output_file
         = Some (Doc (JArr (dict_values kvs)))) /\
  (forall items kvs,
     NoDup (dict_keys kvs) -> NoDup (dict_keys items) ->
     exists kvs',
       PubMed.add_articles items (JObj kvs) = Ok (JObj kvs') /\
       NoDup (dict_keys kvs') /\
       (forall k, k ∈ dict_keys kvs -> k ∈ dict_keys kvs') /\
       (forall k v, (k, v) ∈ items -> k <> "uids" ->
                    dict_get kvs' k = Some v) /\
       PubMed.add_articles items (JObj kvs') = Ok (JObj kvs')).
Proof.
  intros Hok run.
  pose proof (search_ids_unique serve int_of_str batch_size output_file
                s0 d0 Hok) as Hu.
  split; [exact Hu|]. split.
  - intros a Ha.
    destruct (search_returns serve int_of_str batch_size output_file
                s0 d0 a (snd run)) as (kvs & -> & Hk & Hd).
    { rewrite <- Ha. apply surjective_pairing. }
    exists kvs. split; [reflexivity|]. split; [exact (Hu kvs Hk)|exact Hd].
  - intros items kvs Hn Hi.
    destruct (add_articles_dict items kvs) as (kvs' & Hadd).
    exists kvs'. split; [exact Hadd|].
    split; [eapply add_articles_NoDup; eauto|].
    split; [intros k; eapply add_articles_keeps_keys; eauto|].
    split; [intros k v; eapply add_articles_overwrites; eauto|].
    eapply add_articles_idempotent; eauto.
Qed.

Lemma C3_pubmed_identifiers_unique_witness :
  PubMed.ids_unique
    (snd (PubMed.search_ml_medicine_articles (list response) Sim.scripted
            Sim.int_of_digits 2 "out.json"
            (PubMed.boot Sim.six_found ∅))).
Proof.
  refine (proj1 (C3_pubmed_identifiers_unique Sim.scripted Sim.int_of_digits
                   2 "out.json" Sim.six_found ∅ _)).
  intros progress_data kvs H. vm_compute in H. discriminate.
Defined.

(** C3 as stated fails on pyalex-test.py, which keeps a list: started on
    a file that already holds the record of page 1, the run fetches page 1
    again and the record is in the output twice. *)
Lemma C3_counterexample :
  exists st,
    OpenAlex.main unit Sim.two_pages 2 tt
      (<[OpenAlex.output_file := Doc (JArr [Sim.r1])]> ∅)
      = (Exited, Some st) /\
    OpenAlex.all_works st = JArr [Sim.r1; Sim.r1; Sim.r2] /\
    ~ NoDup [Sim.r1; Sim.r1; Sim.r2].
Proof.
  eexists. split; [vm_compute; reflexivity|]. split; [reflexivity|].
  intros H. apply NoDup_cons in H as [H _]. apply H, elem_of_cons. auto.
Qed.



(** C6 (amended).  A 200 response without the expected fields raises
    nothing.  pyalex-test.py: a body without ["results"] counts as an empty
    page; no record is added, the file is rewritten with the works as they
    were, and the cursor moves on when the body names one; without
    ["meta"] there is no next cursor and the loop ends normally.
    get-pubmed.py: a batch whose search result has no identifier list
    counts as done; the key of the term is appended and the checkpoint
    written, with the articles as they were. *)
Theorem C6_missing_fields_raise_nothing :
  (forall Srv (serve : Srv -> json -> response * Srv)
          (st : OpenAlex.state Srv) resp s' kvs l next,
     serve (OpenAlex.srv st) (OpenAlex.cursor st) = (resp, s') ->
     status_code resp = 200 ->
     body resp = Some (JObj kvs) ->
     dict_get kvs "results" = None ->
     OpenAlex.get_next_cursor (JObj kvs) = Ok next ->
     OpenAlex.all_works st = JArr l ->
     OpenAlex.iteration Srv serve st =
     if truthy next then
       (OpenAlex.Continue,
        {| OpenAlex.srv := s';
           OpenAlex.disk :=
             <[OpenAlex.output_file := Doc (JArr l)]> (OpenAlex.disk st);
           OpenAlex.stdout :=
             OpenAlex.stdout st ++ [OpenAlex.Saved 0 (length l)];
           OpenAlex.sleeps := S (OpenAlex.sleeps st);
           OpenAlex.requests := OpenAlex.requests st ++ [OpenAlex.cursor st];
           OpenAlex.cursor := next; OpenAlex.all_works := JArr l |})
     else
       (OpenAlex.Break,
        {| OpenAlex.srv := s';
           OpenAlex.disk :=
             <[OpenAlex.output_file := Doc (JArr l)]> (OpenAlex.disk st);
           OpenAlex.stdout :=
             (OpenAlex.stdout st ++ [OpenAlex.Saved 0 (length l)])
             ++ [OpenAlex.NoMorePages];
           OpenAlex.sleeps := OpenAlex.sleeps st;
           OpenAlex.requests := OpenAlex.requests st ++ [OpenAlex.cursor st];
           OpenAlex.cursor := OpenAlex.cursor st;
           OpenAlex.all_works := JArr l |})) /\
  (forall kvs,
     dict_get kvs "meta" = None ->
     OpenAlex.get_next_cursor (JObj kvs) = Ok JNull) /\
  (forall Srv (serve : Srv -> PubMed.request -> response * Srv)
          (batch_size : Z) (q key : string) (total start : Z)
          (st : PubMed.state Srv) search_batch s' cs,
     let retmax := Z.min batch_size (total - start) in
     serve (PubMed.srv st) (PubMed.ESearch q retmax start)
       = ({| status_code := 200; body := Some search_batch |}, s') ->
     PubMed.has_path "esearchresult" "idlist" search_batch = Ok false ->
     PubMed.searched_combos st = JArr cs ->
     PubMed.batch Srv serve batch_size q key total start st =
     (Ok tt,
      {| PubMed.srv := s';
         PubMed.disk :=
           <[PubMed.progress_file :=
               Doc (JObj [("searched_combos", JArr (cs ++ [JStr key]));
                          ("articles", PubMed.all_articles st)])]>
             (PubMed.disk st);
         PubMed.log :=
           PubMed.log st
           ++ [PubMed.FetchingBatch (start + 1) (start + retmax) total];
         PubMed.sleeps := S (PubMed.sleeps st);
         PubMed.requests :=
           PubMed.requests st ++ [PubMed.ESearch q retmax start];
         PubMed.searched_combos := JArr (cs ++ [JStr key]);
         PubMed.all_articles := PubMed.all_articles st |})).
Proof.
  split; [|split].
  - intros Srv serve st resp s' kvs l next. apply openalex_missing_results.
  - exact get_next_cursor_no_meta.
  - intros Srv serve batch_size q key total start st search_batch s' cs.
    apply batch_missing_idlist.
Qed.

(** C6 as stated fails on pyalex-test.py: a remote that answers 200 with
    an empty JSON object makes the run end normally after one request,
    with the (empty) works written to the file. *)
Lemma C6_counterexample :
  exists st,
    OpenAlex.main unit Sim.no_fields 5 tt ∅ = (Exited, Some st) /\
    OpenAlex.requests st = [JStr "*"] /\
    OpenAlex.disk st !! OpenAlex.output_file = Some (Doc (JArr [])) /\
    signals_failure (fst (OpenAlex.main unit Sim.no_fields 5 tt ∅)) = false.
Proof.
  eexists. split; [reflexivity|]. split; [reflexivity|].
  split; [vm_compute; reflexivity|reflexivity].
Qed.



Lemma C6_missing_fields_raise_nothing_witness :
  OpenAlex.iteration unit Sim.no_fields
    {| OpenAlex.srv := tt; OpenAlex.disk := ∅;
       OpenAlex.stdout := [OpenAlex.Starting 0]; OpenAlex.sleeps := 0%nat;
       OpenAlex.requests := []; OpenAlex.cursor := JStr "*";
       OpenAlex.all_works := JArr [] |} =
  (OpenAlex.Break,
   {| OpenAlex.srv := tt;
      OpenAlex.disk := <[OpenAlex.output_file := Doc (JArr [])]> ∅;
      OpenAlex.stdout :=
        [OpenAlex.Starting 0; OpenAlex.Saved 0 0; OpenAlex.NoMorePages];
      OpenAlex.sleeps := 0%nat;
      OpenAlex.requests := [JStr "*"];
      OpenAlex.cursor := JStr "*";
      OpenAlex.all_works := JArr [] |}).
Proof.
  exact (proj1 C6_missing_fields_raise_nothing unit Sim.no_fields
           {| OpenAlex.srv := tt; OpenAlex.disk := ∅;
              OpenAlex.stdout := [OpenAlex.Starting 0];
              OpenAlex.sleeps := 0%nat;
              OpenAlex.requests := []; OpenAlex.cursor := JStr "*";
              OpenAlex.all_works := JArr [] |}
           (Sim.ok (JObj [])) tt [] [] JNull
           eq_refl eq_refl eq_refl eq_refl eq_refl eq_refl).
Defined.


Lemma C8_score_as_written_witness :
  Analysis.citation_stats Sim.sample_works = Ok Sim.sample_stats /\
  exists scored,
    Analysis.add_scores Sim.sample_stats Sim.sample_works = Ok scored /\
    map fst scored = Sim.sample_works.
Proof.
  split; [reflexivity|].
  destruct (C8_score_as_written Sim.sample_works Sim.sample_stats eq_refl)
    as (_ & H & _).
  destruct H as (scored & H1 & H2 & _).
  - intros w y c Hin Hy Hc. simpl in Hin.
    destruct Hin as [<-|[<-|[<-|[]]]]; simpl in Hy, Hc;
      inversion Hy; inversion Hc; subst; eexists; vm_compute; reflexivity.
  - exists scored. split; [exact H1|exact H2].
Defined.

Lemma C9_combo_key_marked_in_every_batch_witness :
  let st1 := snd (PubMed.killed_after (list response) Sim.scripted
                    Sim.int_of_digits 2 1 (PubMed.boot Sim.six_found ∅)) in
  PubMed.sleeps st1 = 1%nat /\
  exists cs,
    PubMed.searched_combos st1 = JArr cs /\
    PubMed.count_key "Artificial Intelligence" (JArr cs) = PubMed.sleeps st1 /\
    forall s,
      PubMed.requests
        (snd (PubMed.search_ml_medicine_articles (list response) Sim.scripted
                Sim.int_of_digits 2 "out.json"
                (PubMed.boot s (PubMed.disk st1)))) = [].
Proof.
  intros st1. split; [reflexivity|].
  destruct (proj1 (C9_combo_key_marked_in_every_batch Sim.scripted
                     Sim.int_of_digits 2 "out.json" Sim.six_found ∅)
              1%nat
              (fst (PubMed.killed_after (list response) Sim.scripted
                      Sim.int_of_digits 2 1 (PubMed.boot Sim.six_found ∅)))
              st1)
    as (cs & H1 & H2 & _ & H4).
  - vm_compute. reflexivity.
  - vm_compute. lia.
  - exists cs. split; [exact H1|]. split; [exact H2|].
    intros s. destruct (H4 s) as [Hreq _]. exact Hreq.
Defined.

(** C9 as stated fails after a single batch: killed after the first batch
    went through, the run leaves the key once in the progress file, not
    several times.  And when the output file is given the path of the
    progress file, the file ends as the list of articles and holds no
    [searched_combos] at all. *)
Lemma C9_counterexample :
  let st1 := snd (PubMed.killed_after (list response) Sim.scripted
                    Sim.int_of_digits 2 1 (PubMed.boot Sim.six_found ∅)) in
  PubMed.sleeps st1 = 1%nat /\
  PubMed.disk st1 !! PubMed.progress_file =
    Some (Doc (JObj [("searched_combos",
                      JArr [JStr "Artificial Intelligence"]);
                     ("articles", PubMed.all_articles st1)])) /\
  PubMed.count_key "Artificial Intelligence"
    (JArr [JStr "Artificial Intelligence"]) = 1%nat /\
  PubMed.disk
    (snd (PubMed.search_ml_medicine_articles (list response) Sim.scripted
            Sim.int_of_digits 2 PubMed.progress_file
            (PubMed.boot Sim.six_found ∅)))
    !! PubMed.progress_file
  = Some (Doc (JArr (dict_values (concat Sim.six_articles)))).
Proof. repeat split; vm_compute; reflexivity. Qed.

(* ===================================================================== *)
(** * pyalex-test.py: what every run keeps                                *)
(* ===================================================================== *)

Section OpenAlexRuns.

Import OpenAlex.

Context {Srv : Type} (serve : Srv -> json -> response * Srv).

Local Abbreviation iteration := (OpenAlex.iteration Srv serve).
Local Abbreviation main_loop := (OpenAlex.main_loop Srv serve).
Local Abbreviation main := (OpenAlex.main Srv serve).
Local Abbreviation state := (OpenAlex.state Srv).

(** One pass sends exactly one request, and sleeps exactly when the loop
    goes on. *)
Lemma iteration_counts (st : state) :
  length (requests (snd (iteration st))) = S (length (requests st)) /\
  sleeps (snd (iteration st)) =
    match fst (iteration st) with
    | Continue => S (sleeps st)
    | _ => sleeps st
    end.
Proof.
  unfold OpenAlex.iteration.
  destruct (serve (srv st) (cursor st)) as [resp s'].
  destruct (negb (status_code resp =? 200)); simpl.
  - rewrite length_app. simpl. split; [lia|reflexivity].
  - destruct (parse_page resp (all_works st)) as [[[data recs] works']|e];
      simpl.
    + destruct (get_next_cursor data) as [next|e]; simpl.
      * destruct (negb (truthy next)); simpl; rewrite length_app; simpl;
          split; try lia; reflexivity.
      * rewrite length_app. simpl. split; [lia|reflexivity].
    + rewrite length_app. simpl. split; [lia|reflexivity].
Qed.

Lemma main_loop_counts (fuel : nat) (st : state) :
  let r := main_loop fuel st in
  match fst r with
  | Continue =>
      length (requests (snd r)) = (length (requests st) + fuel)%nat /\
      sleeps (snd r) = (sleeps st + fuel)%nat
  | _ =>
      (length (requests (snd r)) - length (requests st) <= fuel)%nat /\
      (length (requests (snd r)) - length (requests st)
       = S (sleeps (snd r) - sleeps st))%nat /\
      (sleeps st <= sleeps (snd r))%nat
  end.
Proof.
  revert st. induction fuel as [|fuel IH]; intros st; simpl.
  - split; lia.
  - destruct (iteration_counts st) as [Hq Hs].
    destruct (iteration st) as [[| |e] st1] eqn:Ei; simpl in *.
    + specialize (IH st1). simpl in IH.
      destruct (fst (main_loop fuel st1)); rewrite Hq, Hs in *;
        repeat split; try lia.
    + rewrite Hq, Hs. repeat split; lia.
    + rewrite Hq, Hs. repeat split; lia.
Qed.

(** X1.  Requests and sleeps of a run.  While the loop is running after
    [fuel] passes, exactly [fuel] requests were sent and [fuel] sleeps of
    one second taken.  A run that has ended, normally or by an exception
    in the loop, has sent one request more than it slept: the delay is
    taken after every page except the last one. *)
Theorem X1_openalex_one_sleep_between_requests
  (fuel : nat) (s0 : Srv) (d0 : gmap string file) (o : outcome) (st : state) :
  main fuel s0 d0 = (o, Some st) ->
  match o with
  | Running => length (requests st) = fuel /\ sleeps st = fuel
  | _ => length (requests st) = S (sleeps st) /\
         (length (requests st) <= fuel)%nat
  end.
Proof.
  unfold OpenAlex.main. intros H.
  destruct (startup Srv s0 d0) as [st0|e] eqn:E0; [|discriminate].
  destruct (startup_cursor s0 d0 st0 E0) as (_ & Hq & _ & _ & Hs & _).
  pose proof (main_loop_counts fuel st0) as Hc. simpl in Hc.
  destruct (main_loop fuel st0) as [[| |e] st1]; inversion H; subst;
    simpl in *; rewrite Hq, Hs in Hc; simpl in Hc; lia.
Qed.

(** ** The file and the works in memory *)

Lemma iteration_other_paths (st : state) (p : string) :
  p <> output_file -> disk (snd (iteration st)) !! p = disk st !! p.
Proof.
  intros Hp. destruct (openalex_checkpoint serve st) as [[-> _] | ->];
    [reflexivity|].
  apply lookup_insert_ne. congruence.
Qed.

Lemma iteration_mirror (st : state) :
  disk st !! output_file = Some (Doc (all_works st)) \/
  (disk st !! output_file = None /\ all_works st = JArr []) ->
  disk (snd (iteration st)) !! output_file
    = Some (Doc (all_works (snd (iteration st)))) \/
  (disk (snd (iteration st)) !! output_file = None /\
   all_works (snd (iteration st)) = JArr []).
Proof.
  intros H. destruct (openalex_checkpoint serve st) as [[-> ->] | ->];
    [exact H|].
  left. apply lookup_insert_eq.
Qed.

Lemma main_loop_disk (fuel : nat) (st : state) :
  (forall p, p <> output_file ->
     disk (snd (main_loop fuel st)) !! p = disk st !! p) /\
  (disk st !! output_file = Some (Doc (all_works st)) \/
   (disk st !! output_file = None /\ all_works st = JArr []) ->
   disk (snd (main_loop fuel st)) !! output_file
     = Some (Doc (all_works (snd (main_loop fuel st)))) \/
   (disk (snd (main_loop fuel st)) !! output_file = None /\
    all_works (snd (main_loop fuel st)) = JArr [])).
Proof.
  revert st. induction fuel as [|fuel IH]; intros st; simpl; [auto|].
  pose proof (iteration_other_paths st) as Ho.
  pose proof (iteration_mirror st) as Hm.
  destruct (iteration st) as [[| |e] st1]; simpl in *; auto.
  destruct (IH st1) as [IHo IHm]. split.
  - intros p Hp. rewrite IHo, Ho by exact Hp. reflexivity.
  - intros H. apply IHm, Hm, H.
Qed.

(** A file that exists is never removed. *)
Lemma main_loop_keeps_file (fuel : nat) (st : state) :
  is_Some (disk st !! output_file) ->
  is_Some (disk (snd (main_loop fuel st)) !! output_file).
Proof.
  revert st. induction fuel as [|n IHn]; intros st1 Hs; simpl; [exact Hs|].
  assert (Hi : is_Some (disk (snd (iteration st1)) !! output_file)).
  { destruct (openalex_checkpoint serve st1) as [[-> _] | ->];
      [exact Hs|]. rewrite lookup_insert_eq. eauto. }
  destruct (iteration st1) as [[| |e] st2]; simpl in *; auto.
Qed.

(** X2.  The one file of pyalex-test.py.  Whatever the remote answers and
    however the run ends, no path other than [output_file] is changed; and
    [output_file] holds exactly the works the process has in memory, unless
    it did not exist at the start and nothing was written yet. *)
Theorem X2_openalex_file_mirrors_works
  (fuel : nat) (s0 : Srv) (d0 : gmap string file) (o : outcome) (st : state) :
  main fuel s0 d0 = (o, Some st) ->
  (forall p, p <> output_file -> disk st !! p = d0 !! p) /\
  (disk st !! output_file = Some (Doc (all_works st)) \/
   (d0 !! output_file = None /\ disk st !! output_file = None /\
    all_works st = JArr [])).
Proof.
  unfold OpenAlex.main. intros H.
  destruct (startup Srv s0 d0) as [st0|e] eqn:E0; [|discriminate].
  destruct (startup_cursor s0 d0 st0 E0) as (_ & _ & _ & Hd & _ & Hw).
  destruct (main_loop_disk fuel st0) as [Ho Hm].
  assert (H0 : disk st0 !! output_file = Some (Doc (all_works st0)) \/
               (disk st0 !! output_file = None /\ all_works st0 = JArr [])).
  { rewrite Hd, Hw. unfold startup in E0.
    destruct (d0 !! output_file) as [[|j]|]; simpl in E0;
      [discriminate|auto|auto]. }
  specialize (Hm H0).
  assert (Hnone : disk (snd (main_loop fuel st0)) !! output_file = None ->
                  d0 !! output_file = None).
  { intros Hn. destruct (d0 !! output_file) as [c|] eqn:Ed; [|reflexivity].
    exfalso. clear Hm.
    destruct (main_loop_keeps_file fuel st0) as [x Hx];
      [rewrite Hd, Ed; eauto|].
    rewrite Hn in Hx. discriminate. }
  assert (Hst : disk st = disk (snd (main_loop fuel st0)) /\
                all_works st = all_works (snd (main_loop fuel st0))).
  { destruct (main_loop fuel st0) as [[| |e] st1]; inversion H; auto. }
  destruct Hst as [Hsd Hsw]. rewrite Hsd, Hsw. split.
  - intros p Hp. rewrite Ho, Hd by exact Hp. reflexivity.
  - destruct Hm as [Hm|[Hm1 Hm2]]; [left; exact Hm|right; auto].
Qed.

(** ** Works are only ever appended *)

Lemma iteration_appends (st : state) l :
  all_works st = JArr l ->
  exists added, all_works (snd (iteration st)) = JArr (l ++ added).
Proof.
  intros Hw. pose proof (iteration_cases serve st) as Hc.
  destruct (serve (srv st) (cursor st)) as [resp s']. simpl in Hc.
  assert (Hp : forall data recs works',
            parse_page resp (all_works st) = Ok (data, recs, works') ->
            works' = JArr (l ++ recs)).
  { intros data recs works'. unfold parse_page. rewrite Hw.
    destruct (response_json resp) as [d|e]; simpl; [|discriminate].
    destruct (py_get d "results" (JArr [])) as [r|e]; simpl; [|discriminate].
    destruct (py_iter r) as [each|e]; simpl; [|discriminate].
    destruct (map_result make_record each) as [rs|e]; simpl; [|discriminate].
    intros H; inversion H; reflexivity. }
  destruct (fst (iteration st)) as [| |e].
  - destruct Hc as (d & r & w & n & _ & Hpp & _ & _ & Ha & _).
    exists r. rewrite Ha. eapply Hp, Hpp.
  - destruct Hc as [[_ ->]|(d & r & w & n & _ & Hpp & _ & _ & Ha & _)].
    + exists []. simpl. rewrite app_nil_r. exact Hw.
    + exists r. rewrite Ha. eapply Hp, Hpp.
  - destruct Hc as [_ [(_ & _ & Ha)|(d & r & w & Hpp & _ & Ha & _)]].
    + exists []. rewrite Ha, app_nil_r. exact Hw.
    + exists r. rewrite Ha. eapply Hp, Hpp.
Qed.

Lemma main_loop_appends (fuel : nat) (st : state) l :
  all_works st = JArr l ->
  exists added, all_works (snd (main_loop fuel st)) = JArr (l ++ added).
Proof.
  revert st l. induction fuel as [|fuel IH]; intros st l Hw; simpl.
  - exists []. rewrite app_nil_r. exact Hw.
  - destruct (iteration_appends st l Hw) as (a1 & H1).
    destruct (iteration st) as [[| |e] st1]; simpl in *; eauto.
    destruct (IH st1 _ H1) as (a2 & H2).
    exists (a1 ++ a2). rewrite H2, app_assoc. reflexivity.
Qed.

(** X3.  Nothing that was persisted is dropped or reordered.  Started on a
    file that holds the list [l], every run, however it ends, has [l]
    followed by what it fetched both in memory and in the file. *)
Theorem X3_openalex_persisted_records_kept
  (fuel : nat) (s0 : Srv) (d0 : gmap string file) (o : outcome) (st : state)
  (l : list json) :
  d0 !! output_file = Some (Doc (JArr l)) ->
  main fuel s0 d0 = (o, Some st) ->
  exists added,
    all_works st = JArr (l ++ added) /\
    disk st !! output_file = Some (Doc (JArr (l ++ added))).
Proof.
  intros Hd H. unfold OpenAlex.main in H.
  destruct (startup Srv s0 d0) as [st0|e] eqn:E0; [|discriminate].
  destruct (startup_cursor s0 d0 st0 E0) as (_ & _ & _ & Hd0 & _ & Hw).
  rewrite Hd in Hw.
  destruct (main_loop_appends fuel st0 l Hw) as (added & Ha).
  assert (Hfile : disk st0 !! output_file = Some (Doc (all_works st0)))
    by (rewrite Hd0, Hd, Hw; reflexivity).
  destruct (main_loop_disk fuel st0) as [_ Hm].
  specialize (Hm (or_introl Hfile)).
  assert (Hst : all_works st = all_works (snd (main_loop fuel st0)) /\
                disk st = disk (snd (main_loop fuel st0))).
  { destruct (main_loop fuel st0) as [[| |e] st1]; inversion H; auto. }
  destruct Hst as [Hsw Hsd]. exists added. rewrite Hsw, Hsd, Ha.
  split; [reflexivity|].
  destruct Hm as [Hm|[Hn _]]; [rewrite Hm, Ha; reflexivity|].
  destruct (main_loop_keeps_file fuel st0) as [x Hx];
    [rewrite Hfile; eauto|].
  rewrite Hn in Hx. discriminate.
Qed.

(** ** Start-up on a damaged file *)

(** X4.  What is on disk at start-up decides whether a request is sent at
    all.  An output file that is not JSON makes [json.load] raise before
    any request; so does one that holds [null], a number or a boolean,
    at [len(all_works)].  An output file that holds a JSON object passes
    start-up, and then the first page that parses raises at
    [all_works.extend], after one request and with the file untouched. *)
Theorem X4_openalex_startup_on_damaged_file
  (s0 : Srv) (d0 : gmap string file) (fuel : nat) :
  (d0 !! output_file = Some Corrupt ->
   main fuel s0 d0 = (Crashed JSONDecodeError, None)) /\
  (forall j,
     d0 !! output_file = Some (Doc j) ->
     (j = JNull \/ (exists n, j = JInt n) \/ (exists b, j = JBool b)) ->
     main fuel s0 d0 = (Crashed TypeError, None)) /\
  (forall kvs resp s' data results works recs,
     d0 !! output_file = Some (Doc (JObj kvs)) ->
     serve s0 (JStr "*") = (resp, s') ->
     status_code resp = 200 ->
     body resp = Some data ->
     py_get data "results" (JArr []) = Ok results ->
     py_iter results = Ok works ->
     map_result make_record works = Ok recs ->
     main (S fuel) s0 d0 =
     (Crashed AttributeError,
      Some {| srv := s'; disk := d0;
              stdout := [Starting (length kvs)]; sleeps := O;
              requests := [JStr "*"]; cursor := JStr "*";
              all_works := JObj kvs |})).
Proof.
  split; [|split].
  - intros Hd. unfold OpenAlex.main, startup. rewrite Hd. reflexivity.
  - intros j Hd Hj. unfold OpenAlex.main, startup. rewrite Hd. simpl.
    destruct Hj as [->|[[n ->]|[b ->]]]; reflexivity.
  - intros kvs resp s' data results works recs Hd Hs Hc Hb Hr Hi Hm.
    unfold OpenAlex.main, startup. rewrite Hd. simpl.
    unfold OpenAlex.iteration. simpl. rewrite Hs, Hc. simpl.
    unfold parse_page, response_json. rewrite Hb. simpl.
    rewrite Hr. simpl. rewrite Hi. simpl. rewrite Hm. reflexivity.
Qed.

(** ** One malformed record *)

(** X6.  One record that cannot be built loses its page.  When, after [n]
    pages, a page arrives in which building some record raises (an
    authorship whose ["author"] is [null], say), the exception ends the
    run; none of the records of that page is kept, and the file and the
    works are those of the [n] earlier pages. *)
Theorem X6_openalex_bad_record_loses_page
  (n fuel : nat) (s0 : Srv) (d0 : gmap string file) (st : state)
  resp s' data results works e :
  main n s0 d0 = (Running, Some st) ->
  serve (srv st) (cursor st) = (resp, s') ->
  status_code resp = 200 ->
  body resp = Some data ->
  py_get data "results" (JArr []) = Ok results ->
  py_iter results = Ok works ->
  map_result make_record works = Raise e ->
  main (n + S fuel) s0 d0 =
  (Crashed e,
   Some {| srv := s'; disk := disk st; stdout := stdout st;
           sleeps := sleeps st; requests := requests st ++ [cursor st];
           cursor := cursor st; all_works := all_works st |}).
Proof.
  unfold OpenAlex.main. intros Hn Hs Hc Hb Hr Hi Hm.
  destruct (startup Srv s0 d0) as [st0|e0]; [|discriminate].
  rewrite main_loop_app.
  destruct (main_loop n st0) as [[| |e1] stn] eqn:En; try discriminate.
  inversion Hn; subst stn. simpl.
  unfold OpenAlex.iteration. rewrite Hs, Hc. simpl.
  unfold parse_page, response_json. rewrite Hb. simpl.
  rewrite Hr. simpl. rewrite Hi. simpl. rewrite Hm. reflexivity.
Qed.

End OpenAlexRuns.

(* ===================================================================== *)
(** * pyalex-test.py: when a record can be built                          *)
(* ===================================================================== *)

Section Records.

Import OpenAlex.

Lemma map_result_Ok_Forall {A B} (f : A -> result B) (l : list A) :
  (exists bs, map_result f l = Ok bs) <->
  Forall (fun a => exists b, f a = Ok b) l.
Proof.
  induction l as [|a l IH]; simpl.
  - split; [constructor|eauto].
  - split.
    + intros (bs & H).
      destruct (f a) as [b|e] eqn:Ea; simpl in H; [|discriminate].
      destruct (map_result f l) as [bs'|e]; simpl in H; [|discriminate].
      constructor; [eauto|]. apply IH. eauto.
    + intros H. apply Forall_cons in H as [(b & ->) H].
      apply IH in H as (bs & ->). simpl. eauto.
Qed.

(** An authorship can be recorded exactly when it is an object whose
    ["author"] is an object or absent. *)
Lemma make_author_Ok (a : json) :
  (exists r, make_author a = Ok r) <->
  exists o, a = JObj o /\
            (dict_get o "author" = None \/
             exists p, dict_get o "author" = Some (JObj p)).
Proof.
  unfold make_author. split.
  - intros (r & H). destruct a as [| | | | |o]; simpl in H; try discriminate.
    exists o. split; [reflexivity|].
    destruct (dict_get o "author") as [[| | | | |p]|]; simpl in H;
      try discriminate; eauto.
  - intros (o & -> & [Hn|(p & Hp)]); simpl.
    + rewrite Hn. simpl. eauto.
    + rewrite Hp. simpl. eauto.
Qed.

(** X5.  When a record can be built.  [make_record] succeeds exactly when
    the work is a JSON object, its ["authorships"] (an empty list when
    absent) can be iterated, and every authorship is an object whose
    ["author"] is an object or absent; any other work raises.  A record
    that is built has the four keys title, publication_year,
    cited_by_count and authors, in this order, and one author per
    authorship. *)
Theorem X5_make_record_succeeds_exactly_when (work : json) :
  ((exists r, make_record work = Ok r) <->
   exists kvs each,
     work = JObj kvs /\
     py_iter (match dict_get kvs "authorships" with
              | Some v => v
              | None => JArr []
              end) = Ok each /\
     Forall (fun a => exists o, a = JObj o /\
                        (dict_get o "author" = None \/
                         exists p, dict_get o "author" = Some (JObj p)))
            each) /\
  (forall r,
     make_record work = Ok r ->
     exists fields each,
       r = JObj fields /\
       dict_keys fields
         = ["title"; "publication_year"; "cited_by_count"; "authors"] /\
       (do al <- py_get work "authorships" (JArr []); py_iter al) = Ok each /\
       exists authors,
         dict_get fields "authors" = Some (JArr authors) /\
         length authors = length each).
Proof.
  unfold make_record. split; [split|].
  - intros (r & H). destruct work as [| | | | |kvs]; simpl in H;
      try discriminate.
    destruct (py_iter _) as [each|e] eqn:Ei; simpl in H; [|discriminate].
    destruct (map_result make_author each) as [authors|e] eqn:Em;
      simpl in H; [|discriminate].
    exists kvs, each. split; [reflexivity|]. split; [exact Ei|].
    assert (Hf : Forall (fun a => exists b, make_author a = Ok b) each).
    { apply map_result_Ok_Forall. eauto. }
    eapply Forall_impl; [exact Hf|]. intros a Ha. apply make_author_Ok, Ha.
  - intros (kvs & each & -> & Hi & Hf). simpl. rewrite Hi. simpl.
    assert (Hm : exists bs, map_result make_author each = Ok bs).
    { apply map_result_Ok_Forall. eapply Forall_impl; [exact Hf|].
      intros a Ha. apply make_author_Ok, Ha. }
    destruct Hm as (bs & ->). simpl. eauto.
  - intros r H. destruct work as [| | | | |kvs]; simpl in H;
      try discriminate.
    simpl. destruct (py_iter _) as [each|e] eqn:Ei; simpl in H;
      [|discriminate].
    destruct (map_result make_author each) as [authors|e] eqn:Em;
      simpl in H; [|discriminate].
    inversion H; subst r. eexists. exists each.
    split; [reflexivity|]. split; [reflexivity|]. split; [reflexivity|].
    exists authors. split; [reflexivity|].
    eapply map_result_length, Em.
Qed.

End Records.

(* ===================================================================== *)
(** * get-pubmed.py: the batches of a term                                *)
(* ===================================================================== *)

Section Batches.

Import PubMed.

Lemma ceil_div_lt (total bs i : Z) :
  0 < bs -> (i < (total + bs - 1) / bs <-> i * bs < total).
Proof.
  intros Hb. split.
  - intros Hi.
    pose proof (Z.mul_div_le (total + bs - 1) bs Hb). nia.
  - intros Hi.
    assert (H : i + 1 <= (total + bs - 1) / bs).
    { apply Z.div_le_lower_bound; [exact Hb|]. nia. }
    lia.
Qed.

Lemma py_range_In (total bs s : Z) starts :
  0 < bs -> py_range total bs = Ok starts ->
  (In s starts <-> exists i, 0 <= i /\ s = i * bs /\ s < total).
Proof.
  intros Hb. unfold py_range.
  destruct (Z.eqb_spec bs 0); [lia|].
  destruct (Z.ltb_spec 0 bs); [|lia].
  intros Heq; inversion Heq; subst starts. clear Heq.
  rewrite in_map_iff. split.
  - intros (i & <- & Hi). apply in_seq in Hi.
    exists (Z.of_nat i). split; [lia|]. split; [reflexivity|].
    apply ceil_div_lt; [exact Hb|]. lia.
  - intros (i & Hi & -> & Hlt). exists (Z.to_nat i).
    split; [rewrite Z2Nat.id by exact Hi; reflexivity|].
    apply in_seq. apply ceil_div_lt in Hlt; [|exact Hb]. lia.
Qed.

(** X7.  The batches tile the results.  For a positive batch size the
    loop has a batch for every result and only for results: each start
    lies below [total], and every index below [total] falls into the
    window [start, start + retmax) of exactly one batch.  A batch size of 0
    makes [range] raise [ValueError]; a negative one gives no batch at
    all. *)
Theorem X7_batches_tile_the_results (total batch_size : Z) :
  (batch_size = 0 -> py_range total batch_size = Raise ValueError) /\
  (batch_size < 0 -> 0 <= total -> py_range total batch_size = Ok []) /\
  (0 < batch_size ->
   exists starts,
     py_range total batch_size = Ok starts /\
     (forall s, In s starts -> 0 <= s < total) /\
     forall k, 0 <= k < total ->
       exists s,
         In s starts /\
         s <= k < s + Z.min batch_size (total - s) /\
         forall s', In s' starts ->
                    s' <= k < s' + Z.min batch_size (total - s') -> s' = s).
Proof.
  split; [|split].
  - intros ->. reflexivity.
  - intros Hb Ht. unfold py_range.
    destruct (Z.eqb_spec batch_size 0); [lia|].
    destruct (Z.ltb_spec 0 batch_size); [lia|].
    assert (Hq : (- total - batch_size - 1) / - batch_size <= 0).
    { assert (H1 : (- total - batch_size - 1) / - batch_size < 1);
        [|lia].
      apply Z.div_lt_upper_bound; lia. }
    replace (Z.to_nat _) with O by lia. reflexivity.
  - intros Hb.
    assert (Hr : exists starts, py_range total batch_size = Ok starts).
    { unfold py_range. destruct (Z.eqb_spec batch_size 0); [lia|]. eauto. }
    destruct Hr as (starts & Hr). exists starts. split; [exact Hr|].
    split.
    + intros s Hs. apply (py_range_In total batch_size s starts Hb Hr) in Hs
        as (i & Hi & -> & Hlt). nia.
    + intros k Hk.
      pose proof (Z.div_mod k batch_size ltac:(lia)) as Hdm.
      pose proof (Z.mod_pos_bound k batch_size Hb) as Hmod.
      assert (Hq0 : 0 <= k / batch_size) by (apply Z.div_pos; lia).
      exists (k / batch_size * batch_size). split; [|split].
      * apply (py_range_In total batch_size _ starts Hb Hr).
        exists (k / batch_size). split; [exact Hq0|]. split; [reflexivity|].
        nia.
      * lia.
      * intros s' Hs' Hw.
        apply (py_range_In total batch_size s' starts Hb Hr) in Hs'
          as (j & Hj & -> & Hlt).
        assert (j = k / batch_size); [|subst; reflexivity].
        assert (j * batch_size <= k < j * batch_size + batch_size) by lia.
        nia.
Qed.

End Batches.

(* ===================================================================== *)
(** * get-pubmed.py: every batch is asked for once                        *)
(* ===================================================================== *)

Section BatchRequests.

Import PubMed Observe.

Context {Srv : Type} (serve : Srv -> request -> response * Srv).
Context (batch_size : Z).

Local Abbreviation state := (PubMed.state Srv).

Lemma no_search_same {A} (m : M Srv A) :
  (forall st, requests (snd (m st)) = requests st) -> no_search m.
Proof.
  intros H st. exists []. rewrite H, app_nil_r. split; reflexivity.
Qed.

Lemma no_search_seq {A B} (m : M Srv A) (k : A -> M Srv B) :
  no_search m -> (forall a, no_search (k a)) -> no_search (seqM m k).
Proof.
  intros Hm Hk st. unfold seqM. destruct (Hm st) as (l1 & H1 & F1).
  destruct (m st) as [[a|e] st1]; simpl in *; [|eauto].
  destruct (Hk a st1) as (l2 & H2 & F2).
  exists (l1 ++ l2). rewrite H2, H1, app_assoc. split; [reflexivity|].
  unfold searches in *. rewrite List.filter_app, F1, F2. reflexivity.
Qed.

Lemma no_search_summary ids :
  no_search (PubMed.http_get Srv serve (ESummary ids)).
Proof.
  intros st. exists [ESummary ids]. unfold PubMed.http_get.
  destruct (serve (srv st) (ESummary ids)) as [resp s'].
  destruct (status_code resp =? 200); [|destruct (_ && _)]; simpl; auto.
Qed.

Lemma no_search_file_batch search_batch :
  no_search (PubMed.file_batch Srv serve search_batch).
Proof.
  unfold PubMed.file_batch, PubMed.fetch_article_details.
  repeat match goal with
    | |- no_search (seqM _ _) => apply no_search_seq; [|intros ?]
    | |- no_search (if ?b then _ else _) => destruct b
    | |- no_search (PubMed.http_get _ _ (ESummary _)) =>
        apply no_search_summary
    | |- no_search _ => apply no_search_same; intros ?; reflexivity
    end.
Qed.

Lemma http_get_requests req (st : state) :
  requests (snd (PubMed.http_get Srv serve req st)) = requests st ++ [req].
Proof.
  unfold PubMed.http_get. destruct (serve (srv st) req) as [resp s'].
  destruct (status_code resp =? 200); [|destruct (_ && _)]; reflexivity.
Qed.

(** The requests of one batch: its search, then at most summaries. *)
Lemma batch_requests (q key : string) (total start : Z) (st : state) :
  searches
    (requests (snd (PubMed.batch Srv serve batch_size q key total start st)))
  = searches (requests st)
    ++ [ESearch q (Z.min batch_size (total - start)) start].
Proof.
  unfold PubMed.batch, PubMed.batch_body, PubMed.search, try_except.
  unfold seqM at 1. simpl.
  match goal with
  | |- context [seqM (PubMed.http_get _ _ ?r) _ ?s] => set (st0 := s)
  end.
  unfold seqM at 1.
  pose proof (http_get_requests
                (ESearch q (Z.min batch_size (total - start)) start) st0)
    as Hq.
  destruct (PubMed.http_get Srv serve _ st0) as [[sb|e] st1]; simpl in Hq.
  - unfold seqM at 1.
    destruct (no_search_file_batch sb st1) as (l & Hl & Fl).
    destruct (PubMed.file_batch Srv serve sb st1) as [[[]|e] st2];
      simpl in Hl.
    + assert (Hrest :
                requests
                  (snd (seqM (append_combo key)
                          (fun _ => seqM save_progress (fun _ => sleep)) st2))
                = requests st2).
      { destruct st2 as [s2 d2 l2 z2 r2 c2 a2]. destruct c2; reflexivity. }
      destruct (seqM (append_combo key) _ st2) as [[[]|e] st3];
        simpl in *; rewrite Hrest, Hl, Hq; subst st0; simpl;
        unfold searches in *;
        rewrite !List.filter_app, Fl, app_nil_r; reflexivity.
    + simpl. rewrite Hl, Hq. subst st0. simpl. unfold searches in *.
      rewrite !List.filter_app, Fl, app_nil_r. reflexivity.
  - simpl. rewrite Hq. subst st0. simpl. unfold searches.
    rewrite List.filter_app. reflexivity.
Qed.

(** X8.  Every batch is asked for once.  Whatever the remote answers, the
    batch loop raises nothing and sends the search request of every batch
    exactly once and in order: a batch that fails is neither repeated nor
    does it stop the loop. *)
Theorem X8_every_batch_requested_once
  (q key : string) (total : Z) (starts : list Z) (st : state) :
  exists st',
    PubMed.batch_loop Srv serve batch_size q key total starts st
      = (Ok tt, st') /\
    searches (requests st') =
      searches (requests st)
      ++ map (fun start =>
                ESearch q (Z.min batch_size (total - start)) start) starts.
Proof.
  revert st. induction starts as [|start rest IH]; intros st; simpl.
  - exists st. rewrite app_nil_r. split; reflexivity.
  - unfold seqM.
    pose proof (batch_requests q key total start st) as Hb.
    destruct (batch_cases serve batch_size q key total start st)
      as (st1 & E1 & _).
    rewrite E1 in *. simpl in Hb.
    destruct (IH st1) as (st' & E' & H').
    exists st'. split; [exact E'|]. rewrite H', Hb, <- app_assoc.
    reflexivity.
Qed.

End BatchRequests.

(* ===================================================================== *)
(** * get-pubmed.py: how a search starts and what it marks                *)
(* ===================================================================== *)

Lemma seqM_raise {Srv A B} (m : PubMed.M Srv A) (k : A -> PubMed.M Srv B)
  st e st1 :
  m st = (Raise e, st1) -> PubMed.seqM m k st = (Raise e, st1).
Proof. intros H. unfold PubMed.seqM. rewrite H. reflexivity. Qed.

Section SearchStart.

Import PubMed Observe.

Context {Srv : Type} (serve : Srv -> request -> response * Srv).
Context (int_of_str : string -> option Z).
Context (batch_size : Z) (output_file : string).

Local Abbreviation state := (PubMed.state Srv).
Local Abbreviation search_ml_medicine_articles :=
  (PubMed.search_ml_medicine_articles Srv serve int_of_str batch_size
     output_file).
Local Abbreviation AI := "Artificial Intelligence".

Lemma load_progress_unusable (s0 : Srv) (d0 : gmap string file) :
  d0 !! progress_file = None \/ d0 !! progress_file = Some Corrupt ->
  PubMed.load_progress Srv (boot s0 d0) = (Ok tt, fresh s0 d0).
Proof.
  intros H. unfold PubMed.load_progress. step.
  unfold PubMed.read_progress. cbn [disk set_articles snd boot].
  destruct H as [-> | ->]; reflexivity.
Qed.

(** The count request is the first thing a fresh search does. *)
Lemma search_starts_with_count (s0 : Srv) (d0 : gmap string file) r st :
  d0 !! progress_file = None \/ d0 !! progress_file = Some Corrupt ->
  PubMed.search_term Srv serve int_of_str batch_size AI None
    (fresh s0 d0) = (Raise r, st) ->
  search_ml_medicine_articles (boot s0 d0) = (Raise r, st).
Proof.
  intros Hd Hs. unfold PubMed.search_ml_medicine_articles.
  step_with ltac:(apply load_progress_unusable; exact Hd).
  apply seqM_raise. unfold ml_terms. cbn [PubMed.term_loop].
  apply seqM_raise. unfold PubMed.process_term.
  step. step_val false. apply seqM_raise. exact Hs.
Qed.

(** X9.  The status of the count request.  The first request of a fresh
    search is the count request, outside any [try].  A 4xx or 5xx answer
    ends the search with [HTTPError]; any other status than 200 makes
    [search] return [None] and the search end with [TypeError] at the
    membership test; a 200 answer that is not JSON ends it with the JSON
    decoding error.  In each case one request was sent and, the log
    apart, no file written. *)
Theorem X9_count_request_failures
  (s0 : Srv) (d0 : gmap string file) resp s' :
  d0 !! progress_file = None \/ d0 !! progress_file = Some Corrupt ->
  serve s0 (ESearch AI 0 0) = (resp, s') ->
  let code := status_code resp in
  let ends_with e :=
    search_ml_medicine_articles (boot s0 d0) =
    (Raise e,
     {| srv := s'; disk := d0; log := [StartingNew; Searching AI];
        sleeps := O; requests := [ESearch AI 0 0];
        searched_combos := JArr []; all_articles := JObj [] |}) in
  (400 <= code < 600 -> ends_with (HTTPError code)) /\
  (code <> 200 -> ~ 400 <= code < 600 -> ends_with TypeError) /\
  (code = 200 -> body resp = None -> ends_with JSONDecodeError).
Proof.
  intros Hd Hs code ends_with. subst ends_with. cbv beta.
  assert (Hget : forall r,
            (if code =? 200 then response_json resp
             else if (400 <=? code) && (code <? 600)
                  then Raise (HTTPError code) else Ok JNull) = r ->
            PubMed.http_get Srv serve (ESearch AI 0 0)
              {| srv := s0; disk := d0; log := [StartingNew; Searching AI];
                 sleeps := O; requests := [];
                 searched_combos := JArr []; all_articles := JObj [] |}
            = (r,
               {| srv := s'; disk := d0;
                  log := [StartingNew; Searching AI];
                  sleeps := O; requests := [ESearch AI 0 0];
                  searched_combos := JArr []; all_articles := JObj [] |})).
  { intros r <-. unfold PubMed.http_get. cbn [srv]. rewrite Hs. fold code.
    destruct (code =? 200); [|destruct (_ && _)]; reflexivity. }
  split; [|split].
  - intros Hc. apply search_starts_with_count; [exact Hd|].
    unfold PubMed.search_term, PubMed.search. step.
    apply seqM_raise. apply Hget.
    destruct (Z.eqb_spec code 200); [lia|].
    destruct (Z.leb_spec 400 code); [|lia].
    destruct (Z.ltb_spec code 600); [|lia]. reflexivity.
  - intros Hc Hn. apply search_starts_with_count; [exact Hd|].
    unfold PubMed.search_term, PubMed.search. step.
    step_with ltac:(apply Hget;
                    destruct (Z.eqb_spec code 200); [contradiction|];
                    destruct (Z.leb_spec 400 code);
                    destruct (Z.ltb_spec code 600);
                    simpl; try reflexivity; lia).
    apply seqM_raise. reflexivity.
  - intros Hc Hb. apply search_starts_with_count; [exact Hd|].
    unfold PubMed.search_term, PubMed.search. step.
    apply seqM_raise. apply Hget. rewrite Hc. simpl.
    unfold response_json. rewrite Hb. reflexivity.
Qed.

(** X10.  The progress file at start-up.  A progress file that is missing
    or not JSON starts a new search with nothing searched and no article.
    A progress file that is JSON but not an object is not caught by the
    [except] clause: the search ends with [AttributeError] before any
    request and with nothing logged or written. *)
Theorem X10_progress_file_at_startup (s0 : Srv) (d0 : gmap string file) :
  (d0 !! progress_file = None \/ d0 !! progress_file = Some Corrupt ->
   PubMed.load_progress Srv (boot s0 d0) =
   (Ok tt,
    {| srv := s0; disk := d0; log := [StartingNew]; sleeps := O;
       requests := []; searched_combos := JArr [];
       all_articles := JObj [] |})) /\
  (forall j,
     d0 !! progress_file = Some (Doc j) ->
     (forall kvs, j <> JObj kvs) ->
     search_ml_medicine_articles (boot s0 d0)
       = (Raise AttributeError, boot s0 d0)).
Proof.
  split; [apply load_progress_unusable|].
  intros j Hd Hj. unfold PubMed.search_ml_medicine_articles.
  apply seqM_raise. unfold PubMed.load_progress. step.
  unfold PubMed.read_progress. cbn [disk set_articles snd boot].
  rewrite Hd. apply seqM_raise. unfold lift.
  destruct j; try reflexivity. exfalso. eapply Hj. reflexivity.
Qed.

End SearchStart.

(* ===================================================================== *)
(** * get-pubmed.py: invariants of a search                               *)
(* ===================================================================== *)

Section Invariants.

Import PubMed Observe.

Context {Srv : Type} (serve : Srv -> request -> response * Srv).
Context (int_of_str : string -> option Z).
Context (batch_size : Z) (output_file : string).

Local Abbreviation state := (PubMed.state Srv).
Local Abbreviation http_get := (PubMed.http_get Srv serve).
Local Abbreviation file_batch := (PubMed.file_batch Srv serve).
Local Abbreviation batch := (PubMed.batch Srv serve batch_size).
Local Abbreviation batch_loop := (PubMed.batch_loop Srv serve batch_size).
Local Abbreviation search_term :=
  (PubMed.search_term Srv serve int_of_str batch_size).
Local Abbreviation process_term :=
  (PubMed.process_term Srv serve int_of_str batch_size).
Local Abbreviation term_loop :=
  (PubMed.term_loop Srv serve int_of_str batch_size).
Local Abbreviation save_results := (PubMed.save_results Srv output_file).
Local Abbreviation search_ml_medicine_articles :=
  (PubMed.search_ml_medicine_articles Srv serve int_of_str batch_size
     output_file).

Lemma maintains_seq (P : state -> Prop) {A B}
  (m : M Srv A) (k : A -> M Srv B) :
  maintains P m -> (forall a, maintains P (k a)) -> maintains P (seqM m k).
Proof.
  intros Hm Hk st HP. unfold seqM. specialize (Hm st HP).
  destruct (m st) as [[a|e] st1]; simpl in *; [|exact Hm].
  apply Hk, Hm.
Qed.

Lemma maintains_try (P : state -> Prop) (body : M Srv unit) handler :
  maintains P body -> (forall e, maintains P (handler e)) ->
  maintains P (try_except body handler).
Proof.
  intros Hb Hh st HP. unfold try_except. specialize (Hb st HP).
  destruct (body st) as [[u|e] st1]; simpl in *; [exact Hb|].
  apply Hh, Hb.
Qed.

Lemma maintains_pure (P : state -> Prop) {A} (m : M Srv A) :
  (forall st, snd (m st) = st) -> maintains P m.
Proof. intros H st HP. rewrite H. exact HP. Qed.

(** An invariant that the elementary steps of the search keep is kept by
    the whole search. *)
Section Steps.

Variable P : state -> Prop.

Hypothesis P_http_get : forall req, maintains P (http_get req).
Hypothesis P_logger : forall e, maintains P (logger (Srv:=Srv) e).
Hypothesis P_sleep : maintains P (sleep (Srv:=Srv)).
Hypothesis P_set_combos : forall c, maintains P (set_combos (Srv:=Srv) c).
Hypothesis P_filing : forall items st articles',
  P st -> add_articles items (all_articles st) = Ok articles' ->
  P (snd (set_articles articles' st)).
Hypothesis P_save_progress : maintains P (save_progress (Srv:=Srv)).
Hypothesis P_write_output :
  forall j, maintains P (write_json (Srv:=Srv) output_file j).

Lemma maintains_filing items :
  maintains P
    (seqM (get_articles (Srv:=Srv))
       (fun articles =>
          seqM (lift (add_articles items articles))
            (fun articles' => set_articles articles'))).
Proof.
  intros st HP. unfold seqM, get_articles, lift. simpl.
  destruct (add_articles items (all_articles st)) as [a'|e] eqn:E; simpl;
    [|exact HP].
  eapply P_filing; eauto.
Qed.

Ltac maintains :=
  repeat match goal with
    | |- maintains _ (seqM get_articles _) => apply maintains_filing
    | |- maintains _ (seqM _ _) => apply maintains_seq; [|intros ?]
    | |- maintains _ (try_except _ _) => apply maintains_try; [|intros ?]
    | |- maintains _ (if ?b then _ else _) => destruct b
    | |- maintains _ (PubMed.http_get _ _ _) => apply P_http_get
    | |- maintains _ (logger _) => apply P_logger
    | |- maintains _ sleep => apply P_sleep
    | |- maintains _ (set_combos _) => apply P_set_combos
    | |- maintains _ save_progress => apply P_save_progress
    | |- maintains _ (write_json _ _) => apply P_write_output
    | |- maintains _ _ => apply maintains_pure; intros ?; reflexivity
    end.

Lemma maintains_file_batch search_batch :
  maintains P (file_batch search_batch).
Proof.
  unfold PubMed.file_batch, PubMed.fetch_article_details. maintains.
Qed.

Lemma maintains_append_combo key :
  maintains P (append_combo (Srv:=Srv) key).
Proof. unfold append_combo. maintains. Qed.

Lemma maintains_batch q key total start :
  maintains P (batch q key total start).
Proof.
  unfold PubMed.batch, PubMed.batch_body, PubMed.search.
  repeat match goal with
    | |- maintains _ (PubMed.file_batch _ _ _) => apply maintains_file_batch
    | |- maintains _ (append_combo _) => apply maintains_append_combo
    | |- maintains _ save_progress => apply P_save_progress
    | |- maintains _ (seqM _ _) => apply maintains_seq; [|intros ?]
    | |- maintains _ (try_except _ _) => apply maintains_try; [|intros ?]
    | |- maintains _ (PubMed.http_get _ _ _) => apply P_http_get
    | |- maintains _ (logger _) => apply P_logger
    | |- maintains _ sleep => apply P_sleep
    end.
Qed.

Lemma maintains_batch_loop q key total starts :
  maintains P (batch_loop q key total starts).
Proof.
  induction starts as [|start rest IH]; simpl.
  - apply maintains_pure. reflexivity.
  - apply maintains_seq; [apply maintains_batch|intros _; exact IH].
Qed.

Lemma maintains_search_term ml_term take_batches :
  maintains P (search_term ml_term take_batches).
Proof.
  unfold PubMed.search_term, PubMed.search.
  repeat match goal with
    | |- maintains _ (PubMed.batch_loop _ _ _ _ _ _ _) =>
        apply maintains_batch_loop
    | |- maintains _ (seqM _ _) => apply maintains_seq; [|intros ?]
    | |- maintains _ (if ?b then _ else _) => destruct b
    | |- maintains _ (PubMed.http_get _ _ _) => apply P_http_get
    | |- maintains _ (logger _) => apply P_logger
    | |- maintains _ (lift _) => apply maintains_pure; intros ?; reflexivity
    end.
Qed.

Lemma maintains_process_term ml_term : maintains P (process_term ml_term).
Proof.
  unfold PubMed.process_term.
  repeat match goal with
    | |- maintains _ (PubMed.search_term _ _ _ _ _ _) =>
        apply maintains_search_term
    | |- maintains _ (append_combo _) => apply maintains_append_combo
    | |- maintains _ save_progress => apply P_save_progress
    | |- maintains _ (seqM _ _) => apply maintains_seq; [|intros ?]
    | |- maintains _ (if ?b then _ else _) => destruct b
    | |- maintains _ (logger _) => apply P_logger
    | |- maintains _ _ => apply maintains_pure; intros ?; reflexivity
    end.
Qed.

Lemma maintains_term_loop terms : maintains P (term_loop terms).
Proof.
  induction terms as [|t rest IH]; simpl.
  - apply maintains_pure. reflexivity.
  - apply maintains_seq; [apply maintains_process_term|intros _; exact IH].
Qed.

Lemma maintains_save_results : maintains P save_results.
Proof. unfold PubMed.save_results. maintains. Qed.

(** What holds once the progress file is read holds when the search
    ends, whether it returns or raises. *)
Lemma maintains_search (st0 : state) :
  P (snd (PubMed.load_progress Srv st0)) ->
  P (snd (search_ml_medicine_articles st0)).
Proof.
  intros H0. unfold PubMed.search_ml_medicine_articles.
  unfold seqM at 1.
  destruct (PubMed.load_progress Srv st0) as [[[]|e] st1]; simpl in H0;
    [|exact H0].
  apply (maintains_seq P (term_loop ml_terms) (fun _ => save_results));
    [apply maintains_term_loop|intros _; apply maintains_save_results
    |exact H0].
Qed.

End Steps.

End Invariants.

Section SearchInvariants.

Import PubMed Observe.

Context {Srv : Type} (serve : Srv -> request -> response * Srv).
Context (int_of_str : string -> option Z).
Context (batch_size : Z) (output_file : string).

Local Abbreviation state := (PubMed.state Srv).
Local Abbreviation search_ml_medicine_articles :=
  (PubMed.search_ml_medicine_articles Srv serve int_of_str batch_size
     output_file).

Lemma http_get_fields req (st : state) :
  let st' := snd (PubMed.http_get Srv serve req st) in
  disk st' = disk st /\ all_articles st' = all_articles st.
Proof.
  unfold PubMed.http_get.
  destruct (serve (srv st) req) as [resp s'].
  destruct (status_code resp =? 200); [|destruct (_ && _)]; simpl; auto.
Qed.

Lemma load_progress_disk (st : state) :
  disk (snd (PubMed.load_progress Srv st)) = disk st.
Proof.
  unfold PubMed.load_progress, PubMed.read_progress, seqM, set_articles,
    set_combos, lift, logger. simpl.
  destruct (disk st !! progress_file) as [[|pd]|]; simpl; try reflexivity.
  destruct (py_get pd "searched_combos" (JArr [])); simpl; [|reflexivity].
  destruct (py_get pd "articles" (JObj [])); simpl; [|reflexivity].
  destruct (py_len _); reflexivity.
Qed.

(** X12.  The files a search touches.  Whatever the server answers and
    however the search ends, every path other than the progress file, the
    output file and the log file holds at the end what it held at the
    start. *)
Theorem X12_search_writes_two_files_only
  (s0 : Srv) (d0 : gmap string file) (p : string) :
  p <> progress_file -> p <> output_file -> p <> log_file ->
  disk (snd (search_ml_medicine_articles (boot s0 d0))) !! p = d0 !! p.
Proof.
  intros Hp Ho _.
  apply (maintains_search serve int_of_str batch_size output_file
           (fun st => disk st !! p = d0 !! p)).
  - intros req st H.
    destruct (http_get_fields req st) as [-> _]. exact H.
  - intros e st H. exact H.
  - intros st H. exact H.
  - intros c st H. exact H.
  - intros items st a' H _. exact H.
  - intros st H. simpl. rewrite lookup_insert_ne by congruence. exact H.
  - intros j st H. simpl. rewrite lookup_insert_ne by congruence. exact H.
  - rewrite load_progress_disk. reflexivity.
Qed.

Lemma on_file_add_articles items a a' k :
  add_articles items a = Ok a' -> on_file k a -> on_file k a'.
Proof.
  intros H (kvs & -> & Hk).
  destruct (add_articles_dict items kvs) as [kvs' E].
  rewrite E in H. inversion H; subst a'. exists kvs'. split; [reflexivity|].
  apply list_elem_of_In. eapply add_articles_keeps_keys; [exact E|].
  apply list_elem_of_In. exact Hk.
Qed.

(** X13.  Resuming loses no article.  An identifier that the progress
    file holds when a search starts is still in the article dict when the
    search ends and is still in the progress file on disk, whatever the
    server answers and whether the search returns or raises (the output
    file being another file than the progress file). *)
Theorem X13_resumed_articles_never_lost
  (s0 : Srv) (d0 : gmap string file) (k : string) :
  output_file <> progress_file ->
  saved k d0 ->
  let st := snd (search_ml_medicine_articles (boot s0 d0)) in
  on_file k (all_articles st) /\ saved k (disk st).
Proof.
  intros Hne (pd & a & Hd & Ha & Hk). cbv zeta.
  apply (maintains_search serve int_of_str batch_size output_file
           (fun st => on_file k (all_articles st) /\ saved k (disk st))).
  - intros req st H.
    destruct (http_get_fields req st) as [-> ->]. exact H.
  - intros e st H. exact H.
  - intros st H. exact H.
  - intros c st H. exact H.
  - intros items st a' [H1 H2] E. split; [|exact H2].
    simpl. eapply on_file_add_articles; eauto.
  - intros st [H1 H2]. split; [exact H1|]. simpl.
    exists (JObj [("searched_combos", searched_combos st);
                  ("articles", all_articles st)]), (all_articles st).
    rewrite lookup_insert_eq. auto.
  - intros j st [H1 H2]. split; [exact H1|]. simpl.
    destruct H2 as (pd' & a' & E1 & E2 & E3). exists pd', a'.
    rewrite lookup_insert_ne by exact Hne. auto.
  - rewrite load_progress_disk. split; [|exists pd, a; auto].
    unfold PubMed.load_progress, PubMed.read_progress, seqM, set_articles,
      set_combos, lift, logger. simpl. rewrite Hd.
    assert (Hc : exists c, py_get pd "searched_combos" (JArr []) = Ok c).
    { destruct pd; simpl in Ha |- *; try discriminate. eauto. }
    destruct Hc as [c ->]. simpl. rewrite Ha. simpl.
    destruct (py_len c); exact Hk.
Qed.

Lemma add_articles_no_uids items kvs kvs' :
  add_articles items (JObj kvs) = Ok (JObj kvs') ->
  ~ In "uids" (dict_keys kvs) -> ~ In "uids" (dict_keys kvs').
Proof.
  revert kvs. induction items as [|[k v] items IH]; intros kvs; simpl.
  - intros H; inversion H; auto.
  - destruct (String.eqb_spec k "uids") as [->|Hu]; intros H Hn.
    + eapply IH; eauto.
    + eapply IH; [exact H|]. intros Hin. apply Hn.
      destruct (decide (k ∈ dict_keys kvs)) as [Hk|Hk].
      * rewrite dict_set_keys_present in Hin by exact Hk. exact Hin.
      * rewrite dict_set_fresh in Hin by exact Hk.
        rewrite dict_keys_app in Hin. apply in_app_or in Hin. destruct Hin as [Hin|Hin]; [exact Hin|].
        simpl in Hin. destruct Hin as [Hin|[]]. congruence.
Qed.

(** X14.  The list of identifiers is never filed as an article.  A search
    that starts without a usable progress file never has an article under
    the key [uids], although every summary reply carries that key. *)
Theorem X14_uids_never_filed (s0 : Srv) (d0 : gmap string file) :
  d0 !! progress_file = None \/ d0 !! progress_file = Some Corrupt ->
  ~ on_file "uids"
      (all_articles (snd (search_ml_medicine_articles (boot s0 d0)))).
Proof.
  intros Hd.
  apply (maintains_search serve int_of_str batch_size output_file
           (fun st => ~ on_file "uids" (all_articles st))).
  - intros req st H.
    destruct (http_get_fields req st) as [_ ->]. exact H.
  - intros e st H. exact H.
  - intros st H. exact H.
  - intros c st H. exact H.
  - intros items st a' H E (kvs' & Ek' & Hin). simpl in Ek'. subst a'.
    destruct (add_articles_from_dict _ _ _ _ E eq_refl) as [kvs Ek].
    rewrite Ek in E. apply H. exists kvs. split; [exact Ek|].
    destruct (in_dec string_dec "uids" (dict_keys kvs)) as [Hi|Hi];
      [exact Hi|].
    exfalso. exact (add_articles_no_uids _ _ _ E Hi Hin).
  - intros st H. exact H.
  - intros j st H. exact H.
  - rewrite (load_progress_unusable s0 d0 Hd). simpl.
    intros (kvs & E & Hin). inversion E; subst kvs. exact Hin.
Qed.

End SearchInvariants.

(* ===================================================================== *)
(** * get-pubmed.py: terms that are marked without any article           *)
(* ===================================================================== *)

Section SearchEdges.

Import PubMed Observe.

Context {Srv : Type} (serve : Srv -> request -> response * Srv).
Context (int_of_str : string -> option Z).
Context (batch_size : Z) (output_file : string).

Local Abbreviation state := (PubMed.state Srv).
Local Abbreviation search_ml_medicine_articles :=
  (PubMed.search_ml_medicine_articles Srv serve int_of_str batch_size
     output_file).
Local Abbreviation search_term :=
  (PubMed.search_term Srv serve int_of_str batch_size).
Local Abbreviation AI := "Artificial Intelligence".

(** The state after the count request of a fresh search. *)
Local Abbreviation counted s' d0 l :=
  {| srv := s'; disk := d0; log := l; sleeps := O;
     requests := [ESearch AI 0 0];
     searched_combos := JArr []; all_articles := JObj [] |}.

(** The state at the end of a search that fetched no batch. *)
Local Abbreviation nothing_fetched s' d0 l :=
  {| srv := s';
     disk := <[output_file := Doc (JArr [])]>
               (<[progress_file := marked AI]> d0);
     log := l;
     sleeps := O; requests := [ESearch AI 0 0];
     searched_combos := JArr [JStr AI]; all_articles := JObj [] |}.

Lemma http_get_200 (st : state) req data s' :
  serve (srv st) req = ({| status_code := 200; body := Some data |}, s') ->
  PubMed.http_get Srv serve req st =
  (Ok data,
   {| srv := s'; disk := disk st; log := log st; sleeps := sleeps st;
      requests := requests st ++ [req];
      searched_combos := searched_combos st;
      all_articles := all_articles st |}).
Proof. intros H. unfold PubMed.http_get. rewrite H. reflexivity. Qed.

Lemma search_without_batches (s0 s' : Srv) (d0 : gmap string file) l :
  d0 !! progress_file = None \/ d0 !! progress_file = Some Corrupt ->
  search_term AI None (fresh s0 d0) = (Ok tt, counted s' d0 l) ->
  search_ml_medicine_articles (boot s0 d0)
    = (Ok (JObj []),
       nothing_fetched s' d0
         ((l ++ [FoundUnique 0]) ++ [ResultsSaved output_file])).
Proof.
  intros Hd Hs. unfold PubMed.search_ml_medicine_articles.
  step_with ltac:(apply load_progress_unusable; exact Hd).
  step_with ltac:(
    unfold ml_terms; cbn [PubMed.term_loop];
    step_with ltac:(
      unfold PubMed.process_term;
      step; step_val false;
      step_with ltac:(exact Hs);
      step; reflexivity);
    reflexivity).
  reflexivity.
Qed.

Lemma later_run_sends_nothing (s' s : Srv) (d0 : gmap string file) l :
  output_file <> progress_file ->
  requests (snd (search_ml_medicine_articles
                   (boot s (disk (nothing_fetched s' d0 l))))) = [].
Proof.
  intros Hne.
  apply (resumed_run_skips serve int_of_str batch_size output_file s _
           [JStr AI] (JObj [])); [|reflexivity].
  cbn [disk]. rewrite lookup_insert_ne by exact Hne.
  rewrite lookup_insert_eq. reflexivity.
Qed.


(** Up to the batch loop, when the count reply is well formed. *)
Lemma search_term_announced (s0 s' : Srv) (d0 : gmap string file) data total :
  serve s0 (ESearch AI 0 0)
    = ({| status_code := 200; body := Some data |}, s') ->
  announces int_of_str data total ->
  search_term AI None (fresh s0 d0) =
  seqM (lift (py_range total batch_size))
    (fun starts =>
       PubMed.batch_loop Srv serve batch_size AI AI total starts)
    (counted s' d0 [StartingNew; Searching AI; Found total AI]).
Proof.
  intros Hs (Hc & inner & c & w & q & E1 & E2 & E3 & E4 & E5 & E6).
  unfold PubMed.search_term, PubMed.search. step.
  step_with ltac:(apply http_get_200; exact Hs).
  step_with ltac:(unfold lift; rewrite Hc; reflexivity).
  step_with ltac:(unfold lift; rewrite E1; reflexivity).
  step_with ltac:(unfold lift; rewrite E2; reflexivity).
  step_with ltac:(unfold lift; rewrite E3; reflexivity).
  step.
  step_with ltac:(unfold lift; rewrite E1; reflexivity).
  step_with ltac:(unfold lift; rewrite E4; reflexivity).
  step_with ltac:(unfold lift; rewrite E1; reflexivity).
  step_with ltac:(unfold lift; rewrite E5; reflexivity).
  rewrite E6. reflexivity.
Qed.

Lemma py_range_empty (total step : Z) :
  (0 < step /\ total <= 0) \/ (step < 0 /\ 0 <= total) ->
  py_range total step = Ok [].
Proof.
  intros H. unfold py_range.
  destruct (Z.eqb_spec step 0); [lia|].
  destruct (Z.ltb_spec 0 step).
  - assert ((total + step - 1) / step <= 0).
    { apply Z.lt_succ_r. apply Z.div_lt_upper_bound; lia. }
    replace (Z.to_nat _) with O by lia. reflexivity.
  - assert ((- total - step - 1) / (- step) <= 0).
    { apply Z.lt_succ_r. apply Z.div_lt_upper_bound; lia. }
    replace (Z.to_nat _) with O by lia. reflexivity.
Qed.


End SearchEdges.

(* ===================================================================== *)
(** * get-pubmed.py: downloading the full texts                           *)
(* ===================================================================== *)

Lemma string_length_app (s t : string) :
  String.length (s ++ t) = (String.length s + String.length t)%nat.
Proof.
  induction s as [|c s IH]; simpl; [reflexivity|rewrite IH; reflexivity].
Qed.

Lemma string_app_assoc (a b c : string) :
  ((a ++ b) ++ c = a ++ (b ++ c))%string.
Proof.
  induction a as [|x a IH]; [reflexivity|].
  change (String x ((a ++ b) ++ c) = String x (a ++ (b ++ c)))%string.
  rewrite IH. reflexivity.
Qed.

(** No article is stored at the path of the progress file: the one ends
    in [.xml], the other in [.json]. *)
Lemma xml_path_not_progress (output_dir article_id : string) :
  Download.xml_path output_dir article_id <> Download.download_progress_file.
Proof.
  assert (H : forall pre : string,
             (pre ++ ".xml")%string <> "download_progress.json").
  { intros pre E.
    pose proof (f_equal String.length E) as El.
    rewrite string_length_app in El. simpl in El.
    pose proof (append_correct2 pre ".xml" 3) as Hg.
    rewrite E in Hg.
    replace (3 + String.length pre)%nat with 21%nat in Hg by lia.
    simpl in Hg. discriminate. }
  unfold Download.xml_path, Download.path_join,
    Download.download_progress_file.
  destruct (_ || _).
  - rewrite <- (string_app_assoc "PMC"), <- string_app_assoc. apply H.
  - rewrite <- (string_app_assoc "PMC"), <- (string_app_assoc "/"),
      <- string_app_assoc.
    apply H.
Qed.

Section DownloadFacts.

Import Download ObserveDownload.

Context {Srv : Type} (serve : Srv -> string -> reply * Srv).
Context (order : list json -> list json).
Context (loads : string -> option json).
Context (makedirs :
           string -> gmap string content -> result (gmap string content)).

Local Abbreviation state := (Download.state Srv).
Local Abbreviation fetch_full_text := (Download.fetch_full_text Srv serve).
Local Abbreviation attempt := (Download.attempt Srv serve order).
Local Abbreviation download_loop := (Download.download_loop Srv serve order).
Local Abbreviation load_downloaded := (Download.load_downloaded Srv loads).
Local Abbreviation download_full_texts :=
  (Download.download_full_texts Srv serve order loads makedirs).
Local Abbreviation accounted := (ObserveDownload.accounted order).

(** ** The set of downloaded ids *)

Lemma py_eq_str_refl (s : string) : py_eq (JStr s) (JStr s) = true.
Proof. apply String.eqb_refl. Qed.

Lemma set_mem_add (x y : json) members :
  set_mem x (set_add y members) = true ->
  set_mem x members = true \/ py_eq x y = true.
Proof.
  unfold set_add, set_mem. destruct (existsb (py_eq y) members); [auto|].
  rewrite existsb_app. simpl. rewrite orb_false_r.
  intros H. apply orb_true_iff in H. exact H.
Qed.

Lemma set_mem_add_old (x y : json) members :
  set_mem x members = true -> set_mem x (set_add y members) = true.
Proof.
  unfold set_add, set_mem. intros H.
  destruct (existsb (py_eq y) members); [exact H|].
  rewrite existsb_app, H. reflexivity.
Qed.

Lemma set_mem_add_new (s : string) members :
  set_mem (JStr s) (set_add (JStr s) members) = true.
Proof.
  unfold set_add, set_mem.
  destruct (existsb (py_eq (JStr s)) members) eqn:E; [exact E|].
  rewrite existsb_app. simpl. rewrite String.eqb_refl.
  apply orb_true_iff. right. reflexivity.
Qed.

Lemma set_mem_add_other (s t : string) members :
  s <> t ->
  set_mem (JStr s) (set_add (JStr t) members) = set_mem (JStr s) members.
Proof.
  intros Hne. unfold set_add, set_mem.
  destruct (existsb (py_eq (JStr t)) members); [reflexivity|].
  rewrite existsb_app. simpl.
  destruct (String.eqb_spec s t); [contradiction|].
  rewrite !orb_false_r. reflexivity.
Qed.

Lemma py_set_strings (done : list string) members :
  exists ids,
    py_set (map JStr done) members = Ok ids /\
    forall s, In s done \/ set_mem (JStr s) members = true ->
              set_mem (JStr s) ids = true.
Proof.
  revert members. induction done as [|d done IH]; intros members; simpl.
  - exists members. split; [reflexivity|]. intros s [[]|H]. exact H.
  - destruct (IH (set_add (JStr d) members)) as (ids & E & H).
    exists ids. split; [exact E|].
    intros s [[->|Hin]|Hm]; apply H; auto.
    + right. apply set_mem_add_new.
    + right. apply set_mem_add_old, Hm.
Qed.

(** ** One attempt *)

Lemma fetch_full_text_fields (article_id : string) (st : state) :
  let st' := snd (fetch_full_text article_id st) in
  disk st' = disk st /\ sleeps st' = sleeps st /\
  requests st' = requests st ++ [article_id] /\
  downloaded_ids st' = downloaded_ids st /\ completed st' = completed st.
Proof.
  unfold Download.fetch_full_text.
  destruct (serve (srv st) article_id) as [rep s'].
  destruct (status rep =? 200); [destruct (substringb _ _)|destruct (_ && _)];
    simpl; auto.
Qed.

Lemma attempt_fields (output_dir article_id : string) (st : state) :
  let st' := attempt output_dir article_id st in
  requests st' = requests st ++ [article_id] /\
  completed st' = completed st /\
  (downloaded_ids st' = downloaded_ids st \/
   downloaded_ids st' = set_add (JStr article_id) (downloaded_ids st)).
Proof.
  unfold Download.attempt.
  pose proof (fetch_full_text_fields article_id st) as H. cbv zeta in H.
  destruct (fetch_full_text article_id st) as [[[bytes|]|f] st1];
    simpl in *; destruct H as (Hd & Hs & Hr & Hi & Hc);
    rewrite ?Hr, ?Hc, ?Hi; auto.
Qed.

Lemma load_downloaded_fields (resume : bool) (s0 : Srv)
  (d0 : gmap string content) r (st0 : state) :
  load_downloaded resume (boot s0 d0) = (r, st0) ->
  disk st0 = d0 /\ requests st0 = [] /\ sleeps st0 = O /\
  completed st0 = O /\ srv st0 = s0.
Proof.
  unfold Download.load_downloaded. destruct resume.
  - cbn [disk boot].
    destruct (d0 !! download_progress_file ≫= read_json loads) as [j|].
    + destruct (do l <- py_iter j; py_set l []) as [ids|e];
        intros H; inversion H; subst; simpl; auto.
    + intros H; inversion H; subst; simpl; auto.
  - intros H; inversion H; subst; simpl; auto.
Qed.

(** ** The loop *)

Lemma download_loop_runs (output_dir : string) (total : nat)
  (kvs : list (string * json)) (st : state) :
  Forall (fun kv => fst kv = "uids" \/ exists a, snd kv = JObj a) kvs ->
  NoDup (dict_keys kvs) ->
  exists st',
    download_loop output_dir total kvs st = (Ok tt, st') /\
    completed st' =
      (completed st + length (List.filter not_uids (dict_keys kvs)))%nat /\
    requests st' =
      requests st ++
      List.filter
        (fun k => not_uids k && negb (set_mem (JStr k) (downloaded_ids st)))
        (dict_keys kvs).
Proof.
  revert st. induction kvs as [|[k v] kvs IH]; intros st Hf Hn.
  - exists st. simpl. rewrite Nat.add_0_r, app_nil_r. auto.
  - apply Forall_cons in Hf. destruct Hf as [Ha Hf]. simpl in Ha.
    rewrite dict_keys_cons in Hn. apply NoDup_cons in Hn.
    destruct Hn as [Hk Hn]. specialize (fun st => IH st Hf Hn).
    cbn [Download.download_loop dict_keys map fst List.filter].
    fold (dict_keys kvs).
    change (not_uids k) with (negb (String.eqb k "uids")).
    destruct (String.eqb k "uids") eqn:Eu; cbn [negb andb].
    + exact (IH st).
    + destruct (set_mem (JStr k) (downloaded_ids st)) eqn:Em; cbn [negb].
      * destruct (IH (count_completed Srv
                        (logger Srv (SkipDownloaded k) st)))
          as (st' & E & Hc & Hr).
        exists st'. split; [exact E|]. simpl in Hc, Hr.
        rewrite Hc, Hr. cbn [length]. split; [lia|reflexivity].
      * destruct Ha as [->|[a ->]]; [discriminate|]. cbn [py_get].
        set (st1 := logger Srv _ st).
        destruct (attempt_fields output_dir k st1) as (Hr1 & Hc1 & Hi1).
        destruct (IH (count_completed Srv (attempt output_dir k st1)))
          as (st' & E & Hc & Hr).
        exists st'. split; [exact E|]. simpl in Hc, Hr.
        rewrite Hc, Hc1, Hr, Hr1. cbn [length]. subst st1. simpl.
        split; [lia|]. rewrite <- app_assoc. simpl. f_equal. f_equal.
        apply filter_ext_in. intros k' Hin. f_equal. f_equal.
        destruct Hi1 as [->| ->]; [reflexivity|]. simpl.
        apply set_mem_add_other. intros ->. apply Hk.
        apply list_elem_of_In. exact Hin.
Qed.

(** X16.  No failure of the server stops the download.  Let the output
    directory be made and the progress file be read.  For a dict whose
    articles, the entry [uids] apart, are dicts, [download_full_texts]
    then returns whatever the server answers: every article other than
    [uids] is counted, and exactly the articles that are not in the set
    of downloaded ids are requested, once each, in the order of the
    dict. *)
Theorem X16_download_survives_failures
  (kvs : list (string * json)) (output_dir : string) (resume : bool)
  (s0 : Srv) (d0 d1 : gmap string content) (st0 : state) :
  makedirs output_dir d0 = Ok d1 ->
  load_downloaded resume (boot s0 d1) = (Ok tt, st0) ->
  Forall (fun kv => fst kv = "uids" \/ exists a, snd kv = JObj a) kvs ->
  NoDup (dict_keys kvs) ->
  exists st,
    download_full_texts (JObj kvs) output_dir resume s0 d0 = (Ok tt, st) /\
    completed st = length (List.filter not_uids (dict_keys kvs)) /\
    requests st =
      List.filter
        (fun k => not_uids k && negb (set_mem (JStr k) (downloaded_ids st0)))
        (dict_keys kvs).
Proof.
  intros Hm Hl Hf Hn. unfold Download.download_full_texts. rewrite Hm, Hl.
  cbn [py_len PubMed.py_items].
  destruct (load_downloaded_fields _ _ _ _ _ Hl) as (_ & Hr & _ & Hc & _).
  destruct (download_loop_runs output_dir (length kvs) kvs st0 Hf Hn)
    as (st & E & Hc' & Hr').
  exists st. rewrite Hc', Hr', Hc, Hr. auto.
Qed.

Lemma download_loop_skips (output_dir : string) (total : nat)
  (kvs : list (string * json)) (st : state) :
  (forall k, In k (dict_keys kvs) -> k <> "uids" ->
             set_mem (JStr k) (downloaded_ids st) = true) ->
  exists st',
    download_loop output_dir total kvs st = (Ok tt, st') /\
    requests st' = requests st /\ disk st' = disk st /\
    sleeps st' = sleeps st /\ downloaded_ids st' = downloaded_ids st /\
    completed st' =
      (completed st + length (List.filter not_uids (dict_keys kvs)))%nat.
Proof.
  revert st. induction kvs as [|[k v] kvs IH]; intros st H.
  - exists st. simpl. rewrite Nat.add_0_r. auto 10.
  - cbn [Download.download_loop dict_keys map fst List.filter].
    fold (dict_keys kvs).
    change (not_uids k) with (negb (String.eqb k "uids")).
    assert (Hrest : forall st1 : state,
               downloaded_ids st1 = downloaded_ids st ->
               forall k', In k' (dict_keys kvs) -> k' <> "uids" ->
                          set_mem (JStr k') (downloaded_ids st1) = true).
    { intros st1 -> k' Hin Hu. apply H; [right; exact Hin|exact Hu]. }
    destruct (String.eqb_spec k "uids") as [->|Hu]; cbn [negb].
    + exact (IH st (Hrest st eq_refl)).
    + rewrite (H k) by (auto; left; reflexivity).
      destruct (IH (count_completed Srv (logger Srv (SkipDownloaded k) st))
                  (Hrest _ eq_refl))
        as (st' & E & Hr & Hd & Hs & Hi & Hc).
      exists st'. split; [exact E|]. simpl in *.
      rewrite Hr, Hd, Hs, Hi, Hc. repeat split; lia.
Qed.

(** X17.  A resumed download skips what the progress file lists.  When
    the output directory can be made and the progress file is then the
    JSON list of the identifiers [done], with every article other than
    [uids] among them, [download_full_texts] with [resume] set returns
    without a single request, leaves the files (the log apart) as
    [os.makedirs] left them and counts every article, whether or not the
    articles are dicts. *)
Theorem X17_resumed_download_skips
  (kvs : list (string * json)) (done : list string) (output_dir : string)
  (s0 : Srv) (d0 d1 : gmap string content) :
  makedirs output_dir d0 = Ok d1 ->
  d1 !! download_progress_file = Some (Doc (JArr (map JStr done))) ->
  (forall k, In k (dict_keys kvs) -> k <> "uids" -> In k done) ->
  exists st,
    download_full_texts (JObj kvs) output_dir true s0 d0 = (Ok tt, st) /\
    requests st = [] /\ disk st = d1 /\ sleeps st = O /\
    completed st = length (List.filter not_uids (dict_keys kvs)).
Proof.
  intros Hm Hd Hall.
  destruct (py_set_strings done []) as (ids & Eids & Hmem).
  assert (Hl : load_downloaded true (boot s0 d1) =
               (Ok tt,
                logger Srv (Resuming (length ids))
                  {| srv := s0; disk := d1; log := []; sleeps := O;
                     requests := []; downloaded_ids := ids;
                     completed := O |})).
  { unfold Download.load_downloaded. cbn [disk boot]. rewrite Hd.
    cbn [mbind option_bind read_json py_iter bind]. rewrite Eids.
    reflexivity. }
  unfold Download.download_full_texts. rewrite Hm, Hl.
  cbn [py_len PubMed.py_items].
  match goal with
  | |- context [Download.download_loop _ _ _ _ _ _ ?s] => set (st0 := s)
  end.
  destruct (download_loop_skips output_dir (length kvs) kvs st0)
    as (st & E & Hr & Hdk & Hs & _ & Hc).
  { intros k Hin Hu. apply Hmem. left. apply Hall; assumption. }
  exists st. rewrite Hr, Hdk, Hs, Hc. auto.
Qed.

(** ** What is on disk for the ids that are marked *)

Lemma accounted_same output_dir (st st' : state) :
  disk st' = disk st -> downloaded_ids st' = downloaded_ids st ->
  accounted output_dir st st'.
Proof.
  intros Hd Hi. unfold ObserveDownload.accounted. rewrite Hd, Hi. auto.
Qed.

Lemma accounted_trans output_dir (a b c : state) :
  accounted output_dir a b -> accounted output_dir b c ->
  accounted output_dir a c.
Proof.
  intros (A1 & A2 & A3) (B1 & B2 & B3). split; [|split].
  - auto.
  - intros k Hk. destruct (B2 k Hk) as [H|H]; [|auto].
    destruct (A2 k H) as [H'|H']; auto.
  - destruct B3 as [[Bi Bd]|B3]; [|auto].
    destruct A3 as [[Ai Ad]|A3].
    + left. split; congruence.
    + right. rewrite Bd, Bi. exact A3.
Qed.

Lemma has_xml_written output_dir k k' b (d : gmap string content) :
  has_xml output_dir k d ->
  has_xml output_dir k (<[xml_path output_dir k' := Bytes b]> d).
Proof.
  intros [s Hs]. unfold has_xml.
  destruct (decide (xml_path output_dir k' = xml_path output_dir k))
    as [E|E].
  - rewrite E, lookup_insert_eq. eauto.
  - rewrite lookup_insert_ne by exact E. eauto.
Qed.

Lemma has_xml_progress output_dir k c (d : gmap string content) :
  has_xml output_dir k d ->
  has_xml output_dir k (<[download_progress_file := c]> d).
Proof.
  intros [s Hs]. unfold has_xml.
  rewrite lookup_insert_ne
    by (intros E; symmetry in E; exact (xml_path_not_progress _ _ E)).
  eauto.
Qed.

Lemma accounted_attempt output_dir k (st : state) :
  accounted output_dir st (attempt output_dir k st).
Proof.
  unfold Download.attempt.
  pose proof (fetch_full_text_fields k st) as H. cbv zeta in H.
  destruct (fetch_full_text k st) as [[[bytes|]|f] st1];
    simpl in H; destruct H as (Hd & Hs & Hr & Hi & Hc).
  - split; [|split]; simpl; rewrite ?Hd, ?Hi.
    + intros k' Hk'. apply has_xml_progress, has_xml_written, Hk'.
    + intros k' Hk'. destruct (set_mem_add _ _ _ Hk') as [H|H]; [auto|].
      right. simpl in H. apply String.eqb_eq in H. subst k'.
      apply has_xml_progress. exists bytes. apply lookup_insert_eq.
    + right. apply lookup_insert_eq.
  - split; [|split]; simpl; rewrite ?Hd, ?Hi.
    + intros k' Hk'. apply has_xml_written, Hk'.
    + auto.
    + left. split; [reflexivity|].
      apply lookup_insert_ne, xml_path_not_progress.
  - apply accounted_same; simpl; assumption.
Qed.

Lemma accounted_loop output_dir total items (st : state) :
  accounted output_dir st (snd (download_loop output_dir total items st)).
Proof.
  revert st. induction items as [|[k v] items IH]; intros st; simpl.
  - apply accounted_same; reflexivity.
  - destruct (String.eqb k "uids"); [apply IH|].
    destruct (set_mem (JStr k) (downloaded_ids st)).
    + eapply accounted_trans; [|apply IH].
      apply accounted_same; reflexivity.
    + destruct (py_get v "title" (JStr "Untitled")) as [title|e]; simpl.
      * eapply accounted_trans; [|apply IH].
        set (st1 := logger Srv _ st).
        eapply (accounted_trans _ st st1);
          [apply accounted_same; reflexivity|].
        eapply accounted_trans; [apply accounted_attempt|].
        apply accounted_same; reflexivity.
      * apply accounted_same; reflexivity.
Qed.

(** X18.  What is marked as downloaded is on disk.  When
    [download_full_texts] ends, however it ends, every identifier in the
    set of downloaded ids that did not come from the progress file has
    its full text at its path under the output directory; and unless the
    set is the one read at the start and the progress file untouched, the
    progress file holds the list of the set.  When the output directory
    cannot be made, the function raises what [os.makedirs] raised, with
    nothing requested, marked or written. *)
Theorem X18_marked_downloads_are_on_disk
  (articles : json) (output_dir : string) (resume : bool)
  (s0 : Srv) (d0 : gmap string content) :
  (forall d1 (st0 : state),
     makedirs output_dir d0 = Ok d1 ->
     load_downloaded resume (boot s0 d1) = (Ok tt, st0) ->
     let st := snd (download_full_texts articles output_dir resume s0 d0) in
     (forall k, set_mem (JStr k) (downloaded_ids st) = true ->
                set_mem (JStr k) (downloaded_ids st0) = true \/
                has_xml output_dir k (disk st)) /\
     ((downloaded_ids st = downloaded_ids st0 /\
       disk st !! download_progress_file = d1 !! download_progress_file)
      \/ disk st !! download_progress_file
         = Some (Doc (JArr (order (downloaded_ids st)))))) /\
  (forall e,
     makedirs output_dir d0 = Raise e ->
     download_full_texts articles output_dir resume s0 d0
       = (Raise e, boot s0 d0)).
Proof.
  split.
  - intros d1 st0 Hm Hl. cbv zeta.
    destruct (load_downloaded_fields _ _ _ _ _ Hl) as (Hd & _).
    assert (H : accounted output_dir st0
                  (snd (download_full_texts articles output_dir resume
                          s0 d0))).
    { unfold Download.download_full_texts. rewrite Hm, Hl.
      destruct (py_len articles); [|apply accounted_same; reflexivity].
      destruct (PubMed.py_items articles);
        [|apply accounted_same; reflexivity].
      apply accounted_loop. }
    destruct H as (_ & H2 & H3). rewrite Hd in H3. auto.
  - intros e Hm. unfold Download.download_full_texts. rewrite Hm.
    reflexivity.
Qed.

(** X19.  A failed attempt marks nothing.  When the reply for an article
    is HTML or has a 4xx or 5xx status, the attempt leaves the disk and
    the set of downloaded ids as they were and does not sleep.  When the
    status is neither 200 nor an error, [fetch_full_text] returns [None]:
    the attempt leaves an empty file at the article's path, and again
    marks nothing. *)
Theorem X19_failed_attempt_marks_nothing
  (output_dir article_id : string) (st : state) (rep : reply) (s' : Srv) :
  serve (srv st) article_id = (rep, s') ->
  let st' := attempt output_dir article_id st in
  ((status rep = 200 /\ looks_html rep = true) \/ 400 <= status rep < 600 ->
   disk st' = disk st /\ downloaded_ids st' = downloaded_ids st /\
   sleeps st' = sleeps st) /\
  (status rep <> 200 -> ~ 400 <= status rep < 600 ->
   disk st' = <[xml_path output_dir article_id := Bytes ""]> (disk st) /\
   downloaded_ids st' = downloaded_ids st /\ sleeps st' = sleeps st).
Proof.
  intros Hs. cbv zeta. unfold Download.attempt, Download.fetch_full_text.
  rewrite Hs. unfold looks_html. split.
  - intros [[-> Hh]|Hc].
    + simpl. rewrite Hh. simpl. auto.
    + destruct (Z.eqb_spec (status rep) 200); [lia|].
      destruct (Z.leb_spec 400 (status rep)); [|lia].
      destruct (Z.ltb_spec (status rep) 600); [|lia]. simpl. auto.
  - intros Hn He.
    destruct (Z.eqb_spec (status rep) 200); [contradiction|].
    destruct (Z.leb_spec 400 (status rep));
      destruct (Z.ltb_spec (status rep) 600); simpl; auto; lia.
Qed.

Lemma py_set_unhashable (l : list json) members :
  Exists (fun x => hashable x = false) l ->
  py_set l members = Raise TypeError.
Proof.
  revert members. induction l as [|x l IH]; intros members H.
  - inversion H.
  - simpl. destruct (hashable x) eqn:Eh; [|reflexivity].
    apply IH. inversion H; subst; [congruence|assumption].
Qed.

(** X20.  A progress file that is JSON but no list of ids.  Let the
    output directory be made.  With [resume] set, a progress file holding
    a JSON value that cannot be iterated (a number, a boolean, null), or
    a list that holds a list or a dict, is not caught by the [except]
    clause: [download_full_texts] ends with [TypeError] before any
    request, logs nothing and leaves the files as [os.makedirs] left
    them. *)
Theorem X20_download_progress_not_a_list
  (articles j : json) (output_dir : string)
  (s0 : Srv) (d0 d1 : gmap string content) :
  makedirs output_dir d0 = Ok d1 ->
  d1 !! download_progress_file = Some (Doc j) ->
  (forall l, py_iter j <> Ok l) \/
  (exists l, py_iter j = Ok l /\ Exists (fun x => hashable x = false) l) ->
  download_full_texts articles output_dir true s0 d0
    = (Raise TypeError, boot s0 d1).
Proof.
  intros Hm Hd H.
  unfold Download.download_full_texts, Download.load_downloaded.
  rewrite Hm. cbn [disk boot]. rewrite Hd.
  cbn [mbind option_bind read_json].
  destruct H as [H|(l & El & Hx)].
  - destruct j; simpl in *;
      try reflexivity; exfalso; eapply H; reflexivity.
  - rewrite El. cbn [bind]. rewrite (py_set_unhashable l [] Hx).
    reflexivity.
Qed.

End DownloadFacts.

(* ===================================================================== *)
(** * main.py: the loop over the offsets                                  *)
(* ===================================================================== *)

Section PmidsRuns.

Import Pmids.

Context {Srv : Type} (serve : Srv -> Z -> result json * Srv).
Context (py_str : json -> string).

Local Abbreviation state := (Pmids.state Srv).
Local Abbreviation iteration := (Pmids.iteration Srv serve py_str).
Local Abbreviation main_loop := (Pmids.main_loop Srv serve py_str).
Local Abbreviation main := (Pmids.main Srv serve py_str).

(** The offsets asked for: 30294, 30794, ... *)
Local Abbreviation offsets from n :=
  (map (fun i => from + 500 * Z.of_nat i) (seq 0 n)).

(** What one pass does to the counters, by the way it ends. *)
Lemma iteration_counters (st : state) :
  let '(f, st') := iteration st in
  requests st' = requests st ++ [start_count st] /\
  match f with
  | Continue =>
      sleeps st' = S (sleeps st) /\ start_count st' = start_count st + 500
  | _ => sleeps st' = sleeps st /\ start_count st' = start_count st
  end.
Proof.
  unfold Pmids.iteration.
  destruct (serve (srv st) (start_count st)) as [[b|e] s']; [|simpl; auto].
  destruct (write_batches py_str (articles st ++ [b]) _) as [[u|e] lines];
    [|simpl; auto].
  destruct b; simpl; auto.
Qed.

Lemma main_loop_counters (fuel : nat) (st : state) :
  let '(f, st') := main_loop fuel st in
  exists n,
    (n <= fuel)%nat /\
    requests st' = requests st ++ offsets (start_count st) n /\
    match f with
    | Continue => n = fuel /\ sleeps st' = (sleeps st + fuel)%nat
    | _ => (sleeps st' + 1 = sleeps st + n)%nat
    end.
Proof.
  revert st. induction fuel as [|fuel IH]; intros st.
  - simpl. exists O. simpl. rewrite app_nil_r. auto with arith.
  - cbn [Pmids.main_loop].
    pose proof (iteration_counters st) as Hi.
    destruct (iteration st) as [[| |e] st1]; destruct Hi as [Hr Hc].
    + destruct Hc as [Hs Hst]. specialize (IH st1).
      destruct (main_loop fuel st1) as [f st'].
      destruct IH as (n & Hn & Hr' & Hf).
      exists (S n). split; [lia|]. split.
      * rewrite Hr', Hr, Hst, <- app_assoc. simpl. f_equal.
        f_equal; [lia|]. rewrite <- seq_shift, map_map.
        apply map_ext. intros i. lia.
      * destruct f; rewrite ?Hs in Hf; lia.
    + exists 1%nat. destruct Hc as [Hs _]. split; [lia|]. split.
      * rewrite Hr. simpl. do 2 f_equal. lia.
      * lia.
    + exists 1%nat. destruct Hc as [Hs _]. split; [lia|]. split.
      * rewrite Hr. simpl. do 2 f_equal. lia.
      * lia.
Qed.

(** X21.  main.py cannot end normally.  The [break] of its loop is dead
    code: a batch that is [None] is appended to [articles] before the
    file is written, and iterating over it raises.  So a run is still
    going or has crashed, and the pass in which the remote returns [None]
    ends in an uncaught exception. *)
Theorem X21_pmids_never_ends_normally :
  (forall fuel s0 d0, fst (main fuel s0 d0) <> Exited) /\
  (forall (st : state) s',
     serve (srv st) (start_count st) = (Ok JNull, s') ->
     exists e, fst (iteration st) = Uncaught e).
Proof.
  split.
  - intros fuel s0 d0. unfold Pmids.main.
    pose proof (main_loop_never_breaks serve py_str fuel (boot s0 d0)) as H.
    destruct (main_loop fuel (boot s0 d0)) as [[| |e] st]; simpl in *;
      [discriminate|contradiction|discriminate].
  - intros st s' Hs. unfold Pmids.iteration. rewrite Hs.
    destruct (write_batches_None py_str (articles st)
                (match disk st !! pmidsmeta with
                 | Some lines0 => lines0
                 | None => []
                 end)) as (e & He).
    destruct (write_batches py_str (articles st ++ [JNull]) _)
      as [[u|e'] lines]; simpl in He; [discriminate|].
    exists e'. reflexivity.
Qed.

(** X22.  The offsets that are asked for.  Whatever the remote returns,
    the requests of a run are the offsets 30294, 30794, 31294, ... in
    this order, one per pass; a run that is still going after [fuel]
    passes has sent [fuel] requests and slept [fuel] times, and a run
    that crashed has slept once less than it sent requests. *)
Theorem X22_pmids_offsets_advance_by_500 (fuel : nat) (s0 : Srv)
  (d0 : gmap string (list string)) :
  let st := snd (main fuel s0 d0) in
  exists n,
    (n <= fuel)%nat /\
    requests st = map (fun i => 30294 + 500 * Z.of_nat i) (seq 0 n) /\
    (fst (main fuel s0 d0) = Running -> n = fuel /\ sleeps st = fuel) /\
    (fst (main fuel s0 d0) <> Running -> (sleeps st + 1 = n)%nat).
Proof.
  cbv zeta. unfold Pmids.main.
  pose proof (main_loop_counters fuel (boot s0 d0)) as H.
  destruct (main_loop fuel (boot s0 d0)) as [[| |e] st];
    destruct H as (n & Hn & Hr & Hf); exists n; simpl in *;
    (split; [exact Hn|]); (split; [exact Hr|]); split;
    try discriminate; try (intros _; lia); try contradiction;
    try (intros H; contradiction).
Qed.

(** ** What the file holds *)

Lemma write_batches_sized (m : nat) (bs : list json) (lines : list string) :
  Forall (fun b => exists l, b = JArr l /\ length l = m) bs ->
  exists new,
    write_batches py_str bs lines = (Ok tt, lines ++ new) /\
    length new = (m * length bs)%nat.
Proof.
  revert lines. induction bs as [|b bs IH]; intros lines Hf.
  - exists []. simpl. rewrite app_nil_r. split; [reflexivity|lia].
  - apply Forall_cons in Hf. destruct Hf as [(l & -> & Hl) Hf].
    destruct (IH (lines ++ map py_str l) Hf) as (new & E & Hn).
    exists (map py_str l ++ new). simpl. rewrite E, app_assoc.
    split; [reflexivity|]. rewrite length_app, length_map, Hl, Hn. lia.
Qed.

Lemma iteration_articles (st : state) :
  let '(f, st') := iteration st in
  f = Continue -> exists b, articles st' = articles st ++ [b].
Proof.
  unfold Pmids.iteration.
  destruct (serve (srv st) (start_count st)) as [[b|e] s'];
    [|discriminate].
  destruct (write_batches py_str (articles st ++ [b]) _) as [[u|e] lines];
    [|discriminate].
  destruct b; try discriminate; intros _; eexists; reflexivity.
Qed.

Lemma main_loop_articles (fuel : nat) (st st' : state) :
  main_loop fuel st = (Continue, st') ->
  exists more, articles st' = articles st ++ more /\ length more = fuel.
Proof.
  revert st. induction fuel as [|fuel IH]; intros st.
  - simpl. intros H. inversion H. exists []. rewrite app_nil_r. auto.
  - cbn [Pmids.main_loop]. pose proof (iteration_articles st) as Hi.
    destruct (iteration st) as [[| |e] st1]; try discriminate.
    destruct (Hi eq_refl) as [b Hb]. intros H.
    destruct (IH st1 H) as (more & Hm & Hl).
    exists (b :: more). rewrite Hm, Hb, <- app_assoc. simpl. auto.
Qed.

Lemma iteration_file (m : nat) (st st' : state) :
  iteration st = (Continue, st') ->
  Forall (fun b => exists l, b = JArr l /\ length l = m) (articles st') ->
  length (default [] (disk st' !! pmidsmeta)) =
  (length (default [] (disk st !! pmidsmeta)) + m * length (articles st'))%nat.
Proof.
  unfold Pmids.iteration.
  destruct (serve (srv st) (start_count st)) as [[b|e] s'];
    [|discriminate].
  intros H Hf.
  assert (Ha : articles st' = articles st ++ [b]).
  { destruct (write_batches py_str (articles st ++ [b]) _)
      as [[u|e] lines]; [|discriminate].
    destruct b; inversion H; reflexivity. }
  rewrite Ha in Hf.
  destruct (write_batches_sized m _
              (match disk st !! pmidsmeta with
               | Some lines0 => lines0
               | None => []
               end) Hf) as (new & E & Hn).
  rewrite E in H. rewrite Ha, <- Hn.
  assert (Hd : disk st' !! pmidsmeta
               = Some (default [] (disk st !! pmidsmeta) ++ new)).
  { destruct b; inversion H; subst; simpl; rewrite lookup_insert_eq;
      destruct (disk st !! pmidsmeta); reflexivity. }
  rewrite Hd. simpl. apply length_app.
Qed.

Lemma main_loop_file (m fuel : nat) (st st' : state) :
  main_loop fuel st = (Continue, st') ->
  Forall (fun b => exists l, b = JArr l /\ length l = m) (articles st') ->
  (2 * length (default [] (disk st' !! pmidsmeta)) =
   2 * length (default [] (disk st !! pmidsmeta))
   + m * (fuel * (2 * length (articles st) + fuel + 1)))%nat.
Proof.
  revert st. induction fuel as [|fuel IH]; intros st.
  - simpl. intros H _. inversion H. lia.
  - cbn [Pmids.main_loop]. pose proof (iteration_articles st) as Hi.
    destruct (iteration st) as [[| |e] st1] eqn:Ei; try discriminate.
    destruct (Hi eq_refl) as [b Hb]. intros H Hf.
    destruct (main_loop_articles _ _ _ H) as (more & Hm & _).
    assert (Hf1 : Forall (fun b => exists l, b = JArr l /\ length l = m)
                    (articles st1)).
    { rewrite Hm in Hf. apply Forall_app in Hf. apply Hf. }
    rewrite (IH st1 H Hf), (iteration_file m st st1 Ei Hf1), Hb, length_app.
    simpl. nia.
Qed.

(** X23.  How the file grows.  Every pass appends the identifiers of all
    the batches fetched so far, not only of the new one.  So for a run
    that is still going after [fuel] passes in which every batch was a
    list of [m] identifiers, the file has gained [m * fuel * (fuel + 1) / 2]
    lines: 500 identifiers a pass make 1500 lines after two passes and
    27500 after ten. *)
Theorem X23_pmids_file_grows_quadratically (m fuel : nat) (s0 : Srv)
  (d0 : gmap string (list string)) (st : state) :
  main fuel s0 d0 = (Running, st) ->
  Forall (fun b => exists l, b = JArr l /\ length l = m) (articles st) ->
  (2 * length (default [] (disk st !! pmidsmeta)) =
   2 * length (default [] (d0 !! pmidsmeta)) + m * fuel * (fuel + 1))%nat.
Proof.
  unfold Pmids.main.
  destruct (main_loop fuel (boot s0 d0)) as [[| |e] st1] eqn:E;
    try discriminate.
  intros H Hf. inversion H; subst st1.
  rewrite (main_loop_file m fuel _ _ E Hf). simpl. nia.
Qed.

(** X24.  Running out of results does not stop the run.  An empty list is
    not [None]: against a remote that answers every request with an empty
    list, the run is still going after any number of passes, never prints
    [Success], and sleeps and asks for the next offset in every pass. *)
Theorem X24_pmids_empty_batches_never_stop (s0 : Srv)
  (d0 : gmap string (list string)) :
  (forall s n, fst (serve s n) = Ok (JArr [])) ->
  forall fuel,
    let st := snd (main fuel s0 d0) in
    fst (main fuel s0 d0) = Running /\ successes st = O /\
    length (requests st) = fuel /\ sleeps st = fuel /\
    default [] (disk st !! pmidsmeta) = default [] (d0 !! pmidsmeta).
Proof.
  intros Hserve fuel. cbv zeta. unfold Pmids.main.
  assert (H : forall (st : state),
             Forall (fun b => b = JArr []) (articles st) ->
             let r := main_loop fuel st in
             fst r = Continue /\ successes (snd r) = successes st /\
             length (requests (snd r)) = (length (requests st) + fuel)%nat /\
             sleeps (snd r) = (sleeps st + fuel)%nat /\
             default [] (disk (snd r) !! pmidsmeta)
               = default [] (disk st !! pmidsmeta)).
  { induction fuel as [|fuel IH]; intros st Ha.
    - simpl. repeat split; lia.
    - cbn [Pmids.main_loop]. cbv zeta. unfold Pmids.iteration.
      specialize (Hserve (srv st) (start_count st)).
      destruct (serve (srv st) (start_count st)) as [r s']. simpl in Hserve.
      subst r.
      assert (Hw : forall lines,
                 write_batches py_str (articles st ++ [JArr []]) lines
                 = (Ok tt, lines)).
      { generalize (articles st) Ha. clear. intros bs Ha.
        induction Ha as [|b bs -> _ IH]; intros lines; simpl;
          [|rewrite app_nil_r; apply IH]. rewrite app_nil_r. reflexivity. }
      rewrite Hw. cbn [truthy].
      assert (Ha' : Forall (fun b => b = JArr []) (articles st ++ [JArr []])).
      { apply Forall_app. split; [exact Ha|]. constructor; auto. }
      match goal with
      | |- context [main_loop fuel ?s] =>
          specialize (IH s Ha'); cbv zeta in IH;
          destruct IH as (I1 & I2 & I3 & I4 & I5)
      end.
      destruct (main_loop fuel _) as [f st'] eqn:E. simpl in *. subst f.
      simpl. rewrite I2, I3, I4, I5, length_app, lookup_insert_eq. simpl.
      repeat split; try lia. }
  specialize (H (boot s0 d0) (List.Forall_nil _)). cbv zeta in H.
  destruct (main_loop fuel (boot s0 d0)) as [f st']. simpl in H.
  destruct H as (-> & H2 & H3 & H4 & H5). simpl. auto.
Qed.

End PmidsRuns.

(* ===================================================================== *)
(** * analyze_normalized_citations.py: the statistics and the listing     *)
(* ===================================================================== *)

Section AnalysisFacts.

Import Analysis ObserveAnalysis.

Lemma of_year_true y w :
  of_year y w = true <-> year_truthy (publication_year w) = Some y.
Proof.
  unfold of_year. destruct (year_truthy (publication_year w)) as [y'|].
  - rewrite Z.eqb_eq. split; congruence.
  - split; discriminate.
Qed.

(** The grouping: under each year, the counts of its works in file
    order; a year without a work is no key. *)
Lemma citations_by_year_groups (works : list work) (y : Z) :
  by_year_get (citations_by_year works) y =
  match cites_of y works with
  | [] => None
  | cites => Some cites
  end.
Proof.
  induction works as [|w works IH] using rev_ind; [reflexivity|].
  rewrite citations_by_year_snoc. unfold cites_of in *.
  rewrite List.filter_app, map_app. simpl.
  destruct (year_truthy (publication_year w)) as [y'|] eqn:Ey.
  - destruct (Z.eq_dec y' y) as [->|Hne].
    + rewrite append_at_get_eq, IH.
      assert (Ho : of_year y w = true) by (apply of_year_true; exact Ey).
      rewrite Ho. simpl.
      destruct (map cited_by_count (List.filter (of_year y) works));
        reflexivity.
    + rewrite append_at_get_ne by exact Hne. rewrite IH.
      assert (Ho : of_year y w = false).
      { destruct (of_year y w) eqn:E; [|reflexivity].
        apply of_year_true in E. congruence. }
      rewrite Ho. simpl. rewrite app_nil_r. reflexivity.
  - rewrite IH.
    assert (Ho : of_year y w = false).
    { unfold of_year. rewrite Ey. reflexivity. }
    rewrite Ho. simpl. rewrite app_nil_r. reflexivity.
Qed.

Lemma stats_get_map d cs y :
  map_result year_stats d = Ok cs ->
  stats_get cs y =
  match by_year_get d y with
  | Some cites =>
      match mean cites with
      | Ok q => Some {| average := q; count := length cites |}
      | Raise _ => None
      end
  | None => None
  end.
Proof.
  revert cs. induction d as [|[y' cites] d IH]; simpl; intros cs H.
  - inversion H. reflexivity.
  - destruct (mean cites) as [q|e] eqn:Em; simpl in H; [|discriminate].
    destruct (map_result year_stats d) as [cs'|e]; simpl in H;
      [|discriminate].
    inversion H; subst cs. simpl.
    destruct (y' =? y); [rewrite Em; reflexivity|]. apply IH. reflexivity.
Qed.

Lemma by_year_get_In d y cites :
  In (y, cites) d -> exists cites', by_year_get d y = Some cites'.
Proof.
  induction d as [|[y' c'] d IH]; simpl; [intros []|].
  intros [H|H].
  - inversion H; subst. rewrite Z.eqb_refl. eauto.
  - destruct (y' =? y); eauto.
Qed.

Lemma by_year_get_Some_In d y cites :
  by_year_get d y = Some cites -> In (y, cites) d.
Proof.
  induction d as [|[y' c'] d IH]; simpl; [discriminate|].
  destruct (Z.eqb_spec y' y) as [->|Hne].
  - intros H; inversion H; auto.
  - auto.
Qed.

Lemma append_at_keys y c d :
  NoDup (map fst d) -> NoDup (map fst (append_at y c d)) /\
  forall k, k ∈ map fst (append_at y c d) <-> k = y \/ k ∈ map fst d.
Proof.
  induction d as [|[y' c'] d IH]; simpl.
  - intros _. split; [apply NoDup_singleton|].
    intros k. rewrite elem_of_cons. tauto.
  - rewrite NoDup_cons. intros [Hy Hn].
    destruct (Z.eqb_spec y' y) as [->|Hne]; simpl.
    + split; [apply NoDup_cons; auto|].
      intros k. rewrite elem_of_cons. tauto.
    + destruct (IH Hn) as [Hn' Hk]. split.
      * apply NoDup_cons. split; [|exact Hn'].
        rewrite Hk. intros [E|E]; auto.
      * intros k. rewrite !elem_of_cons, Hk. tauto.
Qed.

Lemma citations_by_year_NoDup works :
  NoDup (map fst (citations_by_year works)).
Proof.
  induction works as [|w works IH] using rev_ind; [constructor|].
  rewrite citations_by_year_snoc.
  destruct (year_truthy (publication_year w)); [|exact IH].
  apply append_at_keys, IH.
Qed.

Lemma by_year_get_NoDup d y cites :
  NoDup (map fst d) -> In (y, cites) d -> by_year_get d y = Some cites.
Proof.
  induction d as [|[y' c'] d IH]; simpl; [intros _ []|].
  rewrite NoDup_cons. intros [Hy Hn] [H|H].
  - inversion H; subst. rewrite Z.eqb_refl. reflexivity.
  - destruct (Z.eqb_spec y' y) as [->|Hne]; [|auto].
    exfalso. apply Hy. apply list_elem_of_In.
    apply (in_map fst) in H. exact H.
Qed.

(** Every entry of the grouping is the group of its year. *)
Lemma citations_by_year_entries works y cites :
  In (y, cites) (citations_by_year works) ->
  cites = cites_of y works /\ cites <> [].
Proof.
  intros H.
  pose proof (by_year_get_NoDup _ _ _ (citations_by_year_NoDup works) H)
    as Hg.
  rewrite citations_by_year_groups in Hg.
  destruct (cites_of y works) as [|c l]; [discriminate|].
  inversion Hg; subst. split; [reflexivity|discriminate].
Qed.

Lemma sum_cites_total cites :
  ~ In None cites -> exists s, sum_cites cites = Ok s.
Proof.
  induction cites as [|[c|] cites IH]; simpl; intros H.
  - eauto.
  - destruct IH as [s ->]; [tauto|]. simpl. eauto.
  - exfalso. apply H. auto.
Qed.

Lemma sum_cites_None cites :
  In None cites -> sum_cites cites = Raise TypeError.
Proof.
  induction cites as [|[c|] cites IH]; simpl; intros H.
  - destruct H.
  - destruct H as [H|H]; [discriminate|]. rewrite (IH H). reflexivity.
  - reflexivity.
Qed.

Lemma map_result_Raise {A B} (f : A -> result B) (l : list A) e :
  Forall (fun a => (exists b, f a = Ok b) \/ f a = Raise e) l ->
  Exists (fun a => f a = Raise e) l ->
  map_result f l = Raise e.
Proof.
  induction l as [|a l IH]; intros Hf He; [inversion He|].
  apply Forall_cons in Hf. destruct Hf as [Ha Hf]. simpl.
  destruct Ha as [[b Hb]| ->]; [|reflexivity].
  rewrite Hb. simpl. rewrite IH; [reflexivity|exact Hf|].
  inversion He; subst; [congruence|assumption].
Qed.

(** A work with a year has a count whenever the statistics exist. *)
Lemma dated_work_counted (works : list work) cs w y :
  citation_stats works = Ok cs -> In w works ->
  year_truthy (publication_year w) = Some y ->
  cited_by_count w <> None.
Proof.
  intros Hcs Hin Ey Hc. unfold citation_stats in Hcs.
  destruct (citations_by_year_In works w y Hin Ey) as (cites & Hg & Hi).
  assert (Hall : Forall (fun a => exists b, year_stats a = Ok b)
                   (citations_by_year works))
    by (apply map_result_Ok_Forall; eauto).
  rewrite List.Forall_forall in Hall.
  destruct (Hall _ (by_year_get_Some_In _ _ _ Hg)) as [s Hs].
  unfold year_stats in Hs.
  destruct (mean cites) as [q|e] eqn:Em; [|discriminate].
  apply (mean_Ok _ _ Em). rewrite <- Hc. exact Hi.
Qed.

Lemma stats_no_group (works : list work) cs y :
  citation_stats works = Ok cs -> cites_of y works = [] ->
  stats_get cs y = None.
Proof.
  intros H Ec. unfold citation_stats in H.
  rewrite (stats_get_map _ _ y H), citations_by_year_groups, Ec.
  reflexivity.
Qed.

Lemma stats_of_group (works : list work) cs y c l :
  citation_stats works = Ok cs -> cites_of y works = c :: l ->
  exists total,
    sum_cites (c :: l) = Ok total /\
    stats_get cs y =
      Some {| average := Qmake total (Pos.of_nat (length (c :: l)));
              count := length (c :: l) |}.
Proof.
  intros H Ec. unfold citation_stats in H.
  rewrite (stats_get_map _ _ y H), citations_by_year_groups, Ec.
  assert (Hin : In (y, c :: l) (citations_by_year works)).
  { apply by_year_get_Some_In. rewrite citations_by_year_groups, Ec.
    reflexivity. }
  assert (Hok : exists s, year_stats (y, c :: l) = Ok s).
  { assert (Hall : Forall (fun a => exists b, year_stats a = Ok b)
                     (citations_by_year works))
      by (apply map_result_Ok_Forall; eauto).
    rewrite List.Forall_forall in Hall. apply Hall, Hin. }
  destruct Hok as [s Hs]. unfold year_stats in Hs.
  destruct (mean (c :: l)) as [q|e] eqn:Em; [|discriminate].
  unfold mean in Em.
  destruct (sum_cites (c :: l)) as [total|e] eqn:Et; [|discriminate].
  simpl in Em. inversion Em; subst q. exists total. auto.
Qed.



(** X28.  Which works get a score.  When the statistics are computed,
    a work without a year, or with the year 0, gets no score.  A work
    with a year gets a score exactly when the citation counts of the
    works of that year sum to more than zero, and the score is then the
    value of the expression of line 35 (or the [OverflowError] it raises
    for an integer too large for a float); all works of a year that was
    never cited are left out of the ranking. *)
Theorem X28_scored_iff_year_was_cited
  (works : list work) (cs : list (Z * stats)) (w : work) :
  citation_stats works = Ok cs -> In w works ->
  match year_truthy (publication_year w) with
  | None => normalized_citation_score cs w = Ok None
  | Some y =>
      exists c total,
        cited_by_count w = Some c /\
        sum_cites (cites_of y works) = Ok total /\
        normalized_citation_score cs w =
          (if 0 <? total
           then (do score <- score_expr c y; Ok (Some score))
           else Ok None)
  end.
Proof.
  intros Hcs Hin. unfold normalized_citation_score, has_positive_average.
  destruct (year_truthy (publication_year w)) as [y|] eqn:Ey.
  - destruct (year_truthy_Some _ _ Ey) as [Hy _].
    destruct (cited_by_count w) as [c|] eqn:Ec.
    2:{ exfalso. exact (dated_work_counted works cs w y Hcs Hin Ey Ec). }
    assert (Hne : In (Some c) (cites_of y works)).
    { unfold cites_of. rewrite <- Ec. apply in_map, filter_In.
      split; [exact Hin|]. apply of_year_true, Ey. }
    destruct (cites_of y works) as [|c0 l] eqn:El; [destruct Hne|].
    destruct (stats_of_group works cs y c0 l Hcs El) as (total & Ht & Hs).
    exists c, total. split; [reflexivity|]. split; [exact Ht|].
    rewrite Hy, Hs. cbn [average]. unfold Qle_bool. cbn [Qnum Qden].
    destruct (Z.leb_spec (total * 1) (0 * Z.pos (Pos.of_nat (length (c0 :: l)))));
      destruct (Z.ltb_spec 0 total); try reflexivity; lia.
  - destruct (publication_year w) as [y|] eqn:Ey'; [|reflexivity].
    assert (y = 0) as ->.
    { unfold year_truthy in Ey. destruct (Z.eqb_spec y 0); congruence. }
    assert (Hnone : cites_of 0 works = []).
    { pose proof (citations_by_year_groups works 0) as H0.
      rewrite citations_by_year_zero in H0.
      destruct (cites_of 0 works); [reflexivity|discriminate]. }
    rewrite (stats_no_group works cs 0 Hcs Hnone). reflexivity.
Qed.

(** ** The listing *)

Lemma str_take_len (n : nat) (s : string) :
  (str_len (str_take n s) <= n)%nat.
Proof.
  revert n. induction s as [|c s IH]; intros n; simpl; [lia|].
  destruct (is_continuation c) eqn:Ec; simpl.
  - rewrite Ec. apply IH.
  - destruct n as [|n]; simpl; [lia|]. rewrite Ec. specialize (IH n). lia.
Qed.

Lemma print_from_shape (i : nat) (l : list (work * float)) :
  let '(printed, stop) := print_from i l in
  map rank printed = seq i (length printed) /\
  Forall (fun e => (str_len (title80 e) <= 80)%nat) printed /\
  map score printed = map snd (firstn (length printed) l) /\
  match stop with
  | None =>
      length printed = length l /\
      Forall (fun ws => title (fst ws) <> None) l
  | Some e =>
      e = TypeError /\
      exists ws, nth_error l (length printed) = Some ws /\
                 title (fst ws) = None
  end.
Proof.
  revert i. induction l as [|ws l IH]; intros i; simpl.
  - repeat split; constructor.
  - unfold print_entry. destruct (title (fst ws)) as [t|] eqn:Et.
    + specialize (IH (S i)). destruct (print_from (S i) l) as [printed stop].
      destruct IH as (Hr & Ht & Hs & Hstop). simpl.
      split; [f_equal; exact Hr|]. split.
      * constructor; [apply str_take_len|exact Ht].
      * split; [f_equal; exact Hs|].
        destruct stop as [e|].
        -- exact Hstop.
        -- destruct Hstop as [Hl Hf]. split; [f_equal; exact Hl|].
           constructor; [congruence|exact Hf].
    + simpl. repeat split; try constructor. exists ws. auto.
Qed.


End AnalysisFacts.

(* ===================================================================== *)
(** * The statements above on sample runs                                 *)
(* ===================================================================== *)

Lemma X1_openalex_one_sleep_between_requests_witness :
  length (OpenAlex.requests Cases.after_failure)
    = S (OpenAlex.sleeps Cases.after_failure) /\
  (length (OpenAlex.requests Cases.after_failure) <= 2)%nat.
Proof.
  exact (X1_openalex_one_sleep_between_requests Sim.page2_fails 2 tt ∅
           Exited Cases.after_failure eq_refl).
Defined.

Lemma X2_openalex_file_mirrors_works_witness :
  (forall p, p <> OpenAlex.output_file ->
     OpenAlex.disk Cases.after_failure !! p = (∅ : gmap string file) !! p) /\
  (OpenAlex.disk Cases.after_failure !! OpenAlex.output_file
     = Some (Doc (OpenAlex.all_works Cases.after_failure)) \/
   ((∅ : gmap string file) !! OpenAlex.output_file = None /\
    OpenAlex.disk Cases.after_failure !! OpenAlex.output_file = None /\
    OpenAlex.all_works Cases.after_failure = JArr [])).
Proof.
  exact (X2_openalex_file_mirrors_works Sim.page2_fails 2 tt ∅
           Exited Cases.after_failure eq_refl).
Defined.

Lemma X3_openalex_persisted_records_kept_witness :
  exists added,
    OpenAlex.all_works Cases.resumed_after_failure
      = JArr ([Sim.r3] ++ added) /\
    OpenAlex.disk Cases.resumed_after_failure !! OpenAlex.output_file
      = Some (Doc (JArr ([Sim.r3] ++ added))).
Proof.
  exact (X3_openalex_persisted_records_kept Sim.page2_fails 2 tt
           Cases.one_on_file Exited Cases.resumed_after_failure [Sim.r3]
           eq_refl eq_refl).
Defined.

Lemma X6_openalex_bad_record_loses_page_witness :
  OpenAlex.main unit Cases.orphan_on_page2 (1 + 1) tt ∅ =
  (Crashed AttributeError,
   Some {| OpenAlex.srv := tt;
           OpenAlex.disk := OpenAlex.disk Cases.before_orphan;
           OpenAlex.stdout := OpenAlex.stdout Cases.before_orphan;
           OpenAlex.sleeps := OpenAlex.sleeps Cases.before_orphan;
           OpenAlex.requests :=
             OpenAlex.requests Cases.before_orphan
             ++ [OpenAlex.cursor Cases.before_orphan];
           OpenAlex.cursor := OpenAlex.cursor Cases.before_orphan;
           OpenAlex.all_works := OpenAlex.all_works Cases.before_orphan |}).
Proof.
  exact (X6_openalex_bad_record_loses_page Cases.orphan_on_page2 1 0 tt ∅
           Cases.before_orphan
           (Sim.ok (Sim.page [Sim.w2; Cases.orphan] JNull)) tt
           (Sim.page [Sim.w2; Cases.orphan] JNull)
           (JArr [Sim.w2; Cases.orphan]) [Sim.w2; Cases.orphan]
           AttributeError
           eq_refl eq_refl eq_refl eq_refl eq_refl eq_refl eq_refl).
Defined.

Lemma X9_count_request_failures_witness :
  PubMed.search_ml_medicine_articles (list response) Sim.scripted
    Sim.int_of_digits 2 "out.json" (PubMed.boot [Sim.failed 503] ∅) =
  (Raise (HTTPError 503),
   {| PubMed.srv := [];
      PubMed.disk := ∅;
      PubMed.log := [PubMed.StartingNew;
                     PubMed.Searching "Artificial Intelligence"];
      PubMed.sleeps := O;
      PubMed.requests := [PubMed.ESearch "Artificial Intelligence" 0 0];
      PubMed.searched_combos := JArr [];
      PubMed.all_articles := JObj [] |}).
Proof.
  pose proof (X9_count_request_failures Sim.scripted Sim.int_of_digits 2
                "out.json" [Sim.failed 503] ∅ (Sim.failed 503) []
                (or_introl eq_refl) eq_refl) as H.
  cbv zeta in H. destruct H as [H _]. apply H. simpl. lia.
Defined.


Lemma X12_search_writes_two_files_only_witness :
  PubMed.disk
    (snd (PubMed.search_ml_medicine_articles (list response) Sim.scripted
            Sim.int_of_digits 2 "out.json"
            (PubMed.boot Sim.six_found (<["notes.txt" := Doc JNull]> ∅))))
    !! "notes.txt"
  = (<["notes.txt" := Doc JNull]> ∅ : gmap string file) !! "notes.txt".
Proof.
  exact (X12_search_writes_two_files_only Sim.scripted Sim.int_of_digits 2
           "out.json" Sim.six_found (<["notes.txt" := Doc JNull]> ∅)
           "notes.txt" ltac:(discriminate) ltac:(discriminate)
           ltac:(discriminate)).
Defined.

Lemma X13_resumed_articles_never_lost_witness :
  let st :=
    snd (PubMed.search_ml_medicine_articles (list response) Sim.scripted
           Sim.int_of_digits 2 "out.json"
           (PubMed.boot Sim.six_found Cases.one_saved)) in
  Observe.on_file "7" (PubMed.all_articles st) /\
  Observe.saved "7" (PubMed.disk st).
Proof.
  refine (X13_resumed_articles_never_lost Sim.scripted Sim.int_of_digits 2
            "out.json" Sim.six_found Cases.one_saved "7"
            ltac:(discriminate) _).
  exists (JObj [("searched_combos", JArr []);
                ("articles", JObj [("7", Sim.doc "Earlier")])]),
         (JObj [("7", Sim.doc "Earlier")]).
  split; [reflexivity|]. split; [reflexivity|].
  exists [("7", Sim.doc "Earlier")]. split; [reflexivity|].
  left. reflexivity.
Defined.

Lemma X14_uids_never_filed_witness :
  (∅ : gmap string file) !! PubMed.progress_file = None /\
  ~ Observe.on_file "uids"
      (PubMed.all_articles
         (snd (PubMed.search_ml_medicine_articles (list response)
                 Sim.scripted Sim.int_of_digits 2 "out.json"
                 (PubMed.boot Sim.six_found ∅)))).
Proof.
  split; [reflexivity|].
  exact (X14_uids_never_filed Sim.scripted Sim.int_of_digits 2 "out.json"
           Sim.six_found ∅ (or_introl eq_refl)).
Defined.


Lemma X16_download_survives_failures_witness :
  exists st,
    Download.download_full_texts (list Download.reply) Cases.texts
      Cases.in_order Cases.no_json Cases.mkdir (JObj Cases.three_articles)
      "full_texts" true Cases.one_served ∅ = (Ok tt, st) /\
    Download.completed st = 2%nat /\
    Download.requests st = ["11"; "12"].
Proof.
  refine (X16_download_survives_failures Cases.texts Cases.in_order
            Cases.no_json Cases.mkdir Cases.three_articles "full_texts" true
            Cases.one_served ∅ ∅
            (Download.logger _ Download.NoProgress
               (Download.boot Cases.one_served ∅))
            eq_refl eq_refl _ _).
  - constructor; [right; eexists; reflexivity|].
    constructor; [left; reflexivity|].
    constructor; [right; eexists; reflexivity|]. constructor.
  - unfold Cases.three_articles. simpl.
    repeat (apply NoDup_cons; split;
            [rewrite ?elem_of_cons, elem_of_nil; intuition discriminate|]).
    apply NoDup_nil. exact I.
Defined.

Lemma X17_resumed_download_skips_witness :
  exists st,
    Download.download_full_texts (list Download.reply) Cases.texts
      Cases.in_order Cases.no_json Cases.mkdir (JObj Cases.three_articles)
      "full_texts" true Cases.one_served Cases.both_listed = (Ok tt, st) /\
    Download.requests st = [] /\ Download.disk st = Cases.both_listed /\
    Download.sleeps st = O /\ Download.completed st = 2%nat.
Proof.
  refine (X17_resumed_download_skips Cases.texts Cases.in_order
            Cases.no_json Cases.mkdir Cases.three_articles ["12"; "11"]
            "full_texts" Cases.one_served Cases.both_listed
            Cases.both_listed eq_refl eq_refl _).
  intros k Hin Hu. simpl in Hin.
  destruct Hin as [<-|[<-|[<-|[]]]]; simpl; auto;
    exfalso; apply Hu; reflexivity.
Defined.

Lemma X18_marked_downloads_are_on_disk_witness :
  let st :=
    snd (Download.download_full_texts (list Download.reply) Cases.texts
           Cases.in_order Cases.no_json Cases.mkdir
           (JObj Cases.three_articles) "full_texts" true
           Cases.one_served ∅) in
  (forall k,
     Download.set_mem (JStr k) (Download.downloaded_ids st) = true ->
     Download.set_mem (JStr k)
       (Download.downloaded_ids
          (Download.logger _ Download.NoProgress
             (Download.boot Cases.one_served ∅))) = true \/
     ObserveDownload.has_xml "full_texts" k (Download.disk st)) /\
  ((Download.downloaded_ids st
      = Download.downloaded_ids
          (Download.logger _ Download.NoProgress
             (Download.boot Cases.one_served ∅)) /\
    Download.disk st !! Download.download_progress_file
      = (∅ : gmap string Download.content)
          !! Download.download_progress_file)
   \/ Download.disk st !! Download.download_progress_file
      = Some (Download.Doc
                (JArr (Cases.in_order (Download.downloaded_ids st))))).
Proof.
  exact (proj1 (X18_marked_downloads_are_on_disk Cases.texts Cases.in_order
                  Cases.no_json Cases.mkdir (JObj Cases.three_articles)
                  "full_texts" true Cases.one_served ∅)
           ∅
           (Download.logger _ Download.NoProgress
              (Download.boot Cases.one_served ∅))
           eq_refl eq_refl).
Defined.

Lemma X19_failed_attempt_marks_nothing_witness :
  let st' :=
    Download.attempt (list Download.reply) Cases.texts Cases.in_order
      "full_texts" "11"
      (Download.boot [{| Download.status := 204; Download.text := "" |}] ∅) in
  Download.disk st'
    = <[Download.xml_path "full_texts" "11" := Download.Bytes ""]> ∅ /\
  Download.downloaded_ids st' = [] /\ Download.sleeps st' = O.
Proof.
  pose proof (X19_failed_attempt_marks_nothing Cases.texts Cases.in_order
                "full_texts" "11"
                (Download.boot
                   [{| Download.status := 204; Download.text := "" |}] ∅)
                {| Download.status := 204; Download.text := "" |} []
                eq_refl) as H.
  cbv zeta in H. destruct H as [_ H]. apply H; simpl; lia.
Defined.

Lemma X20_download_progress_not_a_list_witness :
  Download.download_full_texts (list Download.reply) Cases.texts
    Cases.in_order Cases.no_json Cases.mkdir (JObj Cases.three_articles)
    "full_texts" true Cases.one_served
    (<[Download.download_progress_file := Download.Doc (JInt 5)]> ∅)
  = (Raise TypeError,
     Download.boot Cases.one_served
       (<[Download.download_progress_file := Download.Doc (JInt 5)]> ∅)).
Proof.
  refine (X20_download_progress_not_a_list Cases.texts Cases.in_order
            Cases.no_json Cases.mkdir (JObj Cases.three_articles) (JInt 5)
            "full_texts" Cases.one_served
            (<[Download.download_progress_file := Download.Doc (JInt 5)]> ∅)
            (<[Download.download_progress_file := Download.Doc (JInt 5)]> ∅)
            eq_refl eq_refl _).
  left. intros l. discriminate.
Defined.

Lemma X23_pmids_file_grows_quadratically_witness :
  let st := snd (Pmids.main unit Cases.always_two Sim.str_of 3 tt ∅) in
  (2 * length (default [] (Pmids.disk st !! Pmids.pmidsmeta)) =
   2 * length (default [] ((∅ : gmap string (list string))
                             !! Pmids.pmidsmeta))
   + 2 * 3 * (3 + 1))%nat.
Proof.
  refine (X23_pmids_file_grows_quadratically Cases.always_two Sim.str_of
            2 3 tt ∅ _ eq_refl _).
  repeat (constructor; [eexists; split; reflexivity|]). constructor.
Defined.

Lemma X24_pmids_empty_batches_never_stop_witness :
  let st := snd (Pmids.main unit Cases.run_dry Sim.str_of 4 tt ∅) in
  fst (Pmids.main unit Cases.run_dry Sim.str_of 4 tt ∅) = Running /\
  Pmids.successes st = O /\
  length (Pmids.requests st) = 4%nat /\ Pmids.sleeps st = 4%nat /\
  default [] (Pmids.disk st !! Pmids.pmidsmeta)
    = default [] ((∅ : gmap string (list string)) !! Pmids.pmidsmeta).
Proof.
  exact (X24_pmids_empty_batches_never_stop Cases.run_dry Sim.str_of tt ∅
           (fun _ _ => eq_refl) 4%nat).
Defined.


Lemma X28_scored_iff_year_was_cited_witness :
  let w := {| Analysis.title := Some "Uncited note";
              Analysis.publication_year := Some 2021;
              Analysis.cited_by_count := Some 0;
              Analysis.authors := [] |} in
  exists c total,
    Analysis.cited_by_count w = Some c /\
    Analysis.sum_cites (ObserveAnalysis.cites_of 2021 Sim.sample_works)
      = Ok total /\
    Analysis.normalized_citation_score Sim.sample_stats w =
      (if 0 <? total
       then (do score <- Analysis.score_expr c 2021; Ok (Some score))
       else Ok None).
Proof.
  exact (X28_scored_iff_year_was_cited Sim.sample_works Sim.sample_stats
           {| Analysis.title := Some "Uncited note";
              Analysis.publication_year := Some 2021;
              Analysis.cited_by_count := Some 0;
              Analysis.authors := [] |}
           eq_refl (or_intror (or_intror (or_introl eq_refl)))).
Defined.
